(** * HRMS Lite: employees, daily attendance and attendance statistics

    A shallow embedding of the two storage backends of the service:

    - [Mongo], from [backend/main.py]: FastAPI handlers over two MongoDB
      collections with unique indexes on [employee_id], on [email] and on
      the pair [(employee_id, date)];
    - [Sql], from [backend/test/test.py]: the same HTTP surface over two
      SQLAlchemy tables.

    Handlers are written once, as programs over the storage commands they
    issue, and run against a store.  [run] executes a handler without
    interruption; [run_interleaved] lets other requests change the store
    between two storage round-trips of the handler. *)

From Stdlib Require Import ZArith String Ascii List Lia Bool.
From stdpp Require Import base tactics option list gmap strings sorting.

Local Open Scope string_scope.
Local Open Scope Z_scope.

(** ** Python strings

    A character is a code point below 256; [str.strip()] removes the
    characters for which [str.isspace()] holds from both ends. *)

Module Text.

Definition isspace (c : ascii) : bool :=
  let n := N_of_ascii c in
  (((9 <=? n) && (n <=? 13)) || ((28 <=? n) && (n <=? 32))
   || (n =? 133) || (n =? 160))%N.

Fixpoint lstrip (s : string) : string :=
  match s with
  | EmptyString => EmptyString
  | String c s' => if isspace c then lstrip s' else s
  end.

Fixpoint rstrip (s : string) : string :=
  match s with
  | EmptyString => EmptyString
  | String c s' =>
      match rstrip s' with
      | EmptyString => if isspace c then EmptyString else String c EmptyString
      | r => String c r
      end
  end.

Definition strip (s : string) : string := rstrip (lstrip s).

(** Python truthiness of a [str]. *)
Definition truthy (s : string) : bool :=
  match s with EmptyString => false | String _ _ => true end.

(** Truthiness of an [Optional[str]]: [None] and [""] are falsy. *)
Definition truthy_opt (o : option string) : bool :=
  match o with Some s => truthy s | None => false end.

Definition is_digit (c : ascii) : bool :=
  let n := N_of_ascii c in ((48 <=? n) && (n <=? 57))%N.

Definition digit_val (c : ascii) : Z := Z.of_N (N_of_ascii c) - 48.

End Text.

(** ** Exceptions and their HTTP status

    [HTTPException] is answered with its own status code, a request
    validation failure with 422, and any other exception that leaves a
    handler with 500. *)

Inductive exn : Type :=
| HTTPException (status_code : Z) (detail : string)
| RequestValidationError
| ValueError (msg : string)
| TypeError
| AttributeError
| ResponseValidationError
| DuplicateKeyError
| IntegrityError
| StaleDataError.

Definition http_status (e : exn) : Z :=
  match e with
  | HTTPException c _ => c
  | RequestValidationError => 422
  | _ => 500
  end.

(** The error kinds of the service, by the status they are answered with. *)
Definition is_ValidationError (e : exn) : Prop := http_status e = 422.
Definition is_ConflictError (e : exn) : Prop := http_status e = 400.
Definition is_NotFoundError (e : exn) : Prop := http_status e = 404.

(** ** Calendar dates and datetimes

    [datetime.date] is a (year, month, day) triple compared
    lexicographically; [datetime.datetime] adds the time of day, kept here
    in microseconds since midnight. *)

Record date := mkDate { year : Z; month : Z; day : Z }.

Record datetime := mkDatetime { dt_date : date; dt_time : Z }.

#[global] Instance date_eq_dec : EqDecision date.
Proof. solve_decision. Defined.

#[global] Instance datetime_eq_dec : EqDecision datetime.
Proof. solve_decision. Defined.

Module Calendar.

Definition date_eqb (a b : date) : bool :=
  (year a =? year b) && (month a =? month b) && (day a =? day b).

Definition date_ltb (a b : date) : bool :=
  (year a <? year b)
  || ((year a =? year b)
      && ((month a <? month b) || ((month a =? month b) && (day a <? day b)))).

Definition date_leb (a b : date) : bool := date_ltb a b || date_eqb a b.

Definition datetime_eqb (a b : datetime) : bool :=
  date_eqb (dt_date a) (dt_date b) && (dt_time a =? dt_time b).

Definition datetime_ltb (a b : datetime) : bool :=
  date_ltb (dt_date a) (dt_date b)
  || (date_eqb (dt_date a) (dt_date b) && (dt_time a <? dt_time b)).

Definition datetime_leb (a b : datetime) : bool :=
  datetime_ltb a b || datetime_eqb a b.

(** [datetime.combine(d, datetime.min.time())] *)
Definition combine_min (d : date) : datetime := mkDatetime d 0.

Definition is_leap (y : Z) : bool :=
  ((y mod 4 =? 0) && negb (y mod 100 =? 0)) || (y mod 400 =? 0).

Definition days_in_month (y m : Z) : Z :=
  if m =? 2 then (if is_leap y then 29 else 28)
  else if (m =? 4) || (m =? 6) || (m =? 9) || (m =? 11) then 30
  else 31.

(** The range check of the [datetime] constructor (MINYEAR = 1,
    MAXYEAR = 9999). *)
Definition valid_ymd (y m d : Z) : bool :=
  (1 <=? y) && (y <=? 9999) && (1 <=? m) && (m <=? 12)
  && (1 <=? d) && (d <=? days_in_month y m).

(** [datetime.strptime(s, "%Y-%m-%d")]: the directives stand for the
    regular expressions [\d\d\d\d], [1[0-2]|0[1-9]|[1-9]] and
    [3[0-1]|[1-2]\d|0[1-9]|[1-9]| [1-9]]; the whole string has to be
    consumed and the fields have to pass the [datetime] constructor. *)

Definition two_digits (a b : ascii) : Z :=
  10 * Text.digit_val a + Text.digit_val b.

Definition match_month (tok : list ascii) : option Z :=
  match tok with
  | [a; b] =>
      if Text.is_digit a && Text.is_digit b
         && (1 <=? two_digits a b) && (two_digits a b <=? 12)
      then Some (two_digits a b) else None
  | [a] =>
      if Text.is_digit a && (1 <=? Text.digit_val a)
      then Some (Text.digit_val a) else None
  | _ => None
  end.

Definition match_day (tok : list ascii) : option Z :=
  match tok with
  | [a; b] =>
      if Text.is_digit a && Text.is_digit b
         && (1 <=? two_digits a b) && (two_digits a b <=? 31)
      then Some (two_digits a b)
      else if Ascii.eqb a " " && Text.is_digit b && (1 <=? Text.digit_val b)
      then Some (Text.digit_val b) else None
  | [a] =>
      if Text.is_digit a && (1 <=? Text.digit_val a)
      then Some (Text.digit_val a) else None
  | _ => None
  end.

(** Splits at the first ["-"]. *)
Fixpoint break_dash (cs : list ascii) : option (list ascii * list ascii) :=
  match cs with
  | [] => None
  | c :: cs' =>
      if Ascii.eqb c "-" then Some ([], cs')
      else match break_dash cs' with
           | Some (tok, rest) => Some (c :: tok, rest)
           | None => None
           end
  end.

Definition strptime_ymd (s : string) : exn + datetime :=
  match list_ascii_of_string s with
  | y1 :: y2 :: y3 :: y4 :: dash :: rest =>
      if Text.is_digit y1 && Text.is_digit y2 && Text.is_digit y3
         && Text.is_digit y4 && Ascii.eqb dash "-"
      then
        match break_dash rest with
        | Some (m_tok, d_tok) =>
            match match_month m_tok, match_day d_tok with
            | Some m, Some d =>
                let y := 100 * two_digits y1 y2 + two_digits y3 y4 in
                if valid_ymd y m d
                then inr (mkDatetime (mkDate y m d) 0)
                else inl (ValueError "value is out of range")
            | _, _ => inl (ValueError "time data does not match format")
            end
        | None => inl (ValueError "time data does not match format")
        end
      else inl (ValueError "time data does not match format")
  | _ => inl (ValueError "time data does not match format")
  end.

(** The calendar dates of ISO 8601, [YYYY-MM-DD]. *)
Definition iso_date (s : string) : option date :=
  match list_ascii_of_string s with
  | [y1; y2; y3; y4; d1; m1; m2; d2; a; b] =>
      if Text.is_digit y1 && Text.is_digit y2 && Text.is_digit y3
         && Text.is_digit y4 && Ascii.eqb d1 "-" && Text.is_digit m1
         && Text.is_digit m2 && Ascii.eqb d2 "-" && Text.is_digit a
         && Text.is_digit b
      then
        let y := 100 * two_digits y1 y2 + two_digits y3 y4 in
        if valid_ymd y (two_digits m1 m2) (two_digits a b)
        then Some (mkDate y (two_digits m1 m2) (two_digits a b))
        else None
      else None
  | _ => None
  end.

End Calendar.

(** ** Request and response models shared by the two backends *)

Inductive AttendanceStatus : Type := PRESENT | ABSENT.

#[global] Instance AttendanceStatus_eq_dec : EqDecision AttendanceStatus.
Proof. solve_decision. Defined.

Definition status_value (s : AttendanceStatus) : string :=
  match s with PRESENT => "Present" | ABSENT => "Absent" end.

Definition status_eqb (a b : AttendanceStatus) : bool :=
  match a, b with
  | PRESENT, PRESENT | ABSENT, ABSENT => true
  | _, _ => false
  end.

Definition status_of_value (s : string) : option AttendanceStatus :=
  if String.eqb s "Present" then Some PRESENT
  else if String.eqb s "Absent" then Some ABSENT
  else None.

Record EmployeeCreate := mkEmployeeCreate {
  ec_employee_id : string;
  ec_full_name : string;
  ec_email : string;
  ec_department : string
}.

Record AttendanceCreate := mkAttendanceCreate {
  ac_employee_id : string;
  ac_date : date;
  ac_status : AttendanceStatus
}.

Record Employee := mkEmployee {
  emp_id : Z;
  emp_employee_id : string;
  emp_full_name : string;
  emp_email : string;
  emp_department : string
}.

Record Attendance := mkAttendance {
  att_id : Z;
  att_employee_id : string;
  att_date : date;
  att_status : AttendanceStatus;
  att_employee_name : option string
}.

Record AttendanceStats := mkAttendanceStats {
  st_employee_id : string;
  st_employee_name : string;
  total_present : Z;
  total_absent : Z;
  total_days : Z
}.

(** ** Vocabulary of the listing filters *)

(** A test that an absent filter does not make. *)
Definition holds {A} (o : option A) (test : A -> bool) : bool :=
  match o with Some x => test x | None => true end.

(** A string parameter counts as given when it is truthy. *)
Definition given (o : option string) : option string :=
  match o with
  | Some s => if Text.truthy s then Some s else None
  | None => None
  end.

(** The records that the filters of a listing select: the employee when
    one is asked for, and the inclusive range of dates. *)
Definition selected (employee_id : option string) (lo hi : option date)
    (eid : string) (d : date) : bool :=
  holds employee_id (fun s => String.eqb eid s)
  && holds lo (fun l => Calendar.date_leb l d)
  && holds hi (fun h => Calendar.date_leb d h).

Definition newest_first (a b : Attendance) : Prop :=
  Calendar.date_leb (att_date b) (att_date a) = true.

(** ** Pydantic field checks *)

Module Pydantic.

(** [Field(..., min_length=lo, max_length=hi)] *)
Definition length_between (lo hi : nat) (v : string) : bool :=
  (lo <=? String.length v)%nat && (String.length v <=? hi)%nat.

(** A [ValueError] raised by a field validator is reported by pydantic as
    a validation error of the request. *)
Definition field {A} (r : exn + A) : exn + A :=
  match r with
  | inl _ => inl RequestValidationError
  | inr a => inr a
  end.

Definition require (b : bool) : exn + unit :=
  if b then inr tt else inl RequestValidationError.

Definition and_then {A B} (r : exn + A) (f : A -> exn + B) : exn + B :=
  match r with inl e => inl e | inr a => f a end.

End Pydantic.

(** ** Handlers as programs over storage commands *)

Section Prog.
Context {cmd : Type -> Type} {store : Type}.
Context (exec : forall X, cmd X -> store -> (exn + X) * store).

Inductive prog (A : Type) : Type :=
| Ret (a : A)
| Raise (e : exn)
| Do {X : Type} (c : cmd X) (k : X -> prog A).

Arguments Ret {A} a.
Arguments Raise {A} e.
Arguments Do {A X} c k.

Fixpoint bind {A B} (p : prog A) (f : A -> prog B) : prog B :=
  match p with
  | Ret a => f a
  | Raise e => Raise e
  | Do c k => Do c (fun x => bind (k x) f)
  end.

Definition call {X} (c : cmd X) : prog X := Do c Ret.

(** A pure computation that may raise. *)
Definition lift {A} (r : exn + A) : prog A :=
  match r with inl e => Raise e | inr a => Ret a end.

(** [for x in xs: ys.append(body x)] *)
Fixpoint for_each {A B} (xs : list A) (body : A -> prog B) : prog (list B) :=
  match xs with
  | [] => Ret []
  | x :: xs' =>
      bind (body x) (fun y => bind (for_each xs' body) (fun ys => Ret (y :: ys)))
  end.

(** Other requests may run between two storage round-trips of a
    handler: before its n-th command the n-th element of [env] is
    applied to the store. *)
Fixpoint run_interleaved {A} (env : list (store -> store)) (p : prog A)
    (s : store) : (exn + A) * store :=
  match p with
  | Ret a => (inr a, s)
  | Raise e => (inl e, s)
  | Do c k =>
      let s1 := match env with f :: _ => f s | [] => s end in
      match exec _ c s1 with
      | (inl e, s2) => (inl e, s2)
      | (inr x, s2) => run_interleaved (tail env) (k x) s2
      end
  end.

(** A handler that runs alone. *)
Definition run {A} (p : prog A) (s : store) : (exn + A) * store :=
  run_interleaved [] p s.

(** A program that leaves the store as it found it. *)
Definition read_only {A} (p : prog A) : Prop :=
  forall s, snd (run p s) = s.

End Prog.

Arguments Ret {cmd A} a.
Arguments Raise {cmd A} e.
Arguments Do {cmd A X} c k.

Declare Scope prog_scope.
Delimit Scope prog_scope with prog.
Notation "'let*' x ':=' c1 'in' c2" := (bind c1 (fun x => c2))
  (at level 10, x name, c1 at level 100, c2 at level 200) : prog_scope.

Local Open Scope prog_scope.
Import Pydantic.

(** ** The MongoDB backend ([backend/main.py]) *)

Module Mongo.

(** *** Collections *)

Record employee_doc := mkEmployeeDoc {
  e_oid : Z;
  e_employee_id : string;
  e_full_name : string;
  e_email : string;
  e_department : string
}.

Record attendance_doc := mkAttendanceDoc {
  a_oid : Z;
  a_employee_id : string;
  a_date : datetime;
  a_status : string
}.

(** [next_oid] stands for the driver's generator of fresh [ObjectId]s. *)
Record database := mkDatabase {
  employees : list employee_doc;
  attendance : list attendance_doc;
  next_oid : Z
}.

Definition empty_database : database := mkDatabase [] [] 0.

(** *** Query documents *)

Inductive employee_filter : Type :=
| ByEmployeeId (employee_id : string)
| ByEmail (email : string)
| ByOid (oid : Z).

Definition employee_matches (f : employee_filter) (d : employee_doc) : bool :=
  match f with
  | ByEmployeeId s => String.eqb (e_employee_id d) s
  | ByEmail s => String.eqb (e_email d) s
  | ByOid i => e_oid d =? i
  end.

(** A query on the attendance collection: each key is optional, as in the
    dictionary that [get_attendance] fills. *)
Record attendance_query := mkQuery {
  q_oid : option Z;
  q_employee_id : option string;
  q_date : option datetime;
  q_date_gte : option datetime;
  q_date_lte : option datetime
}.

Definition empty_query : attendance_query := mkQuery None None None None None.

Definition set_employee_id (q : attendance_query) (s : string) : attendance_query :=
  mkQuery (q_oid q) (Some s) (q_date q) (q_date_gte q) (q_date_lte q).

Definition set_date_gte (q : attendance_query) (d : datetime) : attendance_query :=
  mkQuery (q_oid q) (q_employee_id q) (q_date q) (Some d) (q_date_lte q).

Definition set_date_lte (q : attendance_query) (d : datetime) : attendance_query :=
  mkQuery (q_oid q) (q_employee_id q) (q_date q) (q_date_gte q) (Some d).

Definition by_oid (i : Z) : attendance_query :=
  mkQuery (Some i) None None None None.

Definition by_key (employee_id : string) (d : datetime) : attendance_query :=
  mkQuery None (Some employee_id) (Some d) None None.

Definition attendance_matches (q : attendance_query) (d : attendance_doc) : bool :=
  holds (q_oid q) (fun i => a_oid d =? i)
  && holds (q_employee_id q) (fun s => String.eqb (a_employee_id d) s)
  && holds (q_date q) (fun x => Calendar.datetime_eqb (a_date d) x)
  && holds (q_date_gte q) (fun x => Calendar.datetime_leb x (a_date d))
  && holds (q_date_lte q) (fun x => Calendar.datetime_leb (a_date d) x).

(** *** Unique indexes, created in [lifespan] *)

Definition employee_index_clash (employee_id email : string) (d : employee_doc) : bool :=
  String.eqb (e_employee_id d) employee_id || String.eqb (e_email d) email.

Definition attendance_index_clash (employee_id : string) (dt : datetime)
    (d : attendance_doc) : bool :=
  String.eqb (a_employee_id d) employee_id && Calendar.datetime_eqb (a_date d) dt.

(** *** [update_one]: the first matching document is changed *)

Definition with_status (d : attendance_doc) (status : string) : attendance_doc :=
  mkAttendanceDoc (a_oid d) (a_employee_id d) (a_date d) status.

Fixpoint update_first (q : attendance_query) (status : string)
    (docs : list attendance_doc) : list attendance_doc :=
  match docs with
  | [] => []
  | d :: docs' =>
      if attendance_matches q d then with_status d status :: docs'
      else d :: update_first q status docs'
  end.

(** *** [.sort("date", -1)] *)

Definition date_desc (a b : attendance_doc) : Prop :=
  Is_true (Calendar.datetime_leb (a_date b) (a_date a)).

#[global] Instance date_desc_dec a b : Decision (date_desc a b).
Proof. unfold date_desc. apply _. Defined.

(** *** The [$group] stage of [get_attendance_stats] *)

Record group_doc := mkGroup {
  g_id : string;
  g_total_present : Z;
  g_total_absent : Z;
  g_total_days : Z
}.

Definition cond_eq (status value : string) : Z :=
  if String.eqb status value then 1 else 0.

Definition group_accumulate (g : group_doc) (d : attendance_doc) : group_doc :=
  mkGroup (g_id g)
    (g_total_present g + cond_eq (a_status d) "Present")
    (g_total_absent g + cond_eq (a_status d) "Absent")
    (g_total_days g + 1).

Fixpoint group_add (d : attendance_doc) (gs : list group_doc) : list group_doc :=
  match gs with
  | [] => [group_accumulate (mkGroup (a_employee_id d) 0 0 0) d]
  | g :: gs' =>
      if String.eqb (g_id g) (a_employee_id d)
      then group_accumulate g d :: gs'
      else g :: group_add d gs'
  end.

Definition aggregate_group (docs : list attendance_doc) : list group_doc :=
  fold_left (fun gs d => group_add d gs) docs [].

(** *** Storage commands *)

Inductive cmd : Type -> Type :=
| employees_find_one (f : employee_filter) : cmd (option employee_doc)
| employees_insert_one (doc : EmployeeCreate) : cmd Z
| employees_find : cmd (list employee_doc)
| attendance_find_one (q : attendance_query) : cmd (option attendance_doc)
| attendance_update_one (q : attendance_query) (status : string) : cmd unit
| attendance_insert_one (employee_id : string) (dt : datetime) (status : string) : cmd Z
| attendance_find_sorted (q : attendance_query) : cmd (list attendance_doc)
| attendance_aggregate : cmd (list group_doc).

Definition exec (X : Type) (c : cmd X) (db : database) : (exn + X) * database :=
  match c in cmd X return (exn + X) * database with
  | employees_find_one f => (inr (find (employee_matches f) (employees db)), db)
  | employees_insert_one doc =>
      if existsb (employee_index_clash (ec_employee_id doc) (ec_email doc))
           (employees db)
      then (inl DuplicateKeyError, db)
      else (inr (next_oid db),
            mkDatabase
              (employees db ++
                 [mkEmployeeDoc (next_oid db) (ec_employee_id doc)
                    (ec_full_name doc) (ec_email doc) (ec_department doc)])
              (attendance db) (next_oid db + 1))
  | employees_find => (inr (employees db), db)
  | attendance_find_one q =>
      (inr (find (attendance_matches q) (attendance db)), db)
  | attendance_update_one q status =>
      (inr tt,
       mkDatabase (employees db) (update_first q status (attendance db))
         (next_oid db))
  | attendance_insert_one employee_id dt status =>
      if existsb (attendance_index_clash employee_id dt) (attendance db)
      then (inl DuplicateKeyError, db)
      else (inr (next_oid db),
            mkDatabase (employees db)
              (attendance db ++
                 [mkAttendanceDoc (next_oid db) employee_id dt status])
              (next_oid db + 1))
  | attendance_find_sorted q =>
      (inr (merge_sort date_desc
              (filter (fun d => Is_true (attendance_matches q d)) (attendance db))),
       db)
  | attendance_aggregate => (inr (aggregate_group (attendance db)), db)
  end.

Abbreviation prog := (@prog cmd).

(** *** Pydantic models *)

(** [EmployeeCreate.no_empty_strings] *)
Definition no_empty_strings (v : string) : exn + string :=
  if negb (Text.truthy (Text.strip v))
  then inl (ValueError "Field cannot be empty")
  else inr (Text.strip v).

(** [AttendanceCreate.validate_date], with [date.today()] as [today]. *)
Definition validate_date (today v : date) : exn + date :=
  if Calendar.date_ltb today v
  then inl (ValueError "Attendance date cannot be in the future")
  else inr v.

Section Validation.
(** [EmailStr], from the [email-validator] package: the normalised
    address, or nothing when the syntax is rejected. *)
Variable EmailStr : string -> option string.

(** Building an [EmployeeCreate] from the four strings of a request body:
    the length bounds apply to the strings as submitted, the field
    validator runs after them. *)
Definition EmployeeCreate_validate (employee_id full_name email department : string)
    : exn + EmployeeCreate :=
  and_then (require (length_between 1 50 employee_id)) (fun _ =>
  and_then (field (no_empty_strings employee_id)) (fun employee_id' =>
  and_then (require (length_between 1 100 full_name)) (fun _ =>
  and_then (field (no_empty_strings full_name)) (fun full_name' =>
  match EmailStr email with
  | None => inl RequestValidationError
  | Some email' =>
      and_then (require (length_between 1 100 department)) (fun _ =>
      and_then (field (no_empty_strings department)) (fun department' =>
      inr (mkEmployeeCreate employee_id' full_name' email' department')))
  end)))).

End Validation.

(** Building an [AttendanceCreate] from a request body whose [date] is a
    calendar date and whose [status] is a string. *)
Definition AttendanceCreate_validate (today : date) (employee_id : string)
    (d : date) (status : string) : exn + AttendanceCreate :=
  and_then (field (validate_date today d)) (fun d' =>
  match status_of_value status with
  | None => inl RequestValidationError
  | Some st => inr (mkAttendanceCreate employee_id d' st)
  end).

(** *** Helpers *)

(** [employee_helper], then the [Employee] response model; subscripting
    [None] raises [TypeError]. *)
Definition employee_of_doc (d : employee_doc) : Employee :=
  mkEmployee (e_oid d) (e_employee_id d) (e_full_name d) (e_email d)
    (e_department d).

Definition employee_helper (emp : option employee_doc) : prog Employee :=
  match emp with
  | None => Raise TypeError
  | Some d => Ret (employee_of_doc d)
  end.

(** [attendance_helper] on a document whose [employee_name] has been set,
    then the [Attendance] response model, which turns [status] back into
    an [AttendanceStatus]. *)
Definition attendance_helper (att : option attendance_doc)
    (employee_name : option string) : prog Attendance :=
  match att with
  | None => Raise TypeError
  | Some d =>
      match status_of_value (a_status d) with
      | None => Raise ResponseValidationError
      | Some st =>
          Ret (mkAttendance (a_oid d) (a_employee_id d) (dt_date (a_date d))
                 st employee_name)
      end
  end.

(** *** Routes *)

Definition create_employee (employee : EmployeeCreate) : prog Employee :=
  let* by_id := call (employees_find_one (ByEmployeeId (ec_employee_id employee))) in
  match by_id with
  | Some _ => Raise (HTTPException 400 "Employee ID already exists")
  | None =>
      let* by_email := call (employees_find_one (ByEmail (ec_email employee))) in
      match by_email with
      | Some _ => Raise (HTTPException 400 "Email already exists")
      | None =>
          let* inserted_id := call (employees_insert_one employee) in
          let* new_emp := call (employees_find_one (ByOid inserted_id)) in
          employee_helper new_emp
      end
  end.

Definition get_employees : prog (list Employee) :=
  let* cursor := call employees_find in
  Ret (employee_of_doc <$> cursor).

Definition mark_attendance (attendance : AttendanceCreate) : prog Attendance :=
  let* employee := call (employees_find_one (ByEmployeeId (ac_employee_id attendance))) in
  match employee with
  | None => Raise (HTTPException 404 "Employee not found")
  | Some employee =>
      let date := Calendar.combine_min (ac_date attendance) in
      let status := status_value (ac_status attendance) in
      let* existing := call (attendance_find_one (by_key (ac_employee_id attendance) date)) in
      match existing with
      | Some existing =>
          let* _ := call (attendance_update_one (by_oid (a_oid existing)) status) in
          let* updated := call (attendance_find_one (by_oid (a_oid existing))) in
          attendance_helper updated (Some (e_full_name employee))
      | None =>
          let* inserted_id :=
            call (attendance_insert_one (ac_employee_id attendance) date status) in
          let* new_att := call (attendance_find_one (by_oid inserted_id)) in
          attendance_helper new_att (Some (e_full_name employee))
      end
  end.

(** The query dictionary of [get_attendance]; a parameter that is [None]
    or the empty string is falsy and adds no key. *)
Definition build_query (employee_id date_from date_to : option string)
    : exn + attendance_query :=
  let query := empty_query in
  let query :=
    match employee_id with
    | Some s => if Text.truthy s then set_employee_id query s else query
    | None => query
    end in
  and_then
    (match date_from with
     | Some s =>
         if Text.truthy s
         then and_then (Calendar.strptime_ymd s) (fun date_from_obj =>
              inr (set_date_gte query date_from_obj))
         else inr query
     | None => inr query
     end) (fun query =>
  match date_to with
  | Some s =>
      if Text.truthy s
      then and_then (Calendar.strptime_ymd s) (fun date_to_obj =>
           inr (set_date_lte query date_to_obj))
      else inr query
  | None => inr query
  end).

Definition get_attendance (employee_id date_from date_to : option string)
    : prog (list Attendance) :=
  let* query := lift (build_query employee_id date_from date_to) in
  let* cursor := call (attendance_find_sorted query) in
  for_each cursor (fun record =>
    let* emp := call (employees_find_one (ByEmployeeId (a_employee_id record))) in
    attendance_helper (Some record) (e_full_name <$> emp)).

Definition stats_entry (g : group_doc) : Z * Z * Z :=
  (g_total_present g, g_total_absent g, g_total_days g).

Definition get_attendance_stats : prog (list AttendanceStats) :=
  let* cursor := call attendance_aggregate in
  let attendance_stats : gmap string (Z * Z * Z) :=
    fold_left (fun m stat => <[g_id stat := stats_entry stat]> m) cursor ∅ in
  let* cursor := call employees_find in
  Ret ((fun employee =>
          let emp_id := e_employee_id employee in
          let emp_stats := default (0, 0, 0) (attendance_stats !! emp_id) in
          mkAttendanceStats emp_id (e_full_name employee)
            emp_stats.1.1 emp_stats.1.2 emp_stats.2) <$> cursor).

(** *** Requests served one after the other *)

Inductive request : Type :=
| CreateEmployee (employee : EmployeeCreate)
| GetEmployees
| MarkAttendance (attendance : AttendanceCreate)
| GetAttendance (employee_id date_from date_to : option string)
| GetAttendanceStats.

Definition serve (r : request) (db : database) : database :=
  match r with
  | CreateEmployee employee => snd (run exec (create_employee employee) db)
  | GetEmployees => snd (run exec get_employees db)
  | MarkAttendance attendance => snd (run exec (mark_attendance attendance) db)
  | GetAttendance e f t => snd (run exec (get_attendance e f t) db)
  | GetAttendanceStats => snd (run exec get_attendance_stats db)
  end.

Inductive reachable : database -> Prop :=
| reachable_empty : reachable empty_database
| reachable_serve r db : reachable db -> reachable (serve r db).

(** *** Well-formed stores *)

Definition key (d : attendance_doc) : string * datetime :=
  (a_employee_id d, a_date d).

Definition valid_status (d : attendance_doc) : Prop :=
  exists st, a_status d = status_value st.

Definition midnight (d : attendance_doc) : Prop := dt_time (a_date d) = 0.

Record wf (db : database) : Prop := mkWf {
  wf_employee_ids : NoDup (e_employee_id <$> employees db);
  wf_emails : NoDup (e_email <$> employees db);
  wf_keys : NoDup (key <$> attendance db);
  wf_midnight : Forall midnight (attendance db);
  wf_status : Forall valid_status (attendance db);
  wf_oids : NoDup (a_oid <$> attendance db);
  wf_fresh : Forall (fun d => a_oid d < next_oid db) (attendance db);
  wf_employee_fresh : Forall (fun d => e_oid d < next_oid db) (employees db)
}.

(** The attendance records of an employee on a calendar date. *)
Definition records_on (employee_id : string) (d : date) (db : database)
    : list attendance_doc :=
  filter (fun r => a_employee_id r = employee_id /\ dt_date (a_date r) = d)
    (attendance db).

(** *** Counting, as the statistics are specified *)

Definition count_status (employee_id status : string) (docs : list attendance_doc) : Z :=
  Z.of_nat (length
    (filter (fun d => a_employee_id d = employee_id /\ a_status d = status) docs)).

Definition count_records (employee_id : string) (docs : list attendance_doc) : Z :=
  Z.of_nat (length (filter (fun d => a_employee_id d = employee_id) docs)).

(** *** What a listing answers for a stored record *)

Definition stored_status (d : attendance_doc) : AttendanceStatus :=
  if String.eqb (a_status d) "Present" then PRESENT else ABSENT.

(** The name under which an [employee_id] is stored at present, if any. *)
Definition employee_name (db : database) (employee_id : string) : option string :=
  e_full_name <$> find (employee_matches (ByEmployeeId employee_id)) (employees db).

Definition response_of (db : database) (d : attendance_doc) : Attendance :=
  mkAttendance (a_oid d) (a_employee_id d) (dt_date (a_date d)) (stored_status d)
    (employee_name db (a_employee_id d)).

(** The bound that a [date_from] or [date_to] parameter stands for. *)
Definition date_bound (raw : option string) : exn + option date :=
  match raw with
  | Some s =>
      if Text.truthy s
      then match Calendar.strptime_ymd s with
           | inr dt => inr (Some (dt_date dt))
           | inl e => inl e
           end
      else inr None
  | None => inr None
  end.

(** The group of an [employee_id] in the output of [$group], and its
    counts. *)
Definition find_group (k : string) (gs : list group_doc) : option group_doc :=
  find (fun g => String.eqb (g_id g) k) gs.

Definition tally (o : option group_doc) : Z * Z * Z :=
  default (0, 0, 0) (stats_entry <$> o).

End Mongo.

(** ** The SQL backend ([backend/test/test.py]) *)

Module Sql.

(** *** Tables *)

Record EmployeeDB := mkEmployeeDB {
  e_id : Z;
  e_employee_id : string;
  e_full_name : string;
  e_email : string;
  e_department : string
}.

Record AttendanceDB := mkAttendanceDB {
  a_id : Z;
  a_employee_id : string;
  a_date : date;
  a_status : AttendanceStatus
}.

Record database := mkDatabase {
  employees : list EmployeeDB;
  attendance : list AttendanceDB
}.

Definition empty_database : database := mkDatabase [] [].

(** [id = Column(Integer, primary_key=True)]: in SQLite, the database of
    the default [DATABASE_URL], such a column is the rowid of the table.
    A row inserted without a key gets one more than the largest key in
    the table, and 1 in an empty table; the key of a deleted row is given
    again when no larger one is left. *)
Definition next_key (keys : list Z) : Z := 1 + foldr Z.max 0 keys.

Definition next_employee_id (db : database) : Z := next_key (e_id <$> employees db).

Definition next_attendance_id (db : database) : Z := next_key (a_id <$> attendance db).

(** *** Filters *)

Inductive employee_filter : Type :=
| ByEmployeeId (employee_id : string)
| ByEmail (email : string).

Definition employee_matches (f : employee_filter) (e : EmployeeDB) : bool :=
  match f with
  | ByEmployeeId s => String.eqb (e_employee_id e) s
  | ByEmail s => String.eqb (e_email e) s
  end.

(** The filters that [get_attendance] adds to its query. *)
Record attendance_query := mkQuery {
  q_employee_id : option string;
  q_date_from : option date;
  q_date_to : option date
}.

Definition attendance_matches (q : attendance_query) (a : AttendanceDB) : bool :=
  holds (q_employee_id q) (fun s => String.eqb (a_employee_id a) s)
  && holds (q_date_from q) (fun d => Calendar.date_leb d (a_date a))
  && holds (q_date_to q) (fun d => Calendar.date_leb (a_date a) d).

Definition same_day (employee_id : string) (d : date) (a : AttendanceDB) : bool :=
  String.eqb (a_employee_id a) employee_id && Calendar.date_eqb (a_date a) d.

(** The [unique=True] columns of [EmployeeDB]. *)
Definition employee_unique_clash (employee_id email : string) (e : EmployeeDB) : bool :=
  String.eqb (e_employee_id e) employee_id || String.eqb (e_email e) email.

(** [db.query(AttendanceDB).join(EmployeeDB)]: one row for every pair of
    an attendance record and an employee with the same [employee_id]. *)
Definition join_employees (es : list EmployeeDB) (rows : list AttendanceDB)
    : list AttendanceDB :=
  rows ≫= (fun a =>
    (fun _ => a) <$>
      filter (fun e => Is_true (String.eqb (e_employee_id e) (a_employee_id a))) es).

(** [.order_by(AttendanceDB.date.desc())] *)
Definition date_desc (a b : AttendanceDB) : Prop :=
  Is_true (Calendar.date_leb (a_date b) (a_date a)).

#[global] Instance order_by_date_desc_dec a b : Decision (date_desc a b).
Proof. unfold date_desc. apply _. Defined.

Definition with_status (a : AttendanceDB) (st : AttendanceStatus) : AttendanceDB :=
  mkAttendanceDB (a_id a) (a_employee_id a) (a_date a) st.

(** [UPDATE attendance SET status = ... WHERE id = ...] *)
Definition update_status (pk : Z) (st : AttendanceStatus) (rows : list AttendanceDB)
    : list AttendanceDB :=
  (fun a => if a_id a =? pk then with_status a st else a) <$> rows.

(** *** Session commands *)

Inductive cmd : Type -> Type :=
| employee_first (f : employee_filter) : cmd (option EmployeeDB)
| employee_all : cmd (list EmployeeDB)
| employee_add_commit (e : EmployeeCreate) : cmd EmployeeDB
| employee_delete_commit (e : EmployeeDB) : cmd unit
| attendance_first (employee_id : string) (d : date) : cmd (option AttendanceDB)
| attendance_set_status_commit (existing : AttendanceDB) (st : AttendanceStatus)
    : cmd AttendanceDB
| attendance_add_commit (a : AttendanceCreate) : cmd AttendanceDB
| attendance_join_all (q : attendance_query) : cmd (list AttendanceDB)
| attendance_employee (record : AttendanceDB) : cmd (option EmployeeDB)
| attendance_count (employee_id : string) (st : AttendanceStatus) : cmd Z.

Definition exec (X : Type) (c : cmd X) (db : database) : (exn + X) * database :=
  match c in cmd X return (exn + X) * database with
  | employee_first f => (inr (find (employee_matches f) (employees db)), db)
  | employee_all => (inr (employees db), db)
  | employee_add_commit e =>
      if existsb (employee_unique_clash (ec_employee_id e) (ec_email e))
           (employees db)
      then (inl IntegrityError, db)
      else
        let row := mkEmployeeDB (next_employee_id db) (ec_employee_id e)
                     (ec_full_name e) (ec_email e) (ec_department e) in
        (inr row,
         mkDatabase (employees db ++ [row]) (attendance db))
  | employee_delete_commit e =>
      (inr tt,
       mkDatabase
         (filter (fun e' => Is_true (negb (e_id e' =? e_id e))) (employees db))
         (filter
            (fun a => Is_true (negb (String.eqb (a_employee_id a) (e_employee_id e))))
            (attendance db)))
  | attendance_first employee_id d =>
      (inr (find (same_day employee_id d) (attendance db)), db)
  | attendance_set_status_commit existing st =>
      match find (fun a => a_id a =? a_id existing)
              (update_status (a_id existing) st (attendance db)) with
      | Some row =>
          (inr row,
           mkDatabase (employees db)
             (update_status (a_id existing) st (attendance db)))
      | None => (inl StaleDataError, db)
      end
  | attendance_add_commit a =>
      let row := mkAttendanceDB (next_attendance_id db) (ac_employee_id a)
                   (ac_date a) (ac_status a) in
      (inr row,
       mkDatabase (employees db) (attendance db ++ [row]))
  | attendance_join_all q =>
      (inr (merge_sort date_desc
              (filter (fun a => Is_true (attendance_matches q a))
                 (join_employees (employees db) (attendance db)))), db)
  | attendance_employee record =>
      (inr (find (fun e => String.eqb (e_employee_id e) (a_employee_id record))
              (employees db)), db)
  | attendance_count employee_id st =>
      (inr (Z.of_nat (length
              (filter
                 (fun a => Is_true (String.eqb (a_employee_id a) employee_id
                                    && status_eqb (a_status a) st))
                 (attendance db)))), db)
  end.

Abbreviation prog := (@prog cmd).

(** *** Pydantic models *)

(** [EmployeeCreate.no_empty_strings] *)
Definition no_empty_strings (v : string) : exn + string :=
  if negb (Text.truthy v) || negb (Text.truthy (Text.strip v))
  then inl (ValueError "Field cannot be empty or whitespace")
  else inr (Text.strip v).

(** [AttendanceCreate.validate_date], with [date.today()] as [today]. *)
Definition validate_date (today v : date) : exn + date :=
  if Calendar.date_ltb today v
  then inl (ValueError "Attendance date cannot be in the future")
  else inr v.

Section Validation.
Variable EmailStr : string -> option string.

Definition EmployeeCreate_validate (employee_id full_name email department : string)
    : exn + EmployeeCreate :=
  and_then (require (length_between 1 50 employee_id)) (fun _ =>
  and_then (field (no_empty_strings employee_id)) (fun employee_id' =>
  and_then (require (length_between 1 100 full_name)) (fun _ =>
  and_then (field (no_empty_strings full_name)) (fun full_name' =>
  match EmailStr email with
  | None => inl RequestValidationError
  | Some email' =>
      and_then (require (length_between 1 100 department)) (fun _ =>
      and_then (field (no_empty_strings department)) (fun department' =>
      inr (mkEmployeeCreate employee_id' full_name' email' department')))
  end)))).

End Validation.

Definition AttendanceCreate_validate (today : date) (employee_id : string)
    (d : date) (status : string) : exn + AttendanceCreate :=
  and_then (field (validate_date today d)) (fun d' =>
  match status_of_value status with
  | None => inl RequestValidationError
  | Some st => inr (mkAttendanceCreate employee_id d' st)
  end).

(** *** Response models, read from the rows *)

Definition employee_of_row (e : EmployeeDB) : Employee :=
  mkEmployee (e_id e) (e_employee_id e) (e_full_name e) (e_email e)
    (e_department e).

(** [Attendance.from_orm(record)], then [employee_name] is assigned. *)
Definition attendance_of_row (a : AttendanceDB) (employee_name : option string)
    : Attendance :=
  mkAttendance (a_id a) (a_employee_id a) (a_date a) (a_status a) employee_name.

(** *** Endpoints *)

Definition create_employee (employee : EmployeeCreate) : prog Employee :=
  let* existing := call (employee_first (ByEmployeeId (ec_employee_id employee))) in
  match existing with
  | Some _ =>
      Raise (HTTPException 400
               ("Employee ID '" +:+ ec_employee_id employee +:+ "' already exists"))
  | None =>
      let* existing_email := call (employee_first (ByEmail (ec_email employee))) in
      match existing_email with
      | Some _ =>
          Raise (HTTPException 400
                   ("Email '" +:+ ec_email employee +:+ "' is already registered"))
      | None =>
          let* db_employee := call (employee_add_commit employee) in
          Ret (employee_of_row db_employee)
      end
  end.

Definition get_employees : prog (list Employee) :=
  let* employees := call employee_all in
  Ret (employee_of_row <$> employees).

Definition not_found (employee_id : string) : exn :=
  HTTPException 404 ("Employee with ID '" +:+ employee_id +:+ "' not found").

Definition get_employee (employee_id : string) : prog Employee :=
  let* employee := call (employee_first (ByEmployeeId employee_id)) in
  match employee with
  | None => Raise (not_found employee_id)
  | Some employee => Ret (employee_of_row employee)
  end.

Definition delete_employee (employee_id : string) : prog unit :=
  let* employee := call (employee_first (ByEmployeeId employee_id)) in
  match employee with
  | None => Raise (not_found employee_id)
  | Some employee => call (employee_delete_commit employee)
  end.

Definition mark_attendance (attendance : AttendanceCreate) : prog Attendance :=
  let* employee := call (employee_first (ByEmployeeId (ac_employee_id attendance))) in
  match employee with
  | None => Raise (not_found (ac_employee_id attendance))
  | Some employee =>
      let* existing :=
        call (attendance_first (ac_employee_id attendance) (ac_date attendance)) in
      match existing with
      | Some existing =>
          let* existing :=
            call (attendance_set_status_commit existing (ac_status attendance)) in
          Ret (attendance_of_row existing (Some (e_full_name employee)))
      | None =>
          let* db_attendance := call (attendance_add_commit attendance) in
          Ret (attendance_of_row db_attendance (Some (e_full_name employee)))
      end
  end.

(** [employee_id] is tested for truthiness; a [date] is always truthy. *)
Definition build_query (employee_id : option string) (date_from date_to : option date)
    : attendance_query :=
  mkQuery
    (match employee_id with
     | Some s => if Text.truthy s then Some s else None
     | None => None
     end)
    date_from date_to.

(** [record.employee.full_name]; an attribute of [None] raises
    [AttributeError]. *)
Definition get_attendance (employee_id : option string)
    (date_from date_to : option date) : prog (list Attendance) :=
  let* records := call (attendance_join_all (build_query employee_id date_from date_to)) in
  for_each records (fun record =>
    let* employee := call (attendance_employee record) in
    match employee with
    | None => Raise AttributeError
    | Some employee => Ret (attendance_of_row record (Some (e_full_name employee)))
    end).

Section QueryParameters.
(** The conversion of a query-string value to a [date] that FastAPI
    applies to a parameter declared [Optional[date]]. *)
Variable parse_date : string -> option date.

Definition date_parameter (raw : option string) : exn + option date :=
  match raw with
  | None => inr None
  | Some s =>
      match parse_date s with
      | Some d => inr (Some d)
      | None => inl RequestValidationError
      end
  end.

Definition get_attendance_request (employee_id date_from date_to : option string)
    : prog (list Attendance) :=
  let* date_from := lift (date_parameter date_from) in
  let* date_to := lift (date_parameter date_to) in
  get_attendance employee_id date_from date_to.

End QueryParameters.

Definition get_attendance_stats : prog (list AttendanceStats) :=
  let* employees := call employee_all in
  for_each employees (fun emp =>
    let* total_present := call (attendance_count (e_employee_id emp) PRESENT) in
    let* total_absent := call (attendance_count (e_employee_id emp) ABSENT) in
    Ret (mkAttendanceStats (e_employee_id emp) (e_full_name emp)
           total_present total_absent (total_present + total_absent))).

(** *** Requests served one after the other *)

Inductive request : Type :=
| CreateEmployee (employee : EmployeeCreate)
| GetEmployees
| GetEmployee (employee_id : string)
| DeleteEmployee (employee_id : string)
| MarkAttendance (attendance : AttendanceCreate)
| GetAttendance (employee_id : option string) (date_from date_to : option date)
| GetAttendanceStats.

Definition serve (r : request) (db : database) : database :=
  match r with
  | CreateEmployee employee => snd (run exec (create_employee employee) db)
  | GetEmployees => snd (run exec get_employees db)
  | GetEmployee employee_id => snd (run exec (get_employee employee_id) db)
  | DeleteEmployee employee_id => snd (run exec (delete_employee employee_id) db)
  | MarkAttendance attendance => snd (run exec (mark_attendance attendance) db)
  | GetAttendance e f t => snd (run exec (get_attendance e f t) db)
  | GetAttendanceStats => snd (run exec get_attendance_stats db)
  end.

Inductive reachable : database -> Prop :=
| reachable_empty : reachable empty_database
| reachable_serve r db : reachable db -> reachable (serve r db).

(** *** Well-formed stores *)

Definition key (a : AttendanceDB) : string * date := (a_employee_id a, a_date a).

Record wf (db : database) : Prop := mkSqlWf {
  sql_wf_employee_ids : NoDup (e_employee_id <$> employees db);
  sql_wf_emails : NoDup (e_email <$> employees db);
  sql_wf_employee_pks : NoDup (e_id <$> employees db);
  sql_wf_keys : NoDup (key <$> attendance db);
  sql_wf_pks : NoDup (a_id <$> attendance db);
  sql_wf_references :
    Forall (fun a => a_employee_id a ∈ e_employee_id <$> employees db)
      (attendance db)
}.

(** The attendance records of an employee on a calendar date. *)
Definition records_on (employee_id : string) (d : date) (db : database)
    : list AttendanceDB :=
  filter (fun r => a_employee_id r = employee_id /\ a_date r = d) (attendance db).

Definition count_status (employee_id : string) (st : AttendanceStatus)
    (rows : list AttendanceDB) : Z :=
  Z.of_nat (length
    (filter (fun a => a_employee_id a = employee_id /\ a_status a = st) rows)).

(** The name under which an [employee_id] is stored at present, if any. *)
Definition employee_name (db : database) (employee_id : string) : option string :=
  e_full_name <$> find (employee_matches (ByEmployeeId employee_id)) (employees db).

(** What a listing answers for a stored record. *)
Definition response_of (db : database) (a : AttendanceDB) : Attendance :=
  attendance_of_row a (employee_name db (a_employee_id a)).

End Sql.

(** ** The same contents in the two backends

    A store is seen as the collection of its employees and of its
    attendance records, without the identifiers that the storage assigns
    and without their order. *)

Definition employee_view : Type := string * string * string * string.
Definition attendance_view : Type := string * datetime * string.

Definition mongo_employee (d : Mongo.employee_doc) : employee_view :=
  (Mongo.e_employee_id d, Mongo.e_full_name d, Mongo.e_email d, Mongo.e_department d).

Definition sql_employee (e : Sql.EmployeeDB) : employee_view :=
  (Sql.e_employee_id e, Sql.e_full_name e, Sql.e_email e, Sql.e_department e).

Definition mongo_attendance (d : Mongo.attendance_doc) : attendance_view :=
  (Mongo.a_employee_id d, Mongo.a_date d, Mongo.a_status d).

Definition sql_attendance (a : Sql.AttendanceDB) : attendance_view :=
  (Sql.a_employee_id a, Calendar.combine_min (Sql.a_date a),
   status_value (Sql.a_status a)).

Definition same_contents (m : Mongo.database) (s : Sql.database) : Prop :=
  mongo_employee <$> Mongo.employees m ≡ₚ sql_employee <$> Sql.employees s
  /\ mongo_attendance <$> Mongo.attendance m ≡ₚ sql_attendance <$> Sql.attendance s.

(** Counting over the views. *)
Definition view_count (employee_id status : string) (vs : list attendance_view) : Z :=
  Z.of_nat (length (filter (fun v => v.1.1 = employee_id /\ v.2 = status) vs)).

Definition view_total (employee_id : string) (vs : list attendance_view) : Z :=
  Z.of_nat (length (filter (fun v => v.1.1 = employee_id) vs)).

(** The statistics, computed from the views. *)
Definition stats_of_view (vs : list attendance_view) (e : employee_view)
    : AttendanceStats :=
  mkAttendanceStats e.1.1.1 e.1.1.2
    (view_count e.1.1.1 "Present" vs) (view_count e.1.1.1 "Absent" vs)
    (view_count e.1.1.1 "Present" vs + view_count e.1.1.1 "Absent" vs).

(** ** Sample stores *)

Module Sample.

Definition alice : EmployeeCreate := mkEmployeeCreate "E1" "Alice" "a@x.com" "Eng".
Definition bob : EmployeeCreate := mkEmployeeCreate "E2" "Bob" "b@x.com" "Ops".

Definition new_year : date := mkDate 2024 1 1.
Definition second_day : date := mkDate 2024 1 2.

Definition mongo_db : Mongo.database :=
  Mongo.serve (Mongo.MarkAttendance (mkAttendanceCreate "E1" second_day ABSENT))
    (Mongo.serve (Mongo.MarkAttendance (mkAttendanceCreate "E1" new_year PRESENT))
       (Mongo.serve (Mongo.CreateEmployee bob)
          (Mongo.serve (Mongo.CreateEmployee alice) Mongo.empty_database))).

Definition sql_db : Sql.database :=
  Sql.serve (Sql.MarkAttendance (mkAttendanceCreate "E1" new_year PRESENT))
    (Sql.serve (Sql.MarkAttendance (mkAttendanceCreate "E1" second_day ABSENT))
       (Sql.serve (Sql.CreateEmployee alice)
          (Sql.serve (Sql.CreateEmployee bob) Sql.empty_database))).

(** A MongoDB store in which the employee of a record is gone. *)
Definition orphaned : Mongo.database :=
  Mongo.mkDatabase []
    [Mongo.mkAttendanceDoc 0 "E9" (Calendar.combine_min new_year) "Present"] 1.

(** The identity as the e-mail check. *)
Definition any_email (s : string) : option string := Some s.

End Sample.

(** ** The database address ([backend/test/test.py], module level) *)

Module Config.

Fixpoint drop_chars (n : nat) (s : string) : string :=
  match n, s with
  | O, _ => s
  | S n', String _ s' => drop_chars n' s'
  | S _, EmptyString => EmptyString
  end.

(** [s.startswith(p)] *)
Definition startswith (s p : string) : bool := String.prefix p s.

(** [s.replace(old, new, 1)]: the leftmost occurrence is replaced. *)
Fixpoint replace_first (old new s : string) : string :=
  if String.prefix old s then new +:+ drop_chars (String.length old) s
  else match s with
       | EmptyString => EmptyString
       | String c s' => String c (replace_first old new s')
       end.

(** [DATABASE_URL], from the environment variable of that name when it is
    set. *)
Definition DATABASE_URL (env : option string) : string :=
  let url := default "sqlite:///./hrms.db" env in
  if startswith url "postgres://"
  then replace_first "postgres://" "postgresql://" url
  else url.

End Config.

(** ** Fields of an accepted payload *)

(** A field that is trimmed, not empty and at most [hi] characters long. *)
Definition trimmed_within (hi : nat) (v : string) : Prop :=
  Text.strip v = v /\ (1 <= String.length v <= hi)%nat.

(** ** Records and the employees they name *)

(** Every attendance record names a stored employee. *)
Definition mongo_references_hold (db : Mongo.database) : Prop :=
  Forall (fun r => Mongo.a_employee_id r ∈ Mongo.e_employee_id <$> Mongo.employees db)
    (Mongo.attendance db).

Definition sql_references_hold (db : Sql.database) : Prop :=
  Forall (fun r => Sql.a_employee_id r ∈ Sql.e_employee_id <$> Sql.employees db)
    (Sql.attendance db).

(** * Properties *)

(** ** Comparisons *)

Lemma date_eqb_eq a b : Calendar.date_eqb a b = true <-> a = b.
Proof.
  unfold Calendar.date_eqb. destruct a, b; simpl.
  rewrite !andb_true_iff, !Z.eqb_eq. split.
  - intros [[-> ->] ->]. reflexivity.
  - intros [= -> -> ->]. auto.
Qed.

Lemma date_eqb_refl a : Calendar.date_eqb a a = true.
Proof. apply date_eqb_eq. reflexivity. Qed.

Lemma datetime_eqb_eq a b : Calendar.datetime_eqb a b = true <-> a = b.
Proof.
  unfold Calendar.datetime_eqb. destruct a, b; simpl.
  rewrite andb_true_iff, date_eqb_eq, Z.eqb_eq. split.
  - intros [-> ->]. reflexivity.
  - intros [= -> ->]. auto.
Qed.

Lemma datetime_eqb_refl a : Calendar.datetime_eqb a a = true.
Proof. apply datetime_eqb_eq. reflexivity. Qed.

(** Boolean comparisons on [Z] to linear arithmetic. *)
Ltac z_props :=
  unfold Calendar.datetime_leb, Calendar.datetime_ltb, Calendar.datetime_eqb,
    Calendar.date_leb, Calendar.date_ltb, Calendar.date_eqb,
    Calendar.combine_min in *;
  simpl in *;
  rewrite ?orb_true_iff, ?andb_true_iff, ?orb_false_iff, ?andb_false_iff,
    ?Z.ltb_lt, ?Z.eqb_eq, ?Z.ltb_ge, ?Z.eqb_neq in *.

Lemma date_leb_total a b :
  Calendar.date_leb a b = true \/ Calendar.date_leb b a = true.
Proof. destruct a, b. z_props. lia. Qed.

Lemma date_leb_trans a b c :
  Calendar.date_leb a b = true -> Calendar.date_leb b c = true ->
  Calendar.date_leb a c = true.
Proof. destruct a, b, c. z_props. lia. Qed.

Lemma date_leb_refl a : Calendar.date_leb a a = true.
Proof. destruct (date_leb_total a a); assumption. Qed.


Lemma date_ltb_irrefl a : Calendar.date_ltb a a = false.
Proof. destruct a. z_props. lia. Qed.

(** On datetimes at midnight the order is the order of the dates. *)
Lemma datetime_leb_midnight a b :
  Calendar.datetime_leb (Calendar.combine_min a) (Calendar.combine_min b)
  = Calendar.date_leb a b.
Proof.
  unfold Calendar.datetime_leb, Calendar.datetime_ltb, Calendar.datetime_eqb,
    Calendar.date_leb, Calendar.combine_min; simpl.
  destruct (Calendar.date_ltb a b), (Calendar.date_eqb a b); reflexivity.
Qed.

Lemma datetime_leb_total a b :
  Calendar.datetime_leb a b = true \/ Calendar.datetime_leb b a = true.
Proof. destruct a as [[] ?], b as [[] ?]. z_props. lia. Qed.

Lemma datetime_leb_trans a b c :
  Calendar.datetime_leb a b = true -> Calendar.datetime_leb b c = true ->
  Calendar.datetime_leb a c = true.
Proof. destruct a as [[] ?], b as [[] ?], c as [[] ?]. z_props. lia. Qed.

Lemma status_of_value_value st : status_of_value (status_value st) = Some st.
Proof. destruct st; reflexivity. Qed.

Lemma status_of_value_inv s st : status_of_value s = Some st -> s = status_value st.
Proof.
  unfold status_of_value.
  destruct (String.eqb_spec s "Present"); [intros [= <-]; assumption |].
  destruct (String.eqb_spec s "Absent"); [intros [= <-]; assumption |].
  discriminate.
Qed.

(** ** Running programs *)

Section ProgFacts.
Context {cmd : Type -> Type} {store : Type}.
Context (exec : forall X, cmd X -> store -> (exn + X) * store).

Lemma run_bind {A B} (p : prog A) (f : A -> prog B) (s : store) :
  run exec (bind p f) s =
  match run exec p s with
  | (inl e, s') => (inl e, s')
  | (inr a, s') => run exec (f a) s'
  end.
Proof.
  unfold run. revert s.
  induction p as [a | e | X c k IH]; intros s; simpl; try reflexivity.
  destruct (exec X c s) as [[e | x] s']; [reflexivity | apply IH].
Qed.

Lemma read_only_bind {A B} (p : prog A) (f : A -> prog B) :
  read_only exec p -> (forall a, read_only exec (f a)) -> read_only exec (bind p f).
Proof.
  intros Hp Hf s. rewrite run_bind. specialize (Hp s).
  destruct (run exec p s) as [[e | a] s']; simpl in *; subst; [reflexivity |].
  apply Hf.
Qed.

Lemma read_only_ret {A} (a : A) : read_only exec (Ret a).
Proof. intros s. reflexivity. Qed.

Lemma read_only_raise {A} (e : exn) : read_only exec (@Raise cmd A e).
Proof. intros s. reflexivity. Qed.

Lemma read_only_lift {A} (r : exn + A) : read_only exec (lift r).
Proof. destruct r; [apply read_only_raise | apply read_only_ret]. Qed.

Lemma read_only_for_each {A B} (xs : list A) (body : A -> prog B) :
  (forall x, read_only exec (body x)) -> read_only exec (for_each xs body).
Proof.
  intros Hbody. induction xs as [| x xs IH]; simpl.
  - apply read_only_ret.
  - apply read_only_bind; [apply Hbody |]. intros y.
    apply read_only_bind; [apply IH |]. intros ys. apply read_only_ret.
Qed.

(** A loop whose body succeeds on every element without touching the
    store collects the results in order. *)
Lemma run_for_each {A B} (xs : list A) (body : A -> prog B) (g : A -> B) s :
  (forall x, x ∈ xs -> run exec (body x) s = (inr (g x), s)) ->
  run exec (for_each xs body) s = (inr (g <$> xs), s).
Proof.
  induction xs as [| x xs IH]; intros Hbody; simpl; [reflexivity |].
  rewrite run_bind, Hbody by (left; reflexivity).
  rewrite run_bind, IH by (intros y Hy; apply Hbody; right; exact Hy).
  reflexivity.
Qed.

End ProgFacts.

(** ** Lists *)

Lemma find_Some_elem {A} (f : A -> bool) (l : list A) (x : A) :
  find f l = Some x -> x ∈ l /\ f x = true.
Proof. intros H. apply find_some in H. rewrite list_elem_of_In. exact H. Qed.

Lemma find_None_elem {A} (f : A -> bool) (l : list A) :
  find f l = None -> forall x, x ∈ l -> f x = false.
Proof.
  intros H x Hx. apply (find_none f l H). apply list_elem_of_In. exact Hx.
Qed.

Lemma find_elem_is_Some {A} (f : A -> bool) (l : list A) (x : A) :
  x ∈ l -> f x = true -> is_Some (find f l).
Proof.
  intros Hx Hf. destruct (find f l) eqn:E; [eauto |].
  rewrite (find_None_elem f l E x Hx) in Hf. discriminate.
Qed.

Lemma existsb_false_elem {A} (f : A -> bool) (l : list A) :
  existsb f l = false -> forall x, x ∈ l -> f x = false.
Proof.
  intros H x Hx. destruct (f x) eqn:E; [| reflexivity].
  rewrite <- H. symmetry. apply existsb_exists. exists x.
  split; [apply list_elem_of_In; exact Hx | exact E].
Qed.

Lemma existsb_true_elem {A} (f : A -> bool) (l : list A) :
  existsb f l = true <-> exists x, x ∈ l /\ f x = true.
Proof.
  rewrite existsb_exists. split; intros (x & Hx & Hf); exists x;
    (split; [apply list_elem_of_In; exact Hx | exact Hf]).
Qed.

(** A first match under a key without duplicates is the only match. *)
Lemma NoDup_fmap_eq {A B} (f : A -> B) (l : list A) (x y : A) :
  NoDup (f <$> l) -> x ∈ l -> y ∈ l -> f x = f y -> x = y.
Proof.
  induction l as [| a l IH]; intros Hnd Hx Hy Hf; [inversion Hx |].
  rewrite fmap_cons in Hnd. apply NoDup_cons in Hnd as [Ha Hnd].
  apply elem_of_cons in Hx as [-> | Hx]; apply elem_of_cons in Hy as [-> | Hy].
  - reflexivity.
  - exfalso. apply Ha. rewrite Hf. apply list_elem_of_fmap_2. exact Hy.
  - exfalso. apply Ha. rewrite <- Hf. apply list_elem_of_fmap_2. exact Hx.
  - apply IH; assumption.
Qed.

Lemma NoDup_fmap_filter_length {A B} `{EqDecision B} (f : A -> B) (l : list A) (b : B) :
  NoDup (f <$> l) -> (length (filter (fun x => f x = b) l) <= 1)%nat.
Proof.
  induction l as [| a l IH]; intros Hnd; [simpl; lia |].
  rewrite fmap_cons in Hnd. apply NoDup_cons in Hnd as [Ha Hnd].
  rewrite filter_cons. destruct (decide (f a = b)) as [Hab | Hab].
  - assert (filter (fun x => f x = b) l = []) as ->; [| simpl; lia].
    destruct (filter (fun x => f x = b) l) as [| y ys] eqn:E; [reflexivity |].
    exfalso. assert (y ∈ filter (fun x => f x = b) l) as Hy by (rewrite E; left).
    apply list_elem_of_filter in Hy as [Hy1 Hy2].
    apply Ha. rewrite Hab, <- Hy1. apply list_elem_of_fmap_2. exact Hy2.
  - apply IH. exact Hnd.
Qed.

Lemma filter_ext_elem {A} (P Q : A -> Prop) `{!forall x, Decision (P x)}
    `{!forall x, Decision (Q x)} (l : list A) :
  (forall x, x ∈ l -> P x <-> Q x) -> filter P l = filter Q l.
Proof.
  induction l as [| a l IH]; intros Hext; [reflexivity |].
  rewrite !filter_cons.
  assert (filter P l = filter Q l) as ->.
  { apply IH. intros x Hx. apply Hext. right. exact Hx. }
  assert (P a <-> Q a) as Ha by (apply Hext; left).
  destruct (decide (P a)), (decide (Q a)); tauto.
Qed.

Lemma length_le_1_elem {A} (l : list A) (x : A) :
  (length l <= 1)%nat -> x ∈ l -> l = [x].
Proof.
  destruct l as [| a [| b l]]; simpl; intros Hl Hx.
  - inversion Hx.
  - apply list_elem_of_singleton in Hx. subst. reflexivity.
  - lia.
Qed.

Lemma NoDup_snoc {A} (l : list A) (x : A) : NoDup l -> x ∉ l -> NoDup (l ++ [x]).
Proof.
  intros Hl Hx. apply NoDup_app. split; [exact Hl |]. split.
  - intros y Hy Hy'. apply list_elem_of_singleton in Hy'. subst. contradiction.
  - apply NoDup_singleton.
Qed.

(** ** The MongoDB backend *)

Module MongoFacts.
Import Mongo.

Lemma wf_empty : wf empty_database.
Proof. split; simpl; constructor. Qed.

Lemma wf_same_collections db db' :
  employees db' = employees db -> attendance db' = attendance db ->
  next_oid db <= next_oid db' -> wf db -> wf db'.
Proof.
  intros He Ha Hn [H1 H2 H3 H4 H5 H6 H7 H8].
  split; rewrite ?He, ?Ha; try assumption.
  - eapply Forall_impl; [exact H7 |]. simpl. intros d Hd. lia.
  - eapply Forall_impl; [exact H8 |]. simpl. intros d Hd. lia.
Qed.

Lemma index_clash_false employee_id email (l : list employee_doc) :
  existsb (employee_index_clash employee_id email) l = false ->
  (employee_id ∉ e_employee_id <$> l) /\ (email ∉ e_email <$> l).
Proof.
  intros H. split; intros Hin; apply list_elem_of_fmap in Hin as (d & Hd & Hin);
    pose proof (existsb_false_elem _ _ H d Hin) as Hc;
    unfold employee_index_clash in Hc; apply orb_false_iff in Hc as [Hc1 Hc2].
  - apply String.eqb_neq in Hc1. congruence.
  - apply String.eqb_neq in Hc2. congruence.
Qed.

Lemma create_employee_wf e db :
  wf db -> wf (snd (run exec (create_employee e) db)).
Proof.
  intros Hwf. unfold run, create_employee. simpl.
  destruct (find _ (employees db)); simpl; [exact Hwf |].
  destruct (find _ (employees db)); simpl; [exact Hwf |].
  destruct (existsb _ (employees db)) eqn:Hclash; simpl; [exact Hwf |].
  apply index_clash_false in Hclash as [Hid Hemail].
  match goal with |- wf (run_interleaved _ _ ?p ?s).2 =>
    assert ((run_interleaved exec [] p s).2 = s) as ->
  end.
  { match goal with |- context [find ?f ?l] => destruct (find f l) end;
      reflexivity. }
  destruct Hwf as [H1 H2 H3 H4 H5 H6 H7 H8].
  split; simpl; rewrite ?fmap_app; simpl; try assumption.
  - apply NoDup_snoc; assumption.
  - apply NoDup_snoc; assumption.
  - eapply Forall_impl; [exact H7 |]. simpl. intros d Hd. lia.
  - apply Forall_app. split.
    + eapply Forall_impl; [exact H8 |]. simpl. intros d Hd. lia.
    + repeat constructor. simpl. lia.
Qed.

(** [update_one] by [_id] rewrites the status and nothing else. *)
Lemma update_first_key q st l : key <$> update_first q st l = key <$> l.
Proof.
  induction l as [| d l IH]; simpl; [reflexivity |].
  destruct (attendance_matches q d); simpl; [reflexivity |].
  f_equal. exact IH.
Qed.

Lemma update_first_oid q st l : a_oid <$> update_first q st l = a_oid <$> l.
Proof.
  induction l as [| d l IH]; simpl; [reflexivity |].
  destruct (attendance_matches q d); simpl; [reflexivity |].
  f_equal. exact IH.
Qed.

Lemma update_first_Forall (P : attendance_doc -> Prop) q st l :
  (forall d, P d -> P (with_status d st)) ->
  Forall P l -> Forall P (update_first q st l).
Proof.
  intros HP. induction 1 as [| d l Hd Hl IH]; simpl; [constructor |].
  destruct (attendance_matches q d); constructor; auto.
Qed.

Lemma by_key_matches employee_id dt d :
  attendance_matches (by_key employee_id dt) d = true <->
  key d = (employee_id, dt).
Proof.
  unfold attendance_matches, by_key, key; simpl.
  rewrite !andb_true_r, andb_true_iff, String.eqb_eq, datetime_eqb_eq.
  split; [intros [-> ->]; reflexivity | intros [= -> ->]; auto].
Qed.

Lemma by_oid_matches i d :
  attendance_matches (by_oid i) d = true <-> a_oid d = i.
Proof.
  unfold attendance_matches, by_oid; simpl.
  rewrite !andb_true_r. apply Z.eqb_eq.
Qed.

Lemma attendance_clash_false employee_id dt (l : list attendance_doc) :
  existsb (attendance_index_clash employee_id dt) l = false ->
  (employee_id, dt) ∉ key <$> l.
Proof.
  intros H Hin. apply list_elem_of_fmap in Hin as (d & Hd & Hin).
  pose proof (existsb_false_elem _ _ H d Hin) as Hc.
  unfold attendance_index_clash in Hc. unfold key in Hd.
  injection Hd as -> ->.
  rewrite String.eqb_refl, datetime_eqb_refl in Hc. discriminate.
Qed.

Lemma find_by_key_None_clash employee_id dt (l : list attendance_doc) :
  find (attendance_matches (by_key employee_id dt)) l = None ->
  existsb (attendance_index_clash employee_id dt) l = false.
Proof.
  intros H. destruct (existsb _ l) eqn:E; [| reflexivity].
  apply existsb_true_elem in E as (d & Hd & Hc).
  pose proof (find_None_elem _ _ H d Hd) as Hm.
  unfold attendance_index_clash in Hc. apply andb_true_iff in Hc as [Hc1 Hc2].
  apply String.eqb_eq in Hc1. apply datetime_eqb_eq in Hc2.
  assert (attendance_matches (by_key employee_id dt) d = true) as Hm'.
  { apply by_key_matches. unfold key. congruence. }
  congruence.
Qed.

Lemma oid_not_fresh (l : list attendance_doc) (n : Z) :
  Forall (fun d => a_oid d < n) l -> n ∉ a_oid <$> l.
Proof.
  intros H Hin. apply list_elem_of_fmap in Hin as (d & Hd & Hin).
  rewrite Forall_forall in H. specialize (H d Hin). simpl in H. lia.
Qed.

(** After the write, the handler reads the record back and builds the
    response: the store is the one the write left. *)
Ltac read_back :=
  match goal with
  | |- context [(run_interleaved exec [] ?p ?s).2] =>
      let H := fresh in
      assert ((run_interleaved exec [] p s).2 = s) as H
        by (unfold attendance_helper;
            repeat match goal with
            | |- context [match ?x with _ => _ end] => destruct x
            end; reflexivity);
      rewrite H; clear H
  end.

Lemma mark_attendance_wf a db :
  wf db -> wf (snd (run exec (mark_attendance a) db)).
Proof.
  intros Hwf. unfold run, mark_attendance. simpl.
  destruct (find _ (employees db)) as [emp |]; simpl; [| exact Hwf].
  destruct (find _ (attendance db)) as [existing |] eqn:Hfind; simpl.
  - read_back.
    destruct Hwf as [H1 H2 H3 H4 H5 H6 H7 H8].
    split; simpl; rewrite ?update_first_key, ?update_first_oid; try assumption.
    + apply update_first_Forall; [| exact H4]. intros d Hd. exact Hd.
    + apply update_first_Forall; [| exact H5]. intros d _.
      exists (ac_status a). reflexivity.
    + apply update_first_Forall; [| exact H7]. intros d Hd. exact Hd.
  - apply find_by_key_None_clash in Hfind as Hclash. rewrite Hclash. simpl.
    read_back.
    apply attendance_clash_false in Hclash.
    destruct Hwf as [H1 H2 H3 H4 H5 H6 H7 H8].
    split; simpl; rewrite ?fmap_app; simpl; try assumption.
    + apply NoDup_snoc; assumption.
    + apply Forall_app. split; [exact H4 |]. repeat constructor.
    + apply Forall_app. split; [exact H5 |]. repeat constructor.
      exists (ac_status a). reflexivity.
    + apply NoDup_snoc; [exact H6 |]. apply oid_not_fresh. exact H7.
    + apply Forall_app. split.
      * eapply Forall_impl; [exact H7 |]. simpl. intros d Hd. lia.
      * repeat constructor. simpl. lia.
    + eapply Forall_impl; [exact H8 |]. simpl. intros d Hd. lia.
Qed.

Lemma read_only_call_find_one f : read_only exec (call (employees_find_one f)).
Proof. intros s. reflexivity. Qed.

Lemma read_only_attendance_helper att name :
  read_only exec (attendance_helper att name).
Proof.
  unfold attendance_helper. destruct att as [d |]; [| apply read_only_raise].
  destruct (status_of_value (a_status d));
    [apply read_only_ret | apply read_only_raise].
Qed.

Lemma get_attendance_read_only e f t : read_only exec (get_attendance e f t).
Proof.
  unfold get_attendance.
  apply read_only_bind; [apply read_only_lift |]. intros q.
  apply read_only_bind; [intros s; reflexivity |]. intros docs.
  apply read_only_for_each. intros d.
  apply read_only_bind; [apply read_only_call_find_one |]. intros emp.
  apply read_only_attendance_helper.
Qed.

Lemma serve_wf r db : wf db -> wf (serve r db).
Proof.
  intros Hwf. destruct r; simpl.
  - apply create_employee_wf. exact Hwf.
  - exact Hwf.
  - apply mark_attendance_wf. exact Hwf.
  - rewrite get_attendance_read_only. exact Hwf.
  - exact Hwf.
Qed.

Lemma reachable_wf db : reachable db -> wf db.
Proof.
  induction 1 as [| r db _ IH]; [apply wf_empty | apply serve_wf; exact IH].
Qed.

(** Marking attendance never touches the employees. *)
Lemma mark_attendance_employees a db :
  employees (snd (run exec (mark_attendance a) db)) = employees db.
Proof.
  unfold run, mark_attendance. simpl.
  destruct (find _ (employees db)) as [emp |]; simpl; [| reflexivity].
  destruct (find _ (attendance db)) as [existing |] eqn:Hfind; simpl.
  - read_back. reflexivity.
  - destruct (existsb _ (attendance db)); simpl; [reflexivity |].
    read_back. reflexivity.
Qed.

Lemma update_first_by_oid_elem st (l : list attendance_doc) (x : attendance_doc) :
  NoDup (a_oid <$> l) -> x ∈ l ->
  with_status x st ∈ update_first (by_oid (a_oid x)) st l.
Proof.
  induction l as [| d l IH]; intros Hnd Hx; [inversion Hx |].
  simpl. destruct (attendance_matches (by_oid (a_oid x)) d) eqn:Hm.
  - apply by_oid_matches in Hm.
    assert (d = x) as ->.
    { eapply (NoDup_fmap_eq a_oid (d :: l)); [exact Hnd | left | exact Hx | exact Hm]. }
    left.
  - right. rewrite fmap_cons in Hnd. apply NoDup_cons in Hnd as [_ Hnd].
    apply elem_of_cons in Hx as [-> | Hx]; [| apply IH; assumption].
    assert (attendance_matches (by_oid (a_oid d)) d = true) as Hm'
      by (apply by_oid_matches; reflexivity).
    congruence.
Qed.

(** After a successful call the store holds a record for the pair, with
    the status of the call. *)
Lemma mark_attendance_recorded a db :
  wf db ->
  is_Some (find (employee_matches (ByEmployeeId (ac_employee_id a))) (employees db)) ->
  exists r, r ∈ attendance (snd (run exec (mark_attendance a) db))
    /\ key r = (ac_employee_id a, Calendar.combine_min (ac_date a))
    /\ a_status r = status_value (ac_status a).
Proof.
  intros Hwf [emp Hemp]. unfold run, mark_attendance. simpl. rewrite Hemp. simpl.
  destruct (find _ (attendance db)) as [existing |] eqn:Hfind; simpl.
  - read_back.
    apply find_Some_elem in Hfind as [Hin Hm]. apply by_key_matches in Hm.
    exists (with_status existing (status_value (ac_status a))). simpl.
    split; [| split; [exact Hm | reflexivity]].
    apply update_first_by_oid_elem; [apply Hwf | exact Hin].
  - rewrite (find_by_key_None_clash _ _ _ Hfind). simpl.
    read_back.
    eexists. simpl. split; [apply elem_of_app; right; left |].
    split; reflexivity.
Qed.


(** Without duplicate keys and with every date at midnight, a pair of
    employee and calendar date selects at most one record. *)
Lemma midnight_combine d : midnight d -> a_date d = Calendar.combine_min (dt_date (a_date d)).
Proof.
  unfold midnight, Calendar.combine_min. destruct (a_date d) as [dd t]; simpl.
  intros ->. reflexivity.
Qed.

Lemma records_on_key employee_id d db :
  Forall midnight (attendance db) ->
  records_on employee_id d db =
  filter (fun r => key r = (employee_id, Calendar.combine_min d)) (attendance db).
Proof.
  intros Hmid. unfold records_on. apply filter_ext_elem. intros r Hr.
  rewrite Forall_forall in Hmid. specialize (Hmid r Hr).
  unfold key. rewrite (midnight_combine r Hmid) at 2. split.
  - intros [-> ->]. reflexivity.
  - intros [= -> <-]. auto.
Qed.

Lemma records_on_at_most_one employee_id d db :
  wf db -> (length (records_on employee_id d db) <= 1)%nat.
Proof.
  intros Hwf. rewrite records_on_key by apply Hwf.
  apply NoDup_fmap_filter_length. apply Hwf.
Qed.

Lemma records_on_singleton employee_id d db r :
  wf db -> r ∈ attendance db -> key r = (employee_id, Calendar.combine_min d) ->
  records_on employee_id d db = [r].
Proof.
  intros Hwf Hr Hkey. apply length_le_1_elem.
  - apply records_on_at_most_one. exact Hwf.
  - rewrite records_on_key by apply Hwf. apply list_elem_of_filter. auto.
Qed.

Lemma mark_attendance_twice db employee_id d s1 s2 :
  wf db ->
  is_Some (find (employee_matches (ByEmployeeId employee_id)) (employees db)) ->
  exists r,
    records_on employee_id d
      (serve (MarkAttendance (mkAttendanceCreate employee_id d s2))
         (serve (MarkAttendance (mkAttendanceCreate employee_id d s1)) db)) = [r]
    /\ a_status r = status_value s2.
Proof.
  intros Hwf Hemp. simpl.
  set (db1 := snd (run exec (mark_attendance (mkAttendanceCreate employee_id d s1)) db)).
  assert (wf db1) as Hwf1 by (apply mark_attendance_wf; exact Hwf).
  assert (is_Some (find (employee_matches (ByEmployeeId employee_id)) (employees db1)))
    as Hemp1 by (unfold db1; rewrite mark_attendance_employees; exact Hemp).
  destruct (mark_attendance_recorded (mkAttendanceCreate employee_id d s2) db1 Hwf1 Hemp1)
    as (r & Hin & Hkey & Hst).
  exists r. split; [| exact Hst].
  apply records_on_singleton; [apply mark_attendance_wf; exact Hwf1 | exact Hin | exact Hkey].
Qed.

Lemma mark_attendance_unknown a db :
  (forall e, e ∈ employees db -> e_employee_id e <> ac_employee_id a) ->
  run exec (mark_attendance a) db = (inl (HTTPException 404 "Employee not found"), db).
Proof.
  intros Hnone. unfold run, mark_attendance. simpl.
  destruct (find _ (employees db)) as [emp |] eqn:Hfind; [| reflexivity].
  apply find_Some_elem in Hfind as [Hin Hm]. simpl in Hm.
  apply String.eqb_eq in Hm. exfalso. exact (Hnone emp Hin Hm).
Qed.

(** *** The aggregation pipeline *)

Lemma group_add_ids d gs x :
  x ∈ g_id <$> group_add d gs -> x ∈ g_id <$> gs \/ x = a_employee_id d.
Proof.
  induction gs as [| g gs IH]; simpl.
  - intros Hx. apply list_elem_of_singleton in Hx. right. exact Hx.
  - destruct (String.eqb (g_id g) (a_employee_id d)); simpl.
    + intros Hx. left. exact Hx.
    + intros Hx. apply elem_of_cons in Hx as [-> | Hx]; [left; left |].
      destruct (IH Hx) as [H | H]; [left; right; exact H | right; exact H].
Qed.

Lemma group_add_NoDup d gs :
  NoDup (g_id <$> gs) -> NoDup (g_id <$> group_add d gs).
Proof.
  induction gs as [| g gs IH]; simpl; intros Hnd.
  - apply NoDup_singleton.
  - apply NoDup_cons in Hnd as [Hg Hnd].
    destruct (String.eqb_spec (g_id g) (a_employee_id d)) as [Heq | Hne]; simpl.
    + apply NoDup_cons. split; assumption.
    + apply NoDup_cons. split; [| apply IH; exact Hnd].
      intros Hin. apply group_add_ids in Hin as [Hin | Hin]; [exact (Hg Hin) | exact (Hne Hin)].
Qed.

Lemma find_group_add_other d gs k :
  a_employee_id d <> k -> find_group k (group_add d gs) = find_group k gs.
Proof.
  intros Hne. unfold find_group. induction gs as [| g gs IH]; simpl.
  - destruct (String.eqb_spec (a_employee_id d) k); [contradiction | reflexivity].
  - destruct (String.eqb_spec (g_id g) (a_employee_id d)) as [Heq | Hne']; simpl.
    + destruct (String.eqb_spec (g_id g) k); [congruence | reflexivity].
    + destruct (String.eqb (g_id g) k); [reflexivity | exact IH].
Qed.

Lemma find_group_add_same d gs :
  tally (find_group (a_employee_id d) (group_add d gs)) =
  let '(p, a, n) := tally (find_group (a_employee_id d) gs) in
  (p + cond_eq (a_status d) "Present", a + cond_eq (a_status d) "Absent", n + 1).
Proof.
  unfold find_group. induction gs as [| g gs IH]; simpl.
  - rewrite String.eqb_refl. reflexivity.
  - destruct (String.eqb_spec (g_id g) (a_employee_id d)) as [Heq | Hne]; simpl.
    + rewrite Heq, String.eqb_refl. reflexivity.
    + destruct (String.eqb_spec (g_id g) (a_employee_id d)); [contradiction |].
      exact IH.
Qed.

Lemma cond_eq_count employee_id status d docs :
  a_employee_id d = employee_id ->
  count_status employee_id status (d :: docs) =
  cond_eq (a_status d) status + count_status employee_id status docs.
Proof.
  intros Heq. unfold count_status, cond_eq. rewrite filter_cons.
  destruct (String.eqb_spec (a_status d) status) as [Hs | Hs];
    destruct (decide _) as [Hd | Hd]; simpl length; try lia; tauto.
Qed.

Lemma count_status_other employee_id status d docs :
  a_employee_id d <> employee_id ->
  count_status employee_id status (d :: docs) = count_status employee_id status docs.
Proof.
  intros Hne. unfold count_status. rewrite filter_cons.
  destruct (decide _) as [[Hd _] | Hd]; [contradiction | reflexivity].
Qed.

Lemma count_records_cons employee_id d docs :
  count_records employee_id (d :: docs) =
  (if decide (a_employee_id d = employee_id) then 1 else 0)
  + count_records employee_id docs.
Proof.
  unfold count_records. rewrite filter_cons.
  destruct (decide _); simpl length; lia.
Qed.

Lemma aggregate_fold docs : forall acc k,
  NoDup (g_id <$> acc) ->
  let gs := fold_left (fun gs d => group_add d gs) docs acc in
  NoDup (g_id <$> gs)
  /\ tally (find_group k gs) =
     let '(p, a, n) := tally (find_group k acc) in
     (p + count_status k "Present" docs, a + count_status k "Absent" docs,
      n + count_records k docs).
Proof.
  induction docs as [| d docs IH]; intros acc k Hnd; simpl.
  - split; [exact Hnd |]. unfold count_status, count_records; simpl.
    destruct (tally (find_group k acc)) as [[p a] n]. f_equal; [f_equal |]; lia.
  - destruct (IH (group_add d acc) k (group_add_NoDup d acc Hnd)) as [Hnd' Ht].
    split; [exact Hnd' |]. simpl in Ht. rewrite Ht. clear Ht.
    rewrite count_records_cons.
    destruct (decide (a_employee_id d = k)) as [Heq | Hne].
    + subst k. rewrite find_group_add_same.
      destruct (tally (find_group (a_employee_id d) acc)) as [[p a] n].
      rewrite !cond_eq_count by reflexivity. f_equal; [f_equal |]; lia.
    + rewrite find_group_add_other by exact Hne.
      destruct (tally (find_group k acc)) as [[p a] n].
      rewrite !count_status_other by exact Hne. f_equal; lia.
Qed.

Lemma aggregate_group_tally docs k :
  NoDup (g_id <$> aggregate_group docs)
  /\ tally (find_group k (aggregate_group docs)) =
     (count_status k "Present" docs, count_status k "Absent" docs,
      count_records k docs).
Proof.
  destruct (aggregate_fold docs [] k) as [Hnd Ht]; [constructor |].
  split; [exact Hnd |]. exact Ht.
Qed.

(** The dictionary built from the cursor maps an [employee_id] to the
    counts of its group. *)
Lemma stats_dict_lookup gs : forall (m : gmap string (Z * Z * Z)) k,
  NoDup (g_id <$> gs) ->
  fold_left (fun m stat => <[g_id stat := stats_entry stat]> m) gs m !! k =
  match find_group k gs with
  | Some g => Some (stats_entry g)
  | None => m !! k
  end.
Proof.
  unfold find_group.
  induction gs as [| g gs IH]; intros m k Hnd; simpl; [reflexivity |].
  apply NoDup_cons in Hnd as [Hg Hnd]. rewrite IH by exact Hnd.
  destruct (String.eqb_spec (g_id g) k) as [Heq | Hne].
  - destruct (find _ gs) as [g' |] eqn:Hfind.
    + apply find_Some_elem in Hfind as [Hin Hm]. apply String.eqb_eq in Hm.
      exfalso. apply Hg. rewrite Heq, <- Hm. apply list_elem_of_fmap_2. exact Hin.
    + subst k. apply lookup_insert_eq.
  - destruct (find _ gs); [reflexivity |]. apply lookup_insert_ne. exact Hne.
Qed.

Lemma get_attendance_stats_run db :
  run exec get_attendance_stats db =
  (inr ((fun e =>
           mkAttendanceStats (e_employee_id e) (e_full_name e)
             (count_status (e_employee_id e) "Present" (attendance db))
             (count_status (e_employee_id e) "Absent" (attendance db))
             (count_records (e_employee_id e) (attendance db)))
        <$> employees db), db).
Proof.
  unfold run, get_attendance_stats. simpl. f_equal. f_equal.
  apply list_fmap_ext. intros i e _.
  destruct (aggregate_group_tally (attendance db) (e_employee_id e)) as [Hnd Ht].
  rewrite stats_dict_lookup by exact Hnd.
  unfold tally in Ht. destruct (find_group _ _) as [g |]; simpl in *.
  - unfold stats_entry in *. injection Ht as -> -> ->. reflexivity.
  - rewrite lookup_empty. simpl. injection Ht as <- <- <-. reflexivity.
Qed.

(** With every stored status one of the two values, the records of an
    employee are the present ones and the absent ones. *)
Lemma count_records_split employee_id docs :
  Forall valid_status docs ->
  count_records employee_id docs =
  count_status employee_id "Present" docs + count_status employee_id "Absent" docs.
Proof.
  induction 1 as [| d docs [st Hst] _ IH].
  - reflexivity.
  - rewrite count_records_cons.
    destruct (decide (a_employee_id d = employee_id)) as [Heq | Hne].
    + rewrite !cond_eq_count by exact Heq. rewrite IH, Hst.
      destruct st; unfold cond_eq; simpl; lia.
    + rewrite !count_status_other by exact Hne. rewrite IH. lia.
Qed.

(** *** Listing attendance *)

Lemma strptime_midnight s dt :
  Calendar.strptime_ymd s = inr dt -> dt = Calendar.combine_min (dt_date dt).
Proof.
  unfold Calendar.strptime_ymd. repeat case_match; try discriminate.
  intros [= <-]. reflexivity.
Qed.

Lemma strptime_error s e :
  Calendar.strptime_ymd s = inl e -> exists msg, e = ValueError msg.
Proof.
  unfold Calendar.strptime_ymd. repeat case_match; try discriminate;
    intros [= <-]; eauto.
Qed.

Lemma date_bound_parse raw o (q : attendance_query)
    (set : attendance_query -> datetime -> attendance_query) :
  date_bound raw = inr o ->
  match raw with
  | Some s =>
      if Text.truthy s
      then and_then (Calendar.strptime_ymd s) (fun x => inr (set q x))
      else inr q
  | None => inr q
  end = inr (match o with Some d => set q (Calendar.combine_min d) | None => q end).
Proof.
  unfold date_bound. destruct raw as [s |]; [| intros [= <-]; reflexivity].
  destruct (Text.truthy s); [| intros [= <-]; reflexivity].
  destruct (Calendar.strptime_ymd s) as [err | dt] eqn:Hparse; [discriminate |].
  intros [= <-]. simpl. rewrite <- (strptime_midnight s dt Hparse).
  reflexivity.
Qed.

Lemma build_query_bounds e f t lo hi :
  date_bound f = inr lo -> date_bound t = inr hi ->
  build_query e f t =
  inr (mkQuery None (given e) None (Calendar.combine_min <$> lo)
         (Calendar.combine_min <$> hi)).
Proof.
  intros Hf Ht. unfold build_query.
  rewrite (date_bound_parse f lo _ set_date_gte Hf). simpl and_then.
  rewrite (date_bound_parse t hi _ set_date_lte Ht).
  destruct e as [s |]; [destruct (Text.truthy s) eqn:Hs |]; simpl; rewrite ?Hs;
    destruct lo, hi; reflexivity.
Qed.

Lemma matches_selected g lo hi d :
  midnight d ->
  attendance_matches
    (mkQuery None g None (Calendar.combine_min <$> lo) (Calendar.combine_min <$> hi)) d
  = selected g lo hi (a_employee_id d) (dt_date (a_date d)).
Proof.
  intros Hmid. unfold attendance_matches, selected; simpl.
  rewrite (midnight_combine d Hmid). simpl. rewrite andb_true_r.
  destruct lo, hi; simpl; rewrite ?datetime_leb_midnight; reflexivity.
Qed.

Lemma valid_stored_status d :
  valid_status d -> status_of_value (a_status d) = Some (stored_status d).
Proof.
  intros [st Hst]. unfold stored_status. rewrite Hst. destruct st; reflexivity.
Qed.

Lemma get_attendance_run db e f t q :
  build_query e f t = inr q ->
  Forall valid_status (attendance db) ->
  run exec (get_attendance e f t) db =
  (inr (response_of db <$>
          merge_sort date_desc
            (filter (fun d => Is_true (attendance_matches q d)) (attendance db))),
   db).
Proof.
  intros Hq Hvalid. unfold get_attendance. rewrite Hq. simpl bind.
  unfold run at 1. simpl run_interleaved. fold (@run cmd database exec).
  apply run_for_each. intros d Hd.
  rewrite merge_sort_Permutation in Hd.
  apply list_elem_of_filter in Hd as [_ Hd].
  rewrite Forall_forall in Hvalid. specialize (Hvalid d Hd).
  unfold run. simpl. rewrite (valid_stored_status d Hvalid). reflexivity.
Qed.

Lemma get_attendance_error db e f t err :
  build_query e f t = inl err ->
  run exec (get_attendance e f t) db = (inl err, db).
Proof. intros Hq. unfold get_attendance. rewrite Hq. reflexivity. Qed.

#[local] Instance date_desc_total : Total date_desc.
Proof.
  intros a b. unfold date_desc.
  destruct (datetime_leb_total (a_date b) (a_date a)) as [H | H]; rewrite H; simpl; auto.
Qed.

#[local] Instance date_desc_trans : Transitive date_desc.
Proof.
  intros a b c. unfold date_desc. rewrite !Is_true_true. intros H1 H2.
  eapply datetime_leb_trans; eassumption.
Qed.

Lemma datetime_leb_date a b :
  Calendar.datetime_leb a b = true -> Calendar.date_leb (dt_date a) (dt_date b) = true.
Proof.
  unfold Calendar.datetime_leb, Calendar.datetime_ltb, Calendar.datetime_eqb,
    Calendar.date_leb.
  destruct (Calendar.date_ltb _ _), (Calendar.date_eqb _ _); simpl; auto.
Qed.

Lemma sorted_responses db docs :
  StronglySorted newest_first (response_of db <$> merge_sort date_desc docs).
Proof.
  apply (StronglySorted_fmap _ date_desc).
  - intros a b Hab. unfold newest_first, date_desc in *. simpl.
    apply Is_true_true in Hab. apply datetime_leb_date. exact Hab.
  - apply StronglySorted_merge_sort; apply _.
Qed.


(** What a listing returns in a well-formed store. *)
Lemma get_attendance_selected db e f t lo hi :
  wf db -> date_bound f = inr lo -> date_bound t = inr hi ->
  exists rs,
    run exec (get_attendance e f t) db = (inr rs, db)
    /\ rs ≡ₚ response_of db <$>
              filter (fun d => Is_true (selected (given e) lo hi (a_employee_id d)
                                          (dt_date (a_date d))))
                (attendance db)
    /\ StronglySorted newest_first rs.
Proof.
  intros Hwf Hf Ht. eexists. split; [| split].
  - apply get_attendance_run; [apply build_query_bounds; eassumption | apply Hwf].
  - rewrite merge_sort_Permutation. f_equiv.
    erewrite filter_ext_elem; [reflexivity |]. intros d Hd. simpl.
    rewrite matches_selected; [reflexivity |].
    pose proof (wf_midnight db Hwf) as Hmid. rewrite Forall_forall in Hmid.
    apply Hmid. exact Hd.
  - apply sorted_responses.
Qed.

(** *** Creating employees *)

Lemma create_employee_duplicate db e :
  (exists d, d ∈ employees db
     /\ (e_employee_id d = ec_employee_id e \/ e_email d = ec_email e)) ->
  exists detail,
    run exec (create_employee e) db = (inl (HTTPException 400 detail), db).
Proof.
  intros (d & Hin & Hdup). unfold run, create_employee. simpl.
  destruct (find _ (employees db)) eqn:Hid; simpl; [eauto |].
  destruct (find (employee_matches (ByEmail _)) (employees db)) eqn:Hemail;
    simpl; [eauto |].
  exfalso. destruct Hdup as [Hdup | Hdup].
  - pose proof (find_None_elem _ _ Hid d Hin) as Hm. simpl in Hm.
    apply String.eqb_neq in Hm. contradiction.
  - pose proof (find_None_elem _ _ Hemail d Hin) as Hm. simpl in Hm.
    apply String.eqb_neq in Hm. contradiction.
Qed.

(** The pre-checks pass on the stores they see, and by the time of the
    insert another request has stored a clashing employee. *)
Lemma create_employee_race db e f1 f2 f3 env :
  find (employee_matches (ByEmployeeId (ec_employee_id e))) (employees (f1 db)) = None ->
  find (employee_matches (ByEmail (ec_email e))) (employees (f2 (f1 db))) = None ->
  existsb (employee_index_clash (ec_employee_id e) (ec_email e))
    (employees (f3 (f2 (f1 db)))) = true ->
  run_interleaved exec (f1 :: f2 :: f3 :: env) (create_employee e) db =
  (inl DuplicateKeyError, f3 (f2 (f1 db))).
Proof.
  intros H1 H2 H3. unfold create_employee. simpl.
  rewrite H1. simpl. rewrite H2. simpl. rewrite H3. reflexivity.
Qed.

Lemma find_snoc_fresh (l : list employee_doc) (d : employee_doc) (n : Z) :
  Forall (fun x => e_oid x < n) l -> e_oid d = n ->
  find (employee_matches (ByOid n)) (l ++ [d]) = Some d.
Proof.
  intros Hl Hd. induction Hl as [| x l Hx _ IH]; simpl.
  - rewrite Hd, Z.eqb_refl. reflexivity.
  - destruct (Z.eqb_spec (e_oid x) n); [lia | exact IH].
Qed.


(** *** Validation *)

Lemma no_empty_strings_ok v v' : no_empty_strings v = inr v' -> v' = Text.strip v.
Proof.
  unfold no_empty_strings. destruct (negb _); [discriminate |].
  intros [= <-]. reflexivity.
Qed.

Lemma EmployeeCreate_validate_ok EmailStr a b c d e :
  EmployeeCreate_validate EmailStr a b c d = inr e ->
  ec_employee_id e = Text.strip a /\ ec_full_name e = Text.strip b
  /\ ec_department e = Text.strip d /\ EmailStr c = Some (ec_email e).
Proof.
  unfold EmployeeCreate_validate, and_then, require, field.
  destruct (length_between 1 50 a); [| discriminate].
  destruct (no_empty_strings a) as [| a'] eqn:Ha; [discriminate |].
  destruct (length_between 1 100 b); [| discriminate].
  destruct (no_empty_strings b) as [| b'] eqn:Hb; [discriminate |].
  destruct (EmailStr c) as [c' |]; [| discriminate].
  destruct (length_between 1 100 d); [| discriminate].
  destruct (no_empty_strings d) as [| d'] eqn:Hd; [discriminate |].
  intros [= <-]. simpl.
  apply no_empty_strings_ok in Ha, Hb, Hd. subst. auto.
Qed.

Lemma validate_date_future today v :
  Calendar.date_ltb today v = true ->
  exists msg, validate_date today v = inl (ValueError msg).
Proof. intros H. unfold validate_date. rewrite H. eauto. Qed.

Lemma validate_date_today today : validate_date today today = inr today.
Proof. unfold validate_date. rewrite date_ltb_irrefl. reflexivity. Qed.

Lemma AttendanceCreate_validate_future today employee_id v status :
  Calendar.date_ltb today v = true ->
  AttendanceCreate_validate today employee_id v status = inl RequestValidationError.
Proof.
  intros H. unfold AttendanceCreate_validate, validate_date. rewrite H. reflexivity.
Qed.

Lemma AttendanceCreate_validate_today today employee_id st :
  AttendanceCreate_validate today employee_id today (status_value st) =
  inr (mkAttendanceCreate employee_id today st).
Proof.
  unfold AttendanceCreate_validate. rewrite validate_date_today. simpl.
  rewrite status_of_value_value. reflexivity.
Qed.
End MongoFacts.

(** ** The SQL backend *)

Module SqlFacts.
Import Sql.

Lemma sql_wf_empty : wf empty_database.
Proof. split; simpl; constructor. Qed.

Lemma NoDup_fmap_filter {A B} (f : A -> B) (P : A -> Prop)
    `{!forall x, Decision (P x)} (l : list A) :
  NoDup (f <$> l) -> NoDup (f <$> filter P l).
Proof.
  intros Hnd. eapply sublist_NoDup; [exact Hnd |].
  apply fmap_sublist. apply sublist_filter.
Qed.

Lemma unique_clash_false employee_id email (l : list EmployeeDB) :
  existsb (employee_unique_clash employee_id email) l = false ->
  (employee_id ∉ e_employee_id <$> l) /\ (email ∉ e_email <$> l).
Proof.
  intros H. split; intros Hin; apply list_elem_of_fmap in Hin as (d & Hd & Hin);
    pose proof (existsb_false_elem _ _ H d Hin) as Hc;
    unfold employee_unique_clash in Hc; apply orb_false_iff in Hc as [Hc1 Hc2].
  - apply String.eqb_neq in Hc1. congruence.
  - apply String.eqb_neq in Hc2. congruence.
Qed.

(** Every key of the table is below the next one. *)
Lemma next_key_above (keys : list Z) : Forall (fun k => k < next_key keys) keys.
Proof.
  unfold next_key. induction keys as [| k keys IH]; constructor; simpl; [lia |].
  eapply Forall_impl; [exact IH |]. simpl. intros x Hx. lia.
Qed.

Lemma pk_not_fresh (keys : list Z) : next_key keys ∉ keys.
Proof.
  intros Hin. pose proof (next_key_above keys) as H.
  rewrite Forall_forall in H. specialize (H _ Hin). simpl in H. lia.
Qed.

Lemma sql_create_employee_wf e db :
  wf db -> wf (snd (run exec (create_employee e) db)).
Proof.
  intros Hwf. unfold run, create_employee. simpl.
  destruct (find _ (employees db)); simpl; [exact Hwf |].
  destruct (find _ (employees db)); simpl; [exact Hwf |].
  destruct (existsb _ (employees db)) eqn:Hclash; simpl; [exact Hwf |].
  apply unique_clash_false in Hclash as [Hid Hemail].
  destruct Hwf as [H1 H2 H3 H5 H6 H8].
  split; simpl; rewrite ?fmap_app; simpl; try assumption.
  - apply NoDup_snoc; assumption.
  - apply NoDup_snoc; assumption.
  - apply NoDup_snoc; [exact H3 |]. apply pk_not_fresh.
  - eapply Forall_impl; [exact H8 |]. simpl. intros a Ha.
    apply elem_of_app. left. exact Ha.
Qed.

Lemma delete_employee_wf employee_id db :
  wf db -> wf (snd (run exec (delete_employee employee_id) db)).
Proof.
  intros Hwf. unfold run, delete_employee. simpl.
  destruct (find _ (employees db)) as [e |] eqn:Hfind; simpl; [| exact Hwf].
  apply find_Some_elem in Hfind as [He _].
  destruct Hwf as [H1 H2 H3 H5 H6 H8].
  split; simpl.
  - apply NoDup_fmap_filter. exact H1.
  - apply NoDup_fmap_filter. exact H2.
  - apply NoDup_fmap_filter. exact H3.
  - apply NoDup_fmap_filter. exact H5.
  - apply NoDup_fmap_filter. exact H6.
  - rewrite Forall_forall in H8 |- *. intros a Ha.
    apply list_elem_of_filter in Ha as [Hne Ha].
    apply Is_true_true, negb_true_iff, String.eqb_neq in Hne.
    specialize (H8 a Ha). apply list_elem_of_fmap in H8 as (e' & He' & Hin').
    apply list_elem_of_fmap. exists e'. split; [exact He' |].
    apply list_elem_of_filter. split; [| exact Hin'].
    apply Is_true_true, negb_true_iff, Z.eqb_neq. intros Hpk.
    assert (e' = e) as -> by (eapply (NoDup_fmap_eq e_id); eassumption).
    congruence.
Qed.

Lemma update_status_key pk st l : key <$> update_status pk st l = key <$> l.
Proof.
  unfold update_status. rewrite <- list_fmap_compose. apply list_fmap_ext.
  intros i a _. simpl. destruct (a_id a =? pk); reflexivity.
Qed.

Lemma update_status_pk pk st l : a_id <$> update_status pk st l = a_id <$> l.
Proof.
  unfold update_status. rewrite <- list_fmap_compose. apply list_fmap_ext.
  intros i a _. simpl. destruct (a_id a =? pk); reflexivity.
Qed.

Lemma update_status_Forall (P : AttendanceDB -> Prop) pk st l :
  (forall a, P a -> P (with_status a st)) ->
  Forall P l -> Forall P (update_status pk st l).
Proof.
  intros HP Hl. unfold update_status. apply Forall_fmap.
  eapply Forall_impl; [exact Hl |]. intros a Ha. simpl.
  destruct (a_id a =? pk); auto.
Qed.

Lemma same_day_key employee_id d a :
  same_day employee_id d a = true <-> key a = (employee_id, d).
Proof.
  unfold same_day, key. rewrite andb_true_iff, String.eqb_eq, date_eqb_eq.
  split; [intros [-> ->]; reflexivity | intros [= -> ->]; auto].
Qed.

Lemma find_same_day_None employee_id d (l : list AttendanceDB) :
  find (same_day employee_id d) l = None -> (employee_id, d) ∉ key <$> l.
Proof.
  intros H Hin. apply list_elem_of_fmap in Hin as (a & Ha & Hin).
  pose proof (find_None_elem _ _ H a Hin) as Hm.
  assert (same_day employee_id d a = true) as Hm'
    by (apply same_day_key; symmetry; exact Ha).
  congruence.
Qed.

Lemma update_status_elem pk st (l : list AttendanceDB) x :
  x ∈ l -> a_id x = pk -> with_status x st ∈ update_status pk st l.
Proof.
  intros Hx Hpk. unfold update_status. apply list_elem_of_fmap.
  exists x. split; [| exact Hx]. rewrite Hpk, Z.eqb_refl. reflexivity.
Qed.

(** The row that [db.refresh(existing)] reads back. *)
Lemma find_updated st (l : list AttendanceDB) x :
  x ∈ l -> NoDup (a_id <$> l) ->
  find (fun a => a_id a =? a_id x) (update_status (a_id x) st l)
  = Some (with_status x st).
Proof.
  intros Hx Hnd.
  destruct (find _ (update_status (a_id x) st l)) as [y |] eqn:Hfind.
  - apply find_Some_elem in Hfind as [Hy Hpk]. apply Z.eqb_eq in Hpk.
    f_equal. eapply (NoDup_fmap_eq a_id (update_status (a_id x) st l)).
    + rewrite update_status_pk. exact Hnd.
    + exact Hy.
    + apply update_status_elem; [exact Hx | reflexivity].
    + exact Hpk.
  - pose proof (find_None_elem _ _ Hfind (with_status x st)
                  (update_status_elem _ st l x Hx eq_refl)) as Hm.
    simpl in Hm. rewrite Z.eqb_refl in Hm. discriminate.
Qed.

Lemma sql_mark_attendance_wf a db :
  wf db -> wf (snd (run exec (mark_attendance a) db)).
Proof.
  intros Hwf. unfold run, mark_attendance. simpl.
  destruct (find _ (employees db)) as [emp |] eqn:Hemp; simpl; [| exact Hwf].
  destruct (find _ (attendance db)) as [existing |] eqn:Hfind; simpl.
  - apply find_Some_elem in Hfind as [Hin _].
    rewrite (find_updated _ _ _ Hin (sql_wf_pks db Hwf)). simpl.
    destruct Hwf as [H1 H2 H3 H5 H6 H8].
    split; simpl; rewrite ?update_status_key, ?update_status_pk; try assumption.
    apply update_status_Forall; [| exact H8]. intros x Hx. exact Hx.
  - apply find_same_day_None in Hfind.
    apply find_Some_elem in Hemp as [Hemp Hm]. simpl in Hm.
    apply String.eqb_eq in Hm.
    destruct Hwf as [H1 H2 H3 H5 H6 H8].
    split; simpl; rewrite ?fmap_app; simpl; try assumption.
    + apply NoDup_snoc; assumption.
    + apply NoDup_snoc; [exact H6 |]. apply pk_not_fresh.
    + apply Forall_app. split; [exact H8 |]. repeat constructor. simpl.
      rewrite <- Hm. apply list_elem_of_fmap_2. exact Hemp.
Qed.

Lemma sql_get_attendance_read_only e f t : read_only exec (get_attendance e f t).
Proof.
  unfold get_attendance.
  apply read_only_bind; [intros s; reflexivity |]. intros rows.
  apply read_only_for_each. intros a.
  apply read_only_bind; [intros s; reflexivity |]. intros [emp |];
    [apply read_only_ret | apply read_only_raise].
Qed.

Lemma get_attendance_stats_read_only : read_only exec get_attendance_stats.
Proof.
  unfold get_attendance_stats.
  apply read_only_bind; [intros s; reflexivity |]. intros emps.
  apply read_only_for_each. intros emp.
  apply read_only_bind; [intros s; reflexivity |]. intros p.
  apply read_only_bind; [intros s; reflexivity |]. intros a.
  apply read_only_ret.
Qed.

Lemma sql_serve_wf r db : wf db -> wf (serve r db).
Proof.
  intros Hwf. destruct r; simpl.
  - apply sql_create_employee_wf. exact Hwf.
  - exact Hwf.
  - unfold run, get_employee. simpl. destruct (find _ _); exact Hwf.
  - apply delete_employee_wf. exact Hwf.
  - apply sql_mark_attendance_wf. exact Hwf.
  - rewrite sql_get_attendance_read_only. exact Hwf.
  - rewrite get_attendance_stats_read_only. exact Hwf.
Qed.

Lemma sql_reachable_wf db : reachable db -> wf db.
Proof.
  induction 1 as [| r db _ IH]; [apply sql_wf_empty | apply sql_serve_wf; exact IH].
Qed.

Lemma sql_mark_attendance_employees a db :
  employees (snd (run exec (mark_attendance a) db)) = employees db.
Proof.
  unfold run, mark_attendance. simpl.
  destruct (find _ (employees db)) as [emp |]; simpl; [| reflexivity].
  destruct (find _ (attendance db)) as [existing |]; simpl; [| reflexivity].
  destruct (find _ (update_status _ _ _)); reflexivity.
Qed.

Lemma sql_mark_attendance_recorded a db :
  wf db ->
  is_Some (find (employee_matches (ByEmployeeId (ac_employee_id a))) (employees db)) ->
  exists r, r ∈ attendance (snd (run exec (mark_attendance a) db))
    /\ key r = (ac_employee_id a, ac_date a)
    /\ a_status r = ac_status a.
Proof.
  intros Hwf [emp Hemp]. unfold run, mark_attendance. simpl. rewrite Hemp. simpl.
  destruct (find _ (attendance db)) as [existing |] eqn:Hfind; simpl.
  - apply find_Some_elem in Hfind as [Hin Hm]. apply same_day_key in Hm.
    rewrite (find_updated _ _ _ Hin (sql_wf_pks db Hwf)). simpl.
    exists (with_status existing (ac_status a)).
    split; [apply update_status_elem; [exact Hin | reflexivity] |].
    split; [exact Hm | reflexivity].
  - eexists. split; [apply elem_of_app; right; left |]. split; reflexivity.
Qed.

Lemma sql_records_on_at_most_one employee_id d db :
  wf db -> (length (records_on employee_id d db) <= 1)%nat.
Proof.
  intros Hwf. unfold records_on.
  erewrite (filter_ext_elem _ (fun r => key r = (employee_id, d))).
  - apply NoDup_fmap_filter_length. apply Hwf.
  - intros r _. unfold key. split; [intros [-> ->]; reflexivity | intros [= -> ->]; auto].
Qed.

Lemma sql_records_on_singleton employee_id d db r :
  wf db -> r ∈ attendance db -> key r = (employee_id, d) ->
  records_on employee_id d db = [r].
Proof.
  intros Hwf Hr Hkey. apply length_le_1_elem.
  - apply sql_records_on_at_most_one. exact Hwf.
  - apply list_elem_of_filter. split; [| exact Hr].
    unfold key in Hkey. injection Hkey as -> ->. auto.
Qed.

Lemma sql_mark_attendance_twice db employee_id d s1 s2 :
  wf db ->
  is_Some (find (employee_matches (ByEmployeeId employee_id)) (employees db)) ->
  exists r,
    records_on employee_id d
      (serve (MarkAttendance (mkAttendanceCreate employee_id d s2))
         (serve (MarkAttendance (mkAttendanceCreate employee_id d s1)) db)) = [r]
    /\ a_status r = s2.
Proof.
  intros Hwf Hemp. simpl.
  set (db1 := snd (run exec (mark_attendance (mkAttendanceCreate employee_id d s1)) db)).
  assert (wf db1) as Hwf1 by (apply sql_mark_attendance_wf; exact Hwf).
  assert (is_Some (find (employee_matches (ByEmployeeId employee_id)) (employees db1)))
    as Hemp1 by (unfold db1; rewrite sql_mark_attendance_employees; exact Hemp).
  destruct (sql_mark_attendance_recorded (mkAttendanceCreate employee_id d s2) db1 Hwf1 Hemp1)
    as (r & Hin & Hkey & Hst).
  exists r. split; [| exact Hst].
  apply sql_records_on_singleton; [apply sql_mark_attendance_wf; exact Hwf1 | exact Hin | exact Hkey].
Qed.

Lemma sql_mark_attendance_unknown a db :
  (forall e, e ∈ employees db -> e_employee_id e <> ac_employee_id a) ->
  run exec (mark_attendance a) db = (inl (not_found (ac_employee_id a)), db).
Proof.
  intros Hnone. unfold run, mark_attendance. simpl.
  destruct (find _ (employees db)) as [emp |] eqn:Hfind; [| reflexivity].
  apply find_Some_elem in Hfind as [Hin Hm]. simpl in Hm.
  apply String.eqb_eq in Hm. exfalso. exact (Hnone emp Hin Hm).
Qed.

(** *** Statistics *)

Lemma count_filter employee_id st (rows : list AttendanceDB) :
  Z.of_nat (length
    (filter (fun a => Is_true (String.eqb (a_employee_id a) employee_id
                               && status_eqb (a_status a) st)) rows))
  = count_status employee_id st rows.
Proof.
  unfold count_status. f_equal. f_equal. apply filter_ext_elem. intros a _.
  rewrite Is_true_true, andb_true_iff, String.eqb_eq.
  destruct (a_status a), st; simpl; intuition congruence.
Qed.

Lemma sql_get_attendance_stats_run db :
  run exec get_attendance_stats db =
  (inr ((fun e =>
           mkAttendanceStats (e_employee_id e) (e_full_name e)
             (count_status (e_employee_id e) PRESENT (attendance db))
             (count_status (e_employee_id e) ABSENT (attendance db))
             (count_status (e_employee_id e) PRESENT (attendance db)
              + count_status (e_employee_id e) ABSENT (attendance db)))
        <$> employees db), db).
Proof.
  unfold get_attendance_stats. unfold run at 1. simpl run_interleaved.
  fold (@run cmd database exec).
  apply run_for_each. intros e _. unfold run. simpl.
  rewrite !count_filter. reflexivity.
Qed.

(** *** Listing attendance *)


#[local] Instance sql_date_desc_total : Total date_desc.
Proof.
  intros a b. unfold date_desc.
  destruct (date_leb_total (a_date b) (a_date a)) as [H | H]; rewrite H; simpl; auto.
Qed.

#[local] Instance sql_date_desc_trans : Transitive date_desc.
Proof.
  intros a b c. unfold date_desc. rewrite !Is_true_true. intros H1 H2.
  eapply date_leb_trans; eassumption.
Qed.

Lemma sql_matches_selected e lo hi a :
  attendance_matches (build_query e lo hi) a
  = selected (given e) lo hi (a_employee_id a) (a_date a).
Proof. reflexivity. Qed.



(** *** Creating employees *)

Lemma sql_create_employee_duplicate db e :
  (exists d, d ∈ employees db
     /\ (e_employee_id d = ec_employee_id e \/ e_email d = ec_email e)) ->
  exists detail,
    run exec (create_employee e) db = (inl (HTTPException 400 detail), db).
Proof.
  intros (d & Hin & Hdup). unfold run, create_employee. simpl.
  destruct (find _ (employees db)) eqn:Hid; simpl; [eauto |].
  destruct (find (employee_matches (ByEmail _)) (employees db)) eqn:Hemail;
    simpl; [eauto |].
  exfalso. destruct Hdup as [Hdup | Hdup].
  - pose proof (find_None_elem _ _ Hid d Hin) as Hm. simpl in Hm.
    apply String.eqb_neq in Hm. contradiction.
  - pose proof (find_None_elem _ _ Hemail d Hin) as Hm. simpl in Hm.
    apply String.eqb_neq in Hm. contradiction.
Qed.

Lemma sql_create_employee_race db e f1 f2 f3 env :
  find (employee_matches (ByEmployeeId (ec_employee_id e))) (employees (f1 db)) = None ->
  find (employee_matches (ByEmail (ec_email e))) (employees (f2 (f1 db))) = None ->
  existsb (employee_unique_clash (ec_employee_id e) (ec_email e))
    (employees (f3 (f2 (f1 db)))) = true ->
  run_interleaved exec (f1 :: f2 :: f3 :: env) (create_employee e) db =
  (inl IntegrityError, f3 (f2 (f1 db))).
Proof.
  intros H1 H2 H3. unfold create_employee. simpl.
  rewrite H1. simpl. rewrite H2. simpl. rewrite H3. reflexivity.
Qed.


(** *** Validation *)

Lemma sql_no_empty_strings_ok v v' : no_empty_strings v = inr v' -> v' = Text.strip v.
Proof.
  unfold no_empty_strings. destruct (_ || _); [discriminate |].
  intros [= <-]. reflexivity.
Qed.

Lemma sql_EmployeeCreate_validate_ok EmailStr a b c d e :
  EmployeeCreate_validate EmailStr a b c d = inr e ->
  ec_employee_id e = Text.strip a /\ ec_full_name e = Text.strip b
  /\ ec_department e = Text.strip d /\ EmailStr c = Some (ec_email e).
Proof.
  unfold EmployeeCreate_validate, and_then, require, field.
  destruct (length_between 1 50 a); [| discriminate].
  destruct (no_empty_strings a) as [| a'] eqn:Ha; [discriminate |].
  destruct (length_between 1 100 b); [| discriminate].
  destruct (no_empty_strings b) as [| b'] eqn:Hb; [discriminate |].
  destruct (EmailStr c) as [c' |]; [| discriminate].
  destruct (length_between 1 100 d); [| discriminate].
  destruct (no_empty_strings d) as [| d'] eqn:Hd; [discriminate |].
  intros [= <-]. simpl.
  apply sql_no_empty_strings_ok in Ha, Hb, Hd. subst. auto.
Qed.

Lemma sql_AttendanceCreate_validate_future today employee_id v status :
  Calendar.date_ltb today v = true ->
  AttendanceCreate_validate today employee_id v status = inl RequestValidationError.
Proof.
  intros H. unfold AttendanceCreate_validate, validate_date. rewrite H. reflexivity.
Qed.

Lemma sql_AttendanceCreate_validate_today today employee_id st :
  AttendanceCreate_validate today employee_id today (status_value st) =
  inr (mkAttendanceCreate employee_id today st).
Proof.
  unfold AttendanceCreate_validate, validate_date. rewrite date_ltb_irrefl. simpl.
  rewrite status_of_value_value. reflexivity.
Qed.

(** A parameter declared as a date that does not parse is refused before
    the handler runs. *)
Lemma get_attendance_request_malformed parse_date db e s t :
  parse_date s = None ->
  run exec (get_attendance_request parse_date e (Some s) t) db
  = (inl RequestValidationError, db).
Proof.
  intros Hs. unfold get_attendance_request, date_parameter. rewrite Hs. reflexivity.
Qed.
End SqlFacts.

(** ** The two backends on the same contents *)

Lemma filter_fmap_length {A B} (f : A -> B) (P : A -> Prop) (Q : B -> Prop)
    `{!forall x, Decision (P x)} `{!forall y, Decision (Q y)} (l : list A) :
  (forall x, P x <-> Q (f x)) ->
  length (filter P l) = length (filter Q (f <$> l)).
Proof.
  intros HPQ. induction l as [| a l IH]; [reflexivity |].
  rewrite fmap_cons, !filter_cons. specialize (HPQ a).
  destruct (decide (P a)), (decide (Q (f a))); simpl; try tauto; rewrite IH;
    reflexivity.
Qed.

Lemma mongo_count_view employee_id status docs :
  Mongo.count_status employee_id status docs
  = view_count employee_id status (mongo_attendance <$> docs).
Proof.
  unfold Mongo.count_status, view_count. f_equal.
  apply filter_fmap_length. intros d. reflexivity.
Qed.

Lemma mongo_total_view employee_id docs :
  Mongo.count_records employee_id docs
  = view_total employee_id (mongo_attendance <$> docs).
Proof.
  unfold Mongo.count_records, view_total. f_equal.
  apply filter_fmap_length. intros d. reflexivity.
Qed.

Lemma status_value_inj s1 s2 : status_value s1 = status_value s2 -> s1 = s2.
Proof. destruct s1, s2; simpl; congruence. Qed.

Lemma sql_count_view employee_id st rows :
  Sql.count_status employee_id st rows
  = view_count employee_id (status_value st) (sql_attendance <$> rows).
Proof.
  unfold Sql.count_status, view_count. f_equal.
  apply filter_fmap_length. intros a. simpl. split.
  - intros [-> ->]. auto.
  - intros [-> H]. split; [reflexivity | apply status_value_inj; exact H].
Qed.

Lemma filter_split_length {A} (P Q1 Q2 : A -> Prop)
    `{!forall x, Decision (P x)} `{!forall x, Decision (Q1 x)}
    `{!forall x, Decision (Q2 x)} (l : list A) :
  Forall (fun x => (Q1 x \/ Q2 x) /\ ~ (Q1 x /\ Q2 x)) l ->
  length (filter P l) =
  (length (filter (fun x => P x /\ Q1 x) l)
   + length (filter (fun x => P x /\ Q2 x) l))%nat.
Proof.
  induction 1 as [| a l Ha _ IH]; [reflexivity |].
  rewrite !filter_cons.
  destruct (decide (P a)), (decide (P a /\ Q1 a)), (decide (P a /\ Q2 a));
    simpl; rewrite IH; try lia; tauto.
Qed.

Lemma view_total_split employee_id (vs : list attendance_view) :
  Forall (fun v => v.2 = "Present" \/ v.2 = "Absent") vs ->
  view_total employee_id vs
  = view_count employee_id "Present" vs + view_count employee_id "Absent" vs.
Proof.
  intros Hvalid. unfold view_total, view_count. rewrite <- Nat2Z.inj_add. f_equal.
  apply filter_split_length. eapply Forall_impl; [exact Hvalid |].
  intros v Hv. simpl. split; [exact Hv |]. intros [H1 H2]. congruence.
Qed.

Lemma sql_views_valid rows :
  Forall (fun v : attendance_view => v.2 = "Present" \/ v.2 = "Absent")
    (sql_attendance <$> rows).
Proof.
  apply Forall_fmap, Forall_forall. intros a _. simpl.
  destruct (Sql.a_status a); auto.
Qed.

#[local] Instance view_count_perm employee_id status :
  Proper ((≡ₚ) ==> (=)) (view_count employee_id status).
Proof. intros vs1 vs2 Hp. unfold view_count. rewrite Hp. reflexivity. Qed.

#[local] Instance view_total_perm employee_id :
  Proper ((≡ₚ) ==> (=)) (view_total employee_id).
Proof. intros vs1 vs2 Hp. unfold view_total. rewrite Hp. reflexivity. Qed.

Lemma stats_same_contents m s :
  same_contents m s ->
  exists ms ss,
    run Mongo.exec Mongo.get_attendance_stats m = (inr ms, m)
    /\ run Sql.exec Sql.get_attendance_stats s = (inr ss, s)
    /\ ms ≡ₚ ss.
Proof.
  intros [Hemp Hatt]. do 2 eexists.
  split; [apply MongoFacts.get_attendance_stats_run |].
  split; [apply SqlFacts.sql_get_attendance_stats_run |].
  match goal with |- ?ms ≡ₚ ?ss =>
    assert (ms = stats_of_view (sql_attendance <$> Sql.attendance s)
                   <$> (mongo_employee <$> Mongo.employees m)) as ->;
    [| assert (ss = stats_of_view (sql_attendance <$> Sql.attendance s)
                      <$> (sql_employee <$> Sql.employees s)) as ->]
  end.
  - rewrite <- list_fmap_compose. apply list_fmap_ext.
    intros i d _. unfold stats_of_view. simpl.
    rewrite !mongo_count_view, mongo_total_view, !Hatt.
    rewrite (view_total_split _ _ (sql_views_valid _)). reflexivity.
  - rewrite <- list_fmap_compose. apply list_fmap_ext.
    intros i e _. unfold stats_of_view. simpl.
    rewrite !sql_count_view. reflexivity.
  - rewrite Hemp. reflexivity.
Qed.

(** ** The model on concrete requests *)

Example strip_both_ends : Text.strip "  E 1  " = "E 1".
Proof. reflexivity. Qed.

Example strip_blank : Text.strip "   " = "".
Proof. reflexivity. Qed.

Example strptime_single_digits :
  Calendar.strptime_ymd "2024-1-5" = inr (Calendar.combine_min (mkDate 2024 1 5))
  /\ Calendar.iso_date "2024-1-5" = None.
Proof. split; reflexivity. Qed.

Example strptime_leap_day :
  Calendar.strptime_ymd "2024-02-29" = inr (Calendar.combine_min (mkDate 2024 2 29))
  /\ Calendar.strptime_ymd "2023-02-29" = inl (ValueError "value is out of range").
Proof. split; reflexivity. Qed.

Example blank_employee_id_refused :
  Mongo.EmployeeCreate_validate Sample.any_email "   " "Alice" "a@x.com" "Eng"
  = inl RequestValidationError.
Proof. reflexivity. Qed.

(** Create E1, mark 2024-01-01 Present, then Absent: the listing for E1
    has one record, dated 2024-01-01, Absent. *)
Example scenario_mark_twice_mongo :
  fst (run Mongo.exec (Mongo.get_attendance (Some "E1") None None)
         (Mongo.serve (Mongo.MarkAttendance (mkAttendanceCreate "E1" Sample.new_year ABSENT))
            (Mongo.serve (Mongo.MarkAttendance (mkAttendanceCreate "E1" Sample.new_year PRESENT))
               (Mongo.serve (Mongo.CreateEmployee Sample.alice) Mongo.empty_database))))
  = inr [mkAttendance 1 "E1" Sample.new_year ABSENT (Some "Alice")].
Proof. reflexivity. Qed.

Example scenario_mark_twice_sql :
  fst (run Sql.exec (Sql.get_attendance (Some "E1") None None)
         (Sql.serve (Sql.MarkAttendance (mkAttendanceCreate "E1" Sample.new_year ABSENT))
            (Sql.serve (Sql.MarkAttendance (mkAttendanceCreate "E1" Sample.new_year PRESENT))
               (Sql.serve (Sql.CreateEmployee Sample.alice) Sql.empty_database))))
  = inr [mkAttendance 1 "E1" Sample.new_year ABSENT (Some "Alice")].
Proof. reflexivity. Qed.

(** Three days present and two absent give 3, 2 and 5; an employee
    without records gives three zeros. *)
Example scenario_stats_mongo :
  fst (run Mongo.exec Mongo.get_attendance_stats
         (foldr Mongo.serve Mongo.empty_database
            [Mongo.MarkAttendance (mkAttendanceCreate "E1" (mkDate 2024 1 5) ABSENT);
             Mongo.MarkAttendance (mkAttendanceCreate "E1" (mkDate 2024 1 4) PRESENT);
             Mongo.MarkAttendance (mkAttendanceCreate "E1" (mkDate 2024 1 3) ABSENT);
             Mongo.MarkAttendance (mkAttendanceCreate "E1" (mkDate 2024 1 2) PRESENT);
             Mongo.MarkAttendance (mkAttendanceCreate "E1" (mkDate 2024 1 1) PRESENT);
             Mongo.CreateEmployee Sample.bob;
             Mongo.CreateEmployee Sample.alice]))
  = inr [mkAttendanceStats "E1" "Alice" 3 2 5; mkAttendanceStats "E2" "Bob" 0 0 0].
Proof. reflexivity. Qed.

Example scenario_stats_sql :
  fst (run Sql.exec Sql.get_attendance_stats
         (foldr Sql.serve Sql.empty_database
            [Sql.MarkAttendance (mkAttendanceCreate "E1" (mkDate 2024 1 5) ABSENT);
             Sql.MarkAttendance (mkAttendanceCreate "E1" (mkDate 2024 1 4) PRESENT);
             Sql.MarkAttendance (mkAttendanceCreate "E1" (mkDate 2024 1 3) ABSENT);
             Sql.MarkAttendance (mkAttendanceCreate "E1" (mkDate 2024 1 2) PRESENT);
             Sql.MarkAttendance (mkAttendanceCreate "E1" (mkDate 2024 1 1) PRESENT);
             Sql.CreateEmployee Sample.bob;
             Sql.CreateEmployee Sample.alice]))
  = inr [mkAttendanceStats "E1" "Alice" 3 2 5; mkAttendanceStats "E2" "Bob" 0 0 0].
Proof. reflexivity. Qed.

(** Deleting an employee of the SQL backend deletes the records. *)
Example delete_cascades :
  Sql.attendance (Sql.serve (Sql.DeleteEmployee "E1") Sample.sql_db) = [].
Proof. reflexivity. Qed.

(** ** Interleaved writers

    The unique index of the MongoDB collection keeps the key unique
    whatever calls reach the storage; the SQL table has no such
    constraint, and its handler relies on the check before the write. *)

Lemma mongo_exec_unique_key X (c : Mongo.cmd X) (db : Mongo.database) :
  NoDup (Mongo.key <$> Mongo.attendance db) ->
  NoDup (Mongo.key <$> Mongo.attendance (snd (Mongo.exec X c db))).
Proof.
  intros Hnd. destruct c; simpl; try exact Hnd.
  - destruct (existsb _ _); exact Hnd.
  - rewrite MongoFacts.update_first_key. exact Hnd.
  - destruct (existsb _ _) eqn:Hclash; simpl; [exact Hnd |].
    rewrite fmap_app. apply NoDup_snoc; [exact Hnd |].
    apply MongoFacts.attendance_clash_false. exact Hclash.
Qed.

Lemma mongo_interleaved_unique_key {A} (p : @prog Mongo.cmd A) :
  forall (env : list (Mongo.database -> Mongo.database)) (db : Mongo.database),
  Forall (fun f => forall s, NoDup (Mongo.key <$> Mongo.attendance s) ->
                             NoDup (Mongo.key <$> Mongo.attendance (f s))) env ->
  NoDup (Mongo.key <$> Mongo.attendance db) ->
  NoDup (Mongo.key <$> Mongo.attendance (snd (run_interleaved Mongo.exec env p db))).
Proof.
  induction p as [a | e | X c k IH]; intros env db Henv Hnd; simpl;
    [exact Hnd | exact Hnd |].
  assert (NoDup (Mongo.key <$> Mongo.attendance
                   (match env with f :: _ => f db | [] => db end))) as Hnd1.
  { destruct Henv as [| f env Hf _]; [exact Hnd | apply Hf; exact Hnd]. }
  pose proof (mongo_exec_unique_key X c _ Hnd1) as Hnd2.
  destruct (Mongo.exec X c _) as [[e | x] db2]; simpl in *; [exact Hnd2 |].
  apply IH; [| exact Hnd2].
  destruct Henv as [| f env _ Henv]; [constructor | exact Henv].
Qed.

(** Two requests mark the same employee and date; the second reads
    before the first writes. MongoDB refuses the second insert. *)
Example mongo_interleaved_mark :
  let db := Mongo.serve (Mongo.CreateEmployee Sample.alice) Mongo.empty_database in
  let a := mkAttendanceCreate "E1" Sample.new_year PRESENT in
  let r := run_interleaved Mongo.exec [id; id; Mongo.serve (Mongo.MarkAttendance a)]
             (Mongo.mark_attendance a) db in
  fst r = inl DuplicateKeyError
  /\ length (Mongo.records_on "E1" Sample.new_year (snd r)) = 1%nat.
Proof. split; reflexivity. Qed.

(** The SQL backend stores both. *)
Example sql_interleaved_mark :
  let db := Sql.serve (Sql.CreateEmployee Sample.alice) Sql.empty_database in
  let a := mkAttendanceCreate "E1" Sample.new_year PRESENT in
  let r := run_interleaved Sql.exec [id; id; Sql.serve (Sql.MarkAttendance a)]
             (Sql.mark_attendance a) db in
  length (Sql.records_on "E1" Sample.new_year (snd r)) = 2%nat.
Proof. reflexivity. Qed.

(** * The claims *)

Lemma sample_mongo_reachable : Mongo.reachable Sample.mongo_db.
Proof. unfold Sample.mongo_db. repeat apply Mongo.reachable_serve. apply Mongo.reachable_empty. Qed.

Lemma sample_sql_reachable : Sql.reachable Sample.sql_db.
Proof. unfold Sample.sql_db. repeat apply Sql.reachable_serve. apply Sql.reachable_empty. Qed.

Lemma mongo_employee_found (db : Mongo.database) employee_id :
  (exists e, e ∈ Mongo.employees db /\ Mongo.e_employee_id e = employee_id) ->
  is_Some (find (Mongo.employee_matches (Mongo.ByEmployeeId employee_id))
             (Mongo.employees db)).
Proof.
  intros (e & Hin & Heq). eapply find_elem_is_Some; [exact Hin |].
  simpl. apply String.eqb_eq. exact Heq.
Qed.

Lemma sql_employee_found (db : Sql.database) employee_id :
  (exists e, e ∈ Sql.employees db /\ Sql.e_employee_id e = employee_id) ->
  is_Some (find (Sql.employee_matches (Sql.ByEmployeeId employee_id))
             (Sql.employees db)).
Proof.
  intros (e & Hin & Heq). eapply find_elem_is_Some; [exact Hin |].
  simpl. apply String.eqb_eq. exact Heq.
Qed.

Lemma sql_no_record_find (db : Sql.database) employee_id d :
  Sql.records_on employee_id d db = [] ->
  find (Sql.same_day employee_id d) (Sql.attendance db) = None.
Proof.
  intros Hnone.
  destruct (find _ (Sql.attendance db)) as [x |] eqn:Hx; [| reflexivity].
  apply find_Some_elem in Hx as [Hin Hm].
  apply SqlFacts.same_day_key in Hm. injection Hm as H1 H2.
  assert (x ∈ Sql.records_on employee_id d db) as Hrec
    by (apply list_elem_of_filter; auto).
  rewrite Hnone in Hrec. inversion Hrec.
Qed.

(** C1. The SQL backend stores two records for one employee and date
    when two requests mark the pair at the same time. The table has no
    unique constraint on [(employee_id, date)]: when the second request
    is served after the first one has looked for a record of the pair and
    before it inserts its own, both insert, and the pair has two records,
    one with the status of either call. *)
Theorem sql_interleaved_marks_store_two_records
    (sdb : Sql.database) (employee_id : string) (d : date)
    (s1 s2 : AttendanceStatus) :
  (exists e, e ∈ Sql.employees sdb /\ Sql.e_employee_id e = employee_id) ->
  Sql.records_on employee_id d sdb = [] ->
  Sql.a_status <$>
    Sql.records_on employee_id d
      (snd (run_interleaved Sql.exec
              [id; id;
               Sql.serve (Sql.MarkAttendance (mkAttendanceCreate employee_id d s2))]
              (Sql.mark_attendance (mkAttendanceCreate employee_id d s1)) sdb))
  = [s2; s1].
Proof.
  intros He Hnone.
  destruct (sql_employee_found sdb employee_id He) as [emp Hemp].
  pose proof (sql_no_record_find sdb employee_id d Hnone) as Hfind.
  unfold Sql.mark_attendance. simpl. rewrite Hemp. simpl. rewrite Hfind. simpl.
  unfold run, Sql.mark_attendance. simpl. rewrite Hemp. simpl. rewrite Hfind. simpl.
  unfold Sql.records_on in *. simpl.
  rewrite !filter_app, Hnone, !filter_cons, filter_nil. simpl.
  rewrite !decide_True by auto. reflexivity.
Qed.

Lemma sql_interleaved_marks_store_two_records_witness :
  let db := Sql.serve (Sql.CreateEmployee Sample.alice) Sql.empty_database in
  Sql.a_status <$>
    Sql.records_on "E1" Sample.new_year
      (snd (run_interleaved Sql.exec
              [id; id;
               Sql.serve (Sql.MarkAttendance
                            (mkAttendanceCreate "E1" Sample.new_year ABSENT))]
              (Sql.mark_attendance (mkAttendanceCreate "E1" Sample.new_year PRESENT))
              db))
  = [ABSENT; PRESENT].
Proof.
  intros db.
  apply (sql_interleaved_marks_store_two_records db "E1" Sample.new_year PRESENT ABSENT).
  - exists (Sql.mkEmployeeDB 1 "E1" "Alice" "a@x.com" "Eng").
    split; [vm_compute; left | reflexivity].
  - reflexivity.
Defined.

(** C2, as the code has it. Creating an employee whose [employee_id] or
    [email] is already stored fails with a conflict (status 400) and
    leaves the store alone, whatever the other fields are, in both
    backends. When the pre-checks pass and only the unique index finds the
    duplicate at insert time, the exception of the storage layer
    ([DuplicateKeyError], [IntegrityError]) leaves the handler as it is
    and is answered with status 500. *)
Theorem create_employee_conflict
    (mdb : Mongo.database) (sdb : Sql.database) (e : EmployeeCreate) :
  ((exists d, d ∈ Mongo.employees mdb
      /\ (Mongo.e_employee_id d = ec_employee_id e \/ Mongo.e_email d = ec_email e)) ->
   exists err,
     run Mongo.exec (Mongo.create_employee e) mdb = (inl err, mdb)
     /\ is_ConflictError err)
  /\ ((exists d, d ∈ Sql.employees sdb
         /\ (Sql.e_employee_id d = ec_employee_id e \/ Sql.e_email d = ec_email e)) ->
      exists err,
        run Sql.exec (Sql.create_employee e) sdb = (inl err, sdb)
        /\ is_ConflictError err)
  /\ (forall f1 f2 f3 env,
        find (Mongo.employee_matches (Mongo.ByEmployeeId (ec_employee_id e)))
          (Mongo.employees (f1 mdb)) = None ->
        find (Mongo.employee_matches (Mongo.ByEmail (ec_email e)))
          (Mongo.employees (f2 (f1 mdb))) = None ->
        existsb (Mongo.employee_index_clash (ec_employee_id e) (ec_email e))
          (Mongo.employees (f3 (f2 (f1 mdb)))) = true ->
        run_interleaved Mongo.exec (f1 :: f2 :: f3 :: env) (Mongo.create_employee e) mdb
        = (inl DuplicateKeyError, f3 (f2 (f1 mdb)))
        /\ http_status DuplicateKeyError = 500)
  /\ (forall f1 f2 f3 env,
        find (Sql.employee_matches (Sql.ByEmployeeId (ec_employee_id e)))
          (Sql.employees (f1 sdb)) = None ->
        find (Sql.employee_matches (Sql.ByEmail (ec_email e)))
          (Sql.employees (f2 (f1 sdb))) = None ->
        existsb (Sql.employee_unique_clash (ec_employee_id e) (ec_email e))
          (Sql.employees (f3 (f2 (f1 sdb)))) = true ->
        run_interleaved Sql.exec (f1 :: f2 :: f3 :: env) (Sql.create_employee e) sdb
        = (inl IntegrityError, f3 (f2 (f1 sdb)))
        /\ http_status IntegrityError = 500).
Proof.
  split; [| split; [| split]].
  - intros Hdup. destruct (MongoFacts.create_employee_duplicate mdb e Hdup) as [detail Hrun].
    eexists. split; [exact Hrun | reflexivity].
  - intros Hdup. destruct (SqlFacts.sql_create_employee_duplicate sdb e Hdup) as [detail Hrun].
    eexists. split; [exact Hrun | reflexivity].
  - intros f1 f2 f3 env H1 H2 H3. split; [| reflexivity].
    apply MongoFacts.create_employee_race; assumption.
  - intros f1 f2 f3 env H1 H2 H3. split; [| reflexivity].
    apply SqlFacts.sql_create_employee_race; assumption.
Qed.

Lemma create_employee_conflict_witness :
  (exists err,
     run Mongo.exec
       (Mongo.create_employee (mkEmployeeCreate "E1" "Carol" "c@x.com" "Ops"))
       Sample.mongo_db = (inl err, Sample.mongo_db)
     /\ is_ConflictError err)
  /\ (exists err,
        run Sql.exec
          (Sql.create_employee (mkEmployeeCreate "E7" "Carol" "a@x.com" "Ops"))
          Sample.sql_db = (inl err, Sample.sql_db)
        /\ is_ConflictError err)
  /\ run_interleaved Mongo.exec
       [id; id; Mongo.serve (Mongo.CreateEmployee Sample.alice)]
       (Mongo.create_employee Sample.alice) Mongo.empty_database
     = (inl DuplicateKeyError,
        Mongo.serve (Mongo.CreateEmployee Sample.alice) Mongo.empty_database)
  /\ run_interleaved Sql.exec
       [id; id; Sql.serve (Sql.CreateEmployee Sample.alice)]
       (Sql.create_employee Sample.alice) Sql.empty_database
     = (inl IntegrityError,
        Sql.serve (Sql.CreateEmployee Sample.alice) Sql.empty_database).
Proof.
  split; [| split; [| split]].
  - apply (create_employee_conflict Sample.mongo_db Sample.sql_db
             (mkEmployeeCreate "E1" "Carol" "c@x.com" "Ops")).
    exists (Mongo.mkEmployeeDoc 0 "E1" "Alice" "a@x.com" "Eng").
    split; [vm_compute; left | left; reflexivity].
  - apply (create_employee_conflict Sample.mongo_db Sample.sql_db
             (mkEmployeeCreate "E7" "Carol" "a@x.com" "Ops")).
    exists (Sql.mkEmployeeDB 2 "E1" "Alice" "a@x.com" "Eng").
    split; [vm_compute; right; left | right; reflexivity].
  - apply (create_employee_conflict Mongo.empty_database Sql.empty_database
             Sample.alice); reflexivity.
  - apply (create_employee_conflict Mongo.empty_database Sql.empty_database
             Sample.alice); reflexivity.
Defined.

(** C2 as stated fails: two identical creations race, both pre-checks of
    the second pass on the empty store, the first is inserted before the
    second inserts, and the second ends with the exception of the storage
    layer, which is no conflict error. *)
Lemma create_employee_race_counterexample :
  exists err,
    fst (run_interleaved Mongo.exec
           [id; id; Mongo.serve (Mongo.CreateEmployee Sample.alice)]
           (Mongo.create_employee Sample.alice) Mongo.empty_database) = inl err
    /\ ~ is_ConflictError err.
Proof.
  exists DuplicateKeyError. split; [reflexivity |].
  unfold is_ConflictError. simpl. lia.
Qed.

Lemma count_status_none (docs : list Mongo.attendance_doc) employee_id status :
  (forall r, r ∈ docs -> Mongo.a_employee_id r <> employee_id) ->
  Mongo.count_status employee_id status docs = 0.
Proof.
  intros Hnone. unfold Mongo.count_status.
  induction docs as [| d docs IH]; [reflexivity |].
  rewrite filter_cons. destruct (decide _) as [[Hd _] | _].
  - exfalso. apply (Hnone d); [left | exact Hd].
  - apply IH. intros r Hr. apply Hnone. right. exact Hr.
Qed.

Lemma sql_count_status_none (rows : list Sql.AttendanceDB) employee_id st :
  (forall r, r ∈ rows -> Sql.a_employee_id r <> employee_id) ->
  Sql.count_status employee_id st rows = 0.
Proof.
  intros Hnone. unfold Sql.count_status.
  induction rows as [| d rows IH]; [reflexivity |].
  rewrite filter_cons. destruct (decide _) as [[Hd _] | _].
  - exfalso. apply (Hnone d); [left | exact Hd].
  - apply IH. intros r Hr. apply Hnone. right. exact Hr.
Qed.

(** C3. The statistics hold one entry per stored employee, in the order
    of the employees: [total_present] and [total_absent] count the
    records of the employee with status Present and Absent, [total_days]
    is their sum, and an employee without records has three zeros. *)
Theorem stats_one_entry_per_employee
    (mdb : Mongo.database) (sdb : Sql.database) :
  Mongo.reachable mdb ->
  exists ms ss,
    run Mongo.exec Mongo.get_attendance_stats mdb = (inr ms, mdb)
    /\ run Sql.exec Sql.get_attendance_stats sdb = (inr ss, sdb)
    /\ ms = (fun e =>
               let present := Mongo.count_status (Mongo.e_employee_id e) "Present"
                                (Mongo.attendance mdb) in
               let absent := Mongo.count_status (Mongo.e_employee_id e) "Absent"
                               (Mongo.attendance mdb) in
               mkAttendanceStats (Mongo.e_employee_id e) (Mongo.e_full_name e)
                 present absent (present + absent)) <$> Mongo.employees mdb
    /\ ss = (fun e =>
               let present := Sql.count_status (Sql.e_employee_id e) PRESENT
                                (Sql.attendance sdb) in
               let absent := Sql.count_status (Sql.e_employee_id e) ABSENT
                               (Sql.attendance sdb) in
               mkAttendanceStats (Sql.e_employee_id e) (Sql.e_full_name e)
                 present absent (present + absent)) <$> Sql.employees sdb
    /\ (forall e, e ∈ Mongo.employees mdb ->
          (forall r, r ∈ Mongo.attendance mdb ->
             Mongo.a_employee_id r <> Mongo.e_employee_id e) ->
          mkAttendanceStats (Mongo.e_employee_id e) (Mongo.e_full_name e) 0 0 0 ∈ ms)
    /\ (forall e, e ∈ Sql.employees sdb ->
          (forall r, r ∈ Sql.attendance sdb ->
             Sql.a_employee_id r <> Sql.e_employee_id e) ->
          mkAttendanceStats (Sql.e_employee_id e) (Sql.e_full_name e) 0 0 0 ∈ ss).
Proof.
  intros Hm. apply MongoFacts.reachable_wf in Hm.
  do 2 eexists.
  split; [apply MongoFacts.get_attendance_stats_run |].
  split; [apply SqlFacts.sql_get_attendance_stats_run |].
  split; [| split; [reflexivity |]; split].
  - apply list_fmap_ext. intros i e _. simpl.
    rewrite (MongoFacts.count_records_split _ _ (Mongo.wf_status mdb Hm)).
    reflexivity.
  - intros e He Hnone. apply list_elem_of_fmap. exists e. split; [| exact He].
    rewrite (MongoFacts.count_records_split _ _ (Mongo.wf_status mdb Hm)).
    rewrite !count_status_none by exact Hnone. reflexivity.
  - intros e He Hnone. apply list_elem_of_fmap. exists e. split; [| exact He].
    rewrite !sql_count_status_none by exact Hnone. reflexivity.
Qed.

Lemma stats_one_entry_per_employee_witness :
  exists ms ss,
    run Mongo.exec Mongo.get_attendance_stats Sample.mongo_db = (inr ms, Sample.mongo_db)
    /\ run Sql.exec Sql.get_attendance_stats Sample.sql_db = (inr ss, Sample.sql_db)
    /\ mkAttendanceStats "E2" "Bob" 0 0 0 ∈ ms
    /\ mkAttendanceStats "E2" "Bob" 0 0 0 ∈ ss.
Proof.
  destruct (stats_one_entry_per_employee Sample.mongo_db Sample.sql_db
              sample_mongo_reachable) as (ms & ss & H1 & H2 & _ & _ & H5 & H6).
  exists ms, ss. split; [exact H1 |]. split; [exact H2 |]. split.
  - apply (H5 (Mongo.mkEmployeeDoc 1 "E2" "Bob" "b@x.com" "Ops")).
    + vm_compute. right. left.
    + intros r Hr. vm_compute in Hr.
      repeat (apply elem_of_cons in Hr as [-> | Hr]; [discriminate |]).
      inversion Hr.
  - apply (H6 (Sql.mkEmployeeDB 1 "E2" "Bob" "b@x.com" "Ops")).
    + vm_compute. left.
    + intros r Hr. vm_compute in Hr.
      repeat (apply elem_of_cons in Hr as [-> | Hr]; [discriminate |]).
      inversion Hr.
Defined.

(** C4. On stores with the same employees and the same attendance
    records, the statistics of the MongoDB backend and of the SQL backend
    are the same up to the order of the entries. *)
Theorem stats_agree_across_backends (mdb : Mongo.database) (sdb : Sql.database) :
  same_contents mdb sdb ->
  exists ms ss,
    run Mongo.exec Mongo.get_attendance_stats mdb = (inr ms, mdb)
    /\ run Sql.exec Sql.get_attendance_stats sdb = (inr ss, sdb)
    /\ ms ≡ₚ ss.
Proof. apply stats_same_contents. Qed.

Lemma stats_agree_across_backends_witness :
  exists ms ss,
    run Mongo.exec Mongo.get_attendance_stats Sample.mongo_db = (inr ms, Sample.mongo_db)
    /\ run Sql.exec Sql.get_attendance_stats Sample.sql_db = (inr ss, Sample.sql_db)
    /\ ms ≡ₚ ss.
Proof.
  apply (stats_agree_across_backends Sample.mongo_db Sample.sql_db).
  split; vm_compute; apply perm_swap.
Defined.

(** C5. Marking attendance for an [employee_id] that no stored employee
    has fails with a not-found error and leaves the store as it was. *)
Theorem mark_attendance_unknown_employee
    (mdb : Mongo.database) (sdb : Sql.database) (a : AttendanceCreate) :
  ((forall e, e ∈ Mongo.employees mdb -> Mongo.e_employee_id e <> ac_employee_id a) ->
   exists err,
     run Mongo.exec (Mongo.mark_attendance a) mdb = (inl err, mdb)
     /\ is_NotFoundError err)
  /\ ((forall e, e ∈ Sql.employees sdb -> Sql.e_employee_id e <> ac_employee_id a) ->
      exists err,
        run Sql.exec (Sql.mark_attendance a) sdb = (inl err, sdb)
        /\ is_NotFoundError err).
Proof.
  split; intros Hnone; eexists.
  - split; [apply MongoFacts.mark_attendance_unknown; exact Hnone | reflexivity].
  - split; [apply SqlFacts.sql_mark_attendance_unknown; exact Hnone | reflexivity].
Qed.

Lemma mark_attendance_unknown_employee_witness :
  (exists err,
     run Mongo.exec
       (Mongo.mark_attendance (mkAttendanceCreate "E9" Sample.new_year PRESENT))
       Sample.mongo_db = (inl err, Sample.mongo_db)
     /\ is_NotFoundError err)
  /\ (exists err,
        run Sql.exec
          (Sql.mark_attendance (mkAttendanceCreate "E9" Sample.new_year PRESENT))
          Sample.sql_db = (inl err, Sample.sql_db)
        /\ is_NotFoundError err).
Proof.
  split.
  - apply (mark_attendance_unknown_employee Sample.mongo_db Sample.sql_db
             (mkAttendanceCreate "E9" Sample.new_year PRESENT)).
    intros e He. vm_compute in He.
    repeat (apply elem_of_cons in He as [-> | He]; [discriminate |]).
    inversion He.
  - apply (mark_attendance_unknown_employee Sample.mongo_db Sample.sql_db
             (mkAttendanceCreate "E9" Sample.new_year PRESENT)).
    intros e He. vm_compute in He.
    repeat (apply elem_of_cons in He as [-> | He]; [discriminate |]).
    inversion He.
Defined.

(** Every non-empty [date_from] that [strptime] refuses makes the MongoDB
    handler raise [ValueError], which nothing catches. *)
Lemma mongo_malformed_date_from db e s t :
  Text.truthy s = true ->
  (exists err, Calendar.strptime_ymd s = inl err) ->
  exists msg,
    run Mongo.exec (Mongo.get_attendance e (Some s) t) db = (inl (ValueError msg), db)
    /\ http_status (ValueError msg) = 500.
Proof.
  intros Hs [err Herr].
  destruct (MongoFacts.strptime_error s err Herr) as [msg ->].
  exists msg. split; [| reflexivity].
  apply MongoFacts.get_attendance_error.
  unfold Mongo.build_query, and_then. rewrite Hs, Herr.
  destruct e as [x |]; [destruct (Text.truthy x) |]; reflexivity.
Qed.

(** C6, at a failing input. ["2024-02-30"] is no calendar date; given as
    [date_from] to the MongoDB backend, the request ends with the
    [ValueError] of [strptime], answered with status 500 and not with the
    validation error (422) that the SQL backend gives. *)
Theorem mongo_malformed_date_is_not_validation_error
    (db : Mongo.database) (employee_id date_to : option string) :
  Calendar.iso_date "2024-02-30" = None
  /\ exists err,
       run Mongo.exec (Mongo.get_attendance employee_id (Some "2024-02-30") date_to) db
       = (inl err, db)
       /\ http_status err = 500
       /\ ~ is_ValidationError err.
Proof.
  split; [reflexivity |].
  destruct (mongo_malformed_date_from db employee_id "2024-02-30" date_to)
    as (msg & Hrun & Hstatus); [reflexivity | eexists; reflexivity |].
  exists (ValueError msg). split; [exact Hrun |]. split; [exact Hstatus |].
  unfold is_ValidationError. rewrite Hstatus. lia.
Qed.

(** An empty [date_from] is not an error at all in the MongoDB backend. *)
Example mongo_empty_date_from_ignored :
  fst (run Mongo.exec (Mongo.get_attendance None (Some "") None) Sample.mongo_db)
  = fst (run Mongo.exec (Mongo.get_attendance None None None) Sample.mongo_db).
Proof. reflexivity. Qed.






(** C8. A date after the current date fails the validation of an
    attendance payload with a validation error, and the current date
    itself passes. *)
Theorem attendance_date_not_after_today
    (today v : date) (employee_id status : string) (st : AttendanceStatus) :
  (Calendar.date_ltb today v = true ->
   (exists msg, Mongo.validate_date today v = inl (ValueError msg))
   /\ (exists msg, Sql.validate_date today v = inl (ValueError msg))
   /\ (exists err, Mongo.AttendanceCreate_validate today employee_id v status = inl err
                   /\ is_ValidationError err)
   /\ (exists err, Sql.AttendanceCreate_validate today employee_id v status = inl err
                   /\ is_ValidationError err))
  /\ Mongo.validate_date today today = inr today
  /\ Sql.validate_date today today = inr today
  /\ Mongo.AttendanceCreate_validate today employee_id today (status_value st)
     = inr (mkAttendanceCreate employee_id today st)
  /\ Sql.AttendanceCreate_validate today employee_id today (status_value st)
     = inr (mkAttendanceCreate employee_id today st).
Proof.
  split; [| split; [| split; [| split]]].
  - intros Hlt. split; [apply MongoFacts.validate_date_future; exact Hlt |].
    split; [unfold Sql.validate_date; rewrite Hlt; eauto |].
    split; eexists.
    + split; [apply MongoFacts.AttendanceCreate_validate_future; exact Hlt | reflexivity].
    + split; [apply SqlFacts.sql_AttendanceCreate_validate_future; exact Hlt | reflexivity].
  - apply MongoFacts.validate_date_today.
  - unfold Sql.validate_date. rewrite date_ltb_irrefl. reflexivity.
  - apply MongoFacts.AttendanceCreate_validate_today.
  - apply SqlFacts.sql_AttendanceCreate_validate_today.
Qed.

Lemma attendance_date_not_after_today_witness :
  (exists err,
     Mongo.AttendanceCreate_validate Sample.new_year "E1" Sample.second_day "Present"
     = inl err /\ is_ValidationError err)
  /\ Mongo.AttendanceCreate_validate Sample.new_year "E1" Sample.new_year "Present"
     = inr (mkAttendanceCreate "E1" Sample.new_year PRESENT).
Proof.
  destruct (attendance_date_not_after_today Sample.new_year Sample.second_day
              "E1" "Present" PRESENT) as (Hfuture & _ & _ & Htoday & _).
  split; [| exact Htoday].
  destruct (Hfuture eq_refl) as (_ & _ & H & _). exact H.
Defined.

(** A row of the join has an employee. *)
Lemma join_employees_elem (es : list Sql.EmployeeDB) (rows : list Sql.AttendanceDB)
    (a : Sql.AttendanceDB) :
  a ∈ Sql.join_employees es rows <->
  a ∈ rows /\ exists e, e ∈ es /\ Sql.e_employee_id e = Sql.a_employee_id a.
Proof.
  unfold Sql.join_employees. rewrite list_elem_of_bind. split.
  - intros (x & Hin & Hx). apply list_elem_of_fmap in Hin as (e & -> & He).
    apply list_elem_of_filter in He as [Hm He].
    apply Is_true_true, String.eqb_eq in Hm. eauto.
  - intros (Ha & e & He & Hm). exists a. split; [| exact Ha].
    apply list_elem_of_fmap. exists e. split; [reflexivity |].
    apply list_elem_of_filter. split; [| exact He].
    apply Is_true_true, String.eqb_eq. exact Hm.
Qed.

(** The listing on any store: the rows of the join, each with the name
    that its employee has. *)
Lemma sql_get_attendance_run_join (db : Sql.database) e lo hi :
  run Sql.exec (Sql.get_attendance e lo hi) db =
  (inr (Sql.response_of db <$>
          merge_sort Sql.date_desc
            (filter (fun a => Is_true (Sql.attendance_matches (Sql.build_query e lo hi) a))
               (Sql.join_employees (Sql.employees db) (Sql.attendance db)))), db).
Proof.
  unfold Sql.get_attendance. unfold run at 1. simpl run_interleaved.
  fold (@run Sql.cmd Sql.database Sql.exec).
  apply run_for_each. intros a Ha.
  rewrite merge_sort_Permutation in Ha.
  apply list_elem_of_filter in Ha as [_ Ha].
  apply join_employees_elem in Ha as (_ & e' & Hin' & He').
  unfold run, Sql.response_of, Sql.employee_name, Sql.employee_matches. simpl.
  destruct (find_elem_is_Some
              (fun e0 => String.eqb (Sql.e_employee_id e0) (Sql.a_employee_id a))
              (Sql.employees db) e' Hin') as [emp Hemp].
  { rewrite He'. apply String.eqb_refl. }
  rewrite Hemp. reflexivity.
Qed.

(** C9. The SQL backend does not return a record whose employee is gone.
    Its listing reads the records through an inner join with the
    employees: on any store the call succeeds and returns every selected
    record that has a stored employee, but every record it returns has a
    stored employee and carries a name, so that a stored record whose
    [employee_id] no stored employee has is left out of the answer
    instead of being returned without a name. *)
Theorem sql_listing_omits_record_without_employee
    (sdb : Sql.database) (a : Sql.AttendanceDB)
    (employee_id : option string) (lo hi : option date) :
  a ∈ Sql.attendance sdb ->
  (forall e, e ∈ Sql.employees sdb -> Sql.e_employee_id e <> Sql.a_employee_id a) ->
  exists rs,
    run Sql.exec (Sql.get_attendance employee_id lo hi) sdb = (inr rs, sdb)
    /\ (Sql.response_of sdb a ∉ rs)
    /\ (forall r, r ∈ rs ->
          att_employee_id r <> Sql.a_employee_id a
          /\ att_employee_name r = Sql.employee_name sdb (att_employee_id r)
          /\ is_Some (att_employee_name r))
    /\ (forall x, x ∈ Sql.attendance sdb ->
          Sql.attendance_matches (Sql.build_query employee_id lo hi) x = true ->
          (exists e, e ∈ Sql.employees sdb
                     /\ Sql.e_employee_id e = Sql.a_employee_id x) ->
          Sql.response_of sdb x ∈ rs).
Proof.
  intros _ Hgone. eexists. split; [apply sql_get_attendance_run_join |].
  assert (forall r,
            r ∈ Sql.response_of sdb <$>
                  merge_sort Sql.date_desc
                    (filter (fun a0 => Is_true (Sql.attendance_matches
                                                  (Sql.build_query employee_id lo hi) a0))
                       (Sql.join_employees (Sql.employees sdb) (Sql.attendance sdb))) ->
            att_employee_id r <> Sql.a_employee_id a
            /\ att_employee_name r = Sql.employee_name sdb (att_employee_id r)
            /\ is_Some (att_employee_name r)) as Hall.
  { intros r Hr. apply list_elem_of_fmap in Hr as (x & -> & Hx).
    rewrite merge_sort_Permutation in Hx.
    apply list_elem_of_filter in Hx as [_ Hx].
    apply join_employees_elem in Hx as (_ & e & He & Hm).
    split; [| split; [reflexivity |]].
    - simpl. rewrite <- Hm. apply Hgone. exact He.
    - simpl. unfold Sql.employee_name.
      destruct (find_elem_is_Some
                  (Sql.employee_matches (Sql.ByEmployeeId (Sql.a_employee_id x)))
                  (Sql.employees sdb) e He) as [emp Hemp].
      { simpl. rewrite Hm. apply String.eqb_refl. }
      rewrite Hemp. simpl. eauto. }
  split; [| split; [exact Hall |]].
  - intros Hin. destruct (Hall _ Hin) as [Hne _]. apply Hne. reflexivity.
  - intros x Hx Hmatch Hemp. apply list_elem_of_fmap_2.
    rewrite merge_sort_Permutation. apply list_elem_of_filter.
    split; [apply Is_true_true; exact Hmatch |].
    apply join_employees_elem. split; [exact Hx | exact Hemp].
Qed.

Lemma sql_listing_omits_record_without_employee_witness :
  let db :=
    snd (run_interleaved Sql.exec [id; id; Sql.serve (Sql.DeleteEmployee "E1")]
           (Sql.mark_attendance (mkAttendanceCreate "E1" Sample.new_year PRESENT))
           (Sql.serve (Sql.MarkAttendance (mkAttendanceCreate "E2" Sample.new_year ABSENT))
              (Sql.serve (Sql.CreateEmployee Sample.alice)
                 (Sql.serve (Sql.CreateEmployee Sample.bob) Sql.empty_database)))) in
  let kept := Sql.mkAttendanceDB 1 "E2" Sample.new_year ABSENT in
  let gone := Sql.mkAttendanceDB 2 "E1" Sample.new_year PRESENT in
  Sql.employees db = [Sql.mkEmployeeDB 1 "E2" "Bob" "b@x.com" "Ops"]
  /\ Sql.attendance db = [kept; gone]
  /\ run Sql.exec (Sql.get_attendance None None None) db
     = (inr [mkAttendance 1 "E2" Sample.new_year ABSENT (Some "Bob")], db)
  /\ (exists rs,
        run Sql.exec (Sql.get_attendance None None None) db = (inr rs, db)
        /\ (Sql.response_of db gone ∉ rs)
        /\ Sql.response_of db kept ∈ rs).
Proof.
  intros db kept gone.
  split; [reflexivity |]. split; [reflexivity |]. split; [reflexivity |].
  destruct (sql_listing_omits_record_without_employee db gone None None None)
    as (rs & Hrun & Hout & _ & Hin).
  - vm_compute. right. left.
  - intros e He. vm_compute in He.
    apply elem_of_cons in He as [-> | He]; [discriminate | inversion He].
  - exists rs. split; [exact Hrun |]. split; [exact Hout |].
    apply Hin.
    + vm_compute. left.
    + reflexivity.
    + exists (Sql.mkEmployeeDB 1 "E2" "Bob" "b@x.com" "Ops").
      split; [vm_compute; left | reflexivity].
Defined.



(** * Further properties of the handlers *)

(** ** Sums of counts *)

Lemma foldr_add_fmap_plus {B} (f g : B -> Z) (bs : list B) :
  foldr Z.add 0 ((fun b => f b + g b) <$> bs)
  = foldr Z.add 0 (f <$> bs) + foldr Z.add 0 (g <$> bs).
Proof.
  induction bs as [| b bs IH]; [reflexivity |].
  rewrite !fmap_cons. cbn [foldr]. rewrite IH. lia.
Qed.

Lemma indicator_sum_none {B K} `{EqDecision K} (kb : B -> K) (k : K) (bs : list B) :
  k ∉ kb <$> bs ->
  foldr Z.add 0 ((fun b => if decide (k = kb b) then 1 else 0) <$> bs) = 0.
Proof.
  induction bs as [| b bs IH]; intros Hk; [reflexivity |].
  rewrite fmap_cons in Hk. apply not_elem_of_cons in Hk as [Hne Hk].
  rewrite fmap_cons. cbn [foldr].
  rewrite decide_False by exact Hne. rewrite IH by exact Hk. reflexivity.
Qed.

Lemma indicator_sum_one {B K} `{EqDecision K} (kb : B -> K) (k : K) (bs : list B) :
  NoDup (kb <$> bs) -> k ∈ kb <$> bs ->
  foldr Z.add 0 ((fun b => if decide (k = kb b) then 1 else 0) <$> bs) = 1.
Proof.
  induction bs as [| b bs IH]; intros Hnd Hk; [inversion Hk |].
  rewrite fmap_cons in Hnd, Hk. apply NoDup_cons in Hnd as [Hb Hnd].
  rewrite fmap_cons. cbn [foldr].
  destruct (decide (k = kb b)) as [-> | Hne].
  - rewrite indicator_sum_none by exact Hb. reflexivity.
  - apply elem_of_cons in Hk as [Hk | Hk]; [contradiction |].
    rewrite IH by assumption. reflexivity.
Qed.

(** Every record counts for exactly one of the keyed entries. *)
Lemma sum_counts_by_key {A B K} `{EqDecision K} (ka : A -> K) (kb : B -> K)
    (bs : list B) (rs : list A) :
  NoDup (kb <$> bs) -> Forall (fun a => ka a ∈ kb <$> bs) rs ->
  foldr Z.add 0
    ((fun b => Z.of_nat (length (filter (fun a => ka a = kb b) rs))) <$> bs)
  = Z.of_nat (length rs).
Proof.
  intros Hnd. induction 1 as [| a rs Ha _ IH].
  - clear Hnd. induction bs as [| b bs IHb]; [reflexivity |].
    rewrite fmap_cons. cbn [foldr]. rewrite IHb. reflexivity.
  - transitivity
      (foldr Z.add 0
         ((fun b => (if decide (ka a = kb b) then 1 else 0)
                    + Z.of_nat (length (filter (fun a0 => ka a0 = kb b) rs))) <$> bs)).
    + f_equal. apply list_fmap_ext. intros i b _. rewrite filter_cons.
      destruct (decide (ka a = kb b)); simpl length; lia.
    + rewrite foldr_add_fmap_plus, IH, (indicator_sum_one kb (ka a) bs Hnd Ha).
      simpl length. lia.
Qed.

(** ** The MongoDB backend, continued *)

Module MongoMore.
Import Mongo MongoFacts.

Lemma find_unique_employee (db : database) (emp : employee_doc) :
  NoDup (e_employee_id <$> employees db) -> emp ∈ employees db ->
  find (employee_matches (ByEmployeeId (e_employee_id emp))) (employees db) = Some emp.
Proof.
  intros Hnd Hin.
  destruct (find_elem_is_Some (employee_matches (ByEmployeeId (e_employee_id emp)))
              (employees db) emp Hin) as [x Hx].
  { simpl. apply String.eqb_refl. }
  rewrite Hx. f_equal. apply find_Some_elem in Hx as [Hxin Hm]. simpl in Hm.
  apply String.eqb_eq in Hm.
  eapply (NoDup_fmap_eq e_employee_id); eassumption.
Qed.

Lemma no_clash_find (db : database) (e : EmployeeCreate) :
  (forall d, d ∈ employees db ->
     e_employee_id d <> ec_employee_id e /\ e_email d <> ec_email e) ->
  find (employee_matches (ByEmployeeId (ec_employee_id e))) (employees db) = None
  /\ find (employee_matches (ByEmail (ec_email e))) (employees db) = None
  /\ existsb (employee_index_clash (ec_employee_id e) (ec_email e)) (employees db)
     = false.
Proof.
  intros Hfree. split; [| split].
  - destruct (find _ _) as [d |] eqn:Hfind; [| reflexivity].
    apply find_Some_elem in Hfind as [Hin Hm]. simpl in Hm.
    apply String.eqb_eq in Hm. destruct (Hfree d Hin). contradiction.
  - destruct (find _ _) as [d |] eqn:Hfind; [| reflexivity].
    apply find_Some_elem in Hfind as [Hin Hm]. simpl in Hm.
    apply String.eqb_eq in Hm. destruct (Hfree d Hin). contradiction.
  - destruct (existsb _ _) eqn:Hex; [| reflexivity].
    apply existsb_true_elem in Hex as (d & Hin & Hc).
    unfold employee_index_clash in Hc. destruct (Hfree d Hin) as [H1 H2].
    apply orb_true_iff in Hc as [Hc | Hc]; apply String.eqb_eq in Hc; contradiction.
Qed.

(** X1. An employee whose [employee_id] and [email] are both new is
    created: the response carries the submitted fields and the fresh
    identifier, the store gains this one employee at the end and nothing
    else changes, and the list of employees then ends with the response. *)
Theorem mongo_create_then_list (db : database) (e : EmployeeCreate) :
  reachable db ->
  (forall d, d ∈ employees db ->
     e_employee_id d <> ec_employee_id e /\ e_email d <> ec_email e) ->
  let emp := mkEmployee (next_oid db) (ec_employee_id e) (ec_full_name e)
               (ec_email e) (ec_department e) in
  exists db',
    run exec (create_employee e) db = (inr emp, db')
    /\ attendance db' = attendance db
    /\ employee_of_doc <$> employees db' = ((employee_of_doc <$> employees db) ++ [emp])%list
    /\ run exec get_employees db'
       = (inr ((employee_of_doc <$> employees db) ++ [emp])%list, db').
Proof.
  intros Hreach Hfree. apply reachable_wf in Hreach.
  destruct (no_clash_find db e Hfree) as (H1 & H2 & H3).
  eexists. split; [| split; [| split]].
  - unfold run, create_employee. simpl. rewrite H1. simpl. rewrite H2. simpl.
    rewrite H3. simpl.
    erewrite find_snoc_fresh; [reflexivity | apply Hreach | reflexivity].
  - reflexivity.
  - simpl. rewrite fmap_app. reflexivity.
  - unfold run, get_employees. simpl. rewrite fmap_app. reflexivity.
Qed.

Lemma mongo_create_then_list_witness :
  exists db',
    run exec (create_employee (mkEmployeeCreate "E3" "Carol" "c@x.com" "Ops"))
      Sample.mongo_db
    = (inr (mkEmployee 4 "E3" "Carol" "c@x.com" "Ops"), db')
    /\ run exec get_employees db'
       = (inr [mkEmployee 0 "E1" "Alice" "a@x.com" "Eng";
               mkEmployee 1 "E2" "Bob" "b@x.com" "Ops";
               mkEmployee 4 "E3" "Carol" "c@x.com" "Ops"], db').
Proof.
  destruct (mongo_create_then_list Sample.mongo_db
              (mkEmployeeCreate "E3" "Carol" "c@x.com" "Ops") sample_mongo_reachable)
    as (db' & Hrun & _ & _ & Hlist).
  - intros d Hd. vm_compute in Hd.
    repeat (apply elem_of_cons in Hd as [-> | Hd]; [split; discriminate |]).
    inversion Hd.
  - exists db'. split; [exact Hrun | exact Hlist].
Defined.

(** *** What marking attendance answers and stores *)

Lemma find_updated_by_oid st (l : list attendance_doc) (x : attendance_doc) :
  NoDup (a_oid <$> l) -> x ∈ l ->
  find (attendance_matches (by_oid (a_oid x))) (update_first (by_oid (a_oid x)) st l)
  = Some (with_status x st).
Proof.
  intros Hnd Hx.
  pose proof (update_first_by_oid_elem st l x Hnd Hx) as Hin.
  destruct (find_elem_is_Some (attendance_matches (by_oid (a_oid x))) _ _ Hin)
    as [y Hy]; [apply by_oid_matches; reflexivity |].
  rewrite Hy. f_equal. apply find_Some_elem in Hy as [Hyin Hm].
  apply by_oid_matches in Hm.
  eapply (NoDup_fmap_eq a_oid (update_first (by_oid (a_oid x)) st l));
    [rewrite update_first_oid; exact Hnd | exact Hyin | exact Hin | exact Hm].
Qed.

Lemma find_inserted (l : list attendance_doc) (x : attendance_doc) (n : Z) :
  Forall (fun d => a_oid d < n) l -> a_oid x = n ->
  find (attendance_matches (by_oid n)) (l ++ [x]) = Some x.
Proof.
  intros Hl Hx. induction Hl as [| d l Hd _ IH]; simpl.
  - assert (attendance_matches (by_oid n) x = true) as ->
      by (apply by_oid_matches; exact Hx).
    reflexivity.
  - destruct (attendance_matches (by_oid n) d) eqn:Hm; [| exact IH].
    apply by_oid_matches in Hm. lia.
Qed.

Lemma find_by_key_records_on db employee_id d :
  Forall midnight (attendance db) ->
  find (attendance_matches (by_key employee_id (Calendar.combine_min d))) (attendance db)
  = head (records_on employee_id d db).
Proof.
  intros Hmid. rewrite records_on_key by exact Hmid.
  induction (attendance db) as [| x l IH]; [reflexivity |].
  apply Forall_cons in Hmid as [_ Hmid]. simpl. rewrite filter_cons.
  destruct (attendance_matches _ x) eqn:Hm.
  - apply by_key_matches in Hm. rewrite decide_True by exact Hm. reflexivity.
  - rewrite decide_False; [apply IH; exact Hmid |].
    intros Hk. apply by_key_matches in Hk. congruence.
Qed.

(** X2. Marking attendance for a stored employee succeeds. The response
    carries the employee, date and status of the call and the name of the
    employee; its [id] is that of the record already stored for the pair,
    or a fresh one when there was none. *)
Theorem mongo_mark_attendance_response
    (db : database) (a : AttendanceCreate) (emp : employee_doc) :
  reachable db -> emp ∈ employees db -> e_employee_id emp = ac_employee_id a ->
  exists r db',
    run exec (mark_attendance a) db = (inr r, db')
    /\ r = mkAttendance (att_id r) (ac_employee_id a) (ac_date a) (ac_status a)
             (Some (e_full_name emp))
    /\ att_id r =
       match records_on (ac_employee_id a) (ac_date a) db with
       | existing :: _ => a_oid existing
       | [] => next_oid db
       end.
Proof.
  intros Hreach Hin Heq. apply reachable_wf in Hreach.
  pose proof (find_unique_employee db emp (wf_employee_ids db Hreach) Hin) as Hemp.
  rewrite Heq in Hemp.
  unfold run, mark_attendance. simpl. rewrite Hemp. simpl.
  rewrite (find_by_key_records_on db _ _ (wf_midnight db Hreach)).
  destruct (records_on (ac_employee_id a) (ac_date a) db) as [| ex rest] eqn:Hrec;
    simpl.
  - assert (existsb (attendance_index_clash (ac_employee_id a)
                       (Calendar.combine_min (ac_date a))) (attendance db) = false)
      as Hclash.
    { apply find_by_key_None_clash.
      rewrite (find_by_key_records_on db _ _ (wf_midnight db Hreach)), Hrec.
      reflexivity. }
    rewrite Hclash. simpl.
    erewrite find_inserted; [| apply Hreach | reflexivity].
    simpl. rewrite status_of_value_value. simpl. eauto.
  - assert (ex ∈ records_on (ac_employee_id a) (ac_date a) db) as Hex
      by (rewrite Hrec; left).
    apply list_elem_of_filter in Hex as [[Hid Hdate] Hex].
    rewrite (find_updated_by_oid _ _ _ (wf_oids db Hreach) Hex). simpl.
    rewrite status_of_value_value. simpl.
    do 2 eexists. split; [reflexivity |]. simpl. rewrite Hid, Hdate. auto.
Qed.

Lemma mongo_mark_attendance_response_witness :
  exists db',
    run exec (mark_attendance (mkAttendanceCreate "E1" Sample.new_year ABSENT))
      Sample.mongo_db
    = (inr (mkAttendance 2 "E1" Sample.new_year ABSENT (Some "Alice")), db').
Proof.
  destruct (mongo_mark_attendance_response Sample.mongo_db
              (mkAttendanceCreate "E1" Sample.new_year ABSENT)
              (mkEmployeeDoc 0 "E1" "Alice" "a@x.com" "Eng") sample_mongo_reachable)
    as (r & db' & Hrun & Hr & Hid); [vm_compute; left | reflexivity |].
  exists db'. rewrite Hrun, Hr, Hid. reflexivity.
Defined.

Lemma update_first_length q st l : length (update_first q st l) = length l.
Proof.
  induction l as [| d l IH]; simpl; [reflexivity |].
  destruct (attendance_matches q d); simpl; [reflexivity | rewrite IH; reflexivity].
Qed.

Lemma update_first_filter_other (P : attendance_doc -> Prop)
    `{!forall d, Decision (P d)} q st (l : list attendance_doc) :
  (forall x, x ∈ l -> attendance_matches q x = true -> ~ P x) ->
  (forall x, P (with_status x st) <-> P x) ->
  filter P (update_first q st l) = filter P l.
Proof.
  intros Hq Hst. induction l as [| d l IH]; [reflexivity |]. simpl.
  destruct (attendance_matches q d) eqn:Hm.
  - rewrite !filter_cons.
    assert (~ P d) as Hd by (apply Hq; [left | exact Hm]).
    rewrite decide_False by (rewrite Hst; exact Hd).
    rewrite decide_False by exact Hd. reflexivity.
  - rewrite !filter_cons, IH; [reflexivity |].
    intros x Hx. apply Hq. right. exact Hx.
Qed.

(** X3. Marking attendance for a stored employee is an upsert: the
    employees are untouched, the number of records grows by one exactly
    when the pair had no record, and the records of every other pair of
    employee and date are what they were. *)
Theorem mongo_mark_attendance_upsert (db : database) (a : AttendanceCreate) :
  reachable db ->
  (exists emp, emp ∈ employees db /\ e_employee_id emp = ac_employee_id a) ->
  let db' := snd (run exec (mark_attendance a) db) in
  employees db' = employees db
  /\ length (attendance db') =
     (length (attendance db)
      + match records_on (ac_employee_id a) (ac_date a) db with
        | [] => 1
        | _ :: _ => 0
        end)%nat
  /\ (forall employee_id d,
        (employee_id, d) <> (ac_employee_id a, ac_date a) ->
        records_on employee_id d db' = records_on employee_id d db).
Proof.
  intros Hreach (emp & Hin & Heq). apply reachable_wf in Hreach.
  split; [apply mark_attendance_employees |].
  pose proof (find_unique_employee db emp (wf_employee_ids db Hreach) Hin) as Hemp.
  rewrite Heq in Hemp.
  unfold run, mark_attendance. simpl. rewrite Hemp. simpl.
  rewrite (find_by_key_records_on db _ _ (wf_midnight db Hreach)).
  destruct (records_on (ac_employee_id a) (ac_date a) db) as [| ex rest] eqn:Hrec;
    simpl.
  - assert (existsb (attendance_index_clash (ac_employee_id a)
                       (Calendar.combine_min (ac_date a))) (attendance db) = false)
      as Hclash.
    { apply find_by_key_None_clash.
      rewrite (find_by_key_records_on db _ _ (wf_midnight db Hreach)), Hrec.
      reflexivity. }
    rewrite Hclash. simpl. read_back. simpl. split.
    + rewrite length_app. simpl. lia.
    + intros employee_id d Hne. unfold records_on. simpl.
      rewrite filter_app, filter_cons_False, filter_nil, app_nil_r; [reflexivity |].
      simpl. intros [H1 H2]. apply Hne. congruence.
  - assert (ex ∈ records_on (ac_employee_id a) (ac_date a) db) as Hex
      by (rewrite Hrec; left).
    apply list_elem_of_filter in Hex as [[Hid Hdate] Hex].
    read_back. simpl. split; [rewrite update_first_length; lia |].
    intros employee_id d Hne. unfold records_on. simpl.
    apply update_first_filter_other; [| intros x; reflexivity].
    intros x Hx Hm [H1 H2]. apply by_oid_matches in Hm.
    assert (x = ex) as -> by
      (eapply (NoDup_fmap_eq a_oid); [apply Hreach | exact Hx | exact Hex | exact Hm]).
    apply Hne. congruence.
Qed.

Lemma mongo_mark_attendance_upsert_witness :
  let db' := snd (run exec
                    (mark_attendance (mkAttendanceCreate "E1" Sample.new_year ABSENT))
                    Sample.mongo_db) in
  length (attendance db') = length (attendance Sample.mongo_db)
  /\ records_on "E1" Sample.second_day db'
     = records_on "E1" Sample.second_day Sample.mongo_db.
Proof.
  destruct (mongo_mark_attendance_upsert Sample.mongo_db
              (mkAttendanceCreate "E1" Sample.new_year ABSENT) sample_mongo_reachable)
    as (_ & Hlen & Hother).
  - exists (mkEmployeeDoc 0 "E1" "Alice" "a@x.com" "Eng").
    split; [vm_compute; left | reflexivity].
  - split; [rewrite Hlen; reflexivity | apply Hother; discriminate].
Defined.

Lemma update_first_same st (l : list attendance_doc) (x : attendance_doc) :
  NoDup (a_oid <$> l) -> x ∈ l -> a_status x = st ->
  update_first (by_oid (a_oid x)) st l = l.
Proof.
  induction l as [| d l IH]; intros Hnd Hx Hst; [reflexivity |].
  simpl. destruct (attendance_matches (by_oid (a_oid x)) d) eqn:Hm.
  - apply by_oid_matches in Hm.
    assert (d = x) as ->
      by (eapply (NoDup_fmap_eq a_oid (d :: l)); [exact Hnd | left | exact Hx | exact Hm]).
    f_equal. destruct x; simpl in *. subst. reflexivity.
  - f_equal. rewrite fmap_cons in Hnd. apply NoDup_cons in Hnd as [_ Hnd].
    apply elem_of_cons in Hx as [-> | Hx]; [| apply IH; assumption].
    assert (attendance_matches (by_oid (a_oid d)) d = true) as Hm'
      by (apply by_oid_matches; reflexivity).
    congruence.
Qed.

(** X4. Marking attendance is idempotent: the same call served a second
    time leaves the store that the first one left. *)
Theorem mongo_mark_attendance_idempotent (db : database) (a : AttendanceCreate) :
  reachable db ->
  serve (MarkAttendance a) (serve (MarkAttendance a) db) = serve (MarkAttendance a) db.
Proof.
  intros Hreach. apply reachable_wf in Hreach. simpl.
  destruct (find (employee_matches (ByEmployeeId (ac_employee_id a))) (employees db))
    as [emp |] eqn:Hemp.
  - set (db1 := snd (run exec (mark_attendance a) db)).
    assert (wf db1) as Hwf1 by (apply mark_attendance_wf; exact Hreach).
    destruct (mark_attendance_recorded a db Hreach) as (r & Hr & Hkey & Hst);
      [rewrite Hemp; eauto |].
    fold db1 in Hr.
    assert (find (employee_matches (ByEmployeeId (ac_employee_id a))) (employees db1)
            = Some emp) as Hemp1
      by (unfold db1; rewrite mark_attendance_employees; exact Hemp).
    unfold run, mark_attendance. simpl. rewrite Hemp1. simpl.
    assert (find (attendance_matches
                    (by_key (ac_employee_id a) (Calendar.combine_min (ac_date a))))
              (attendance db1) = Some r) as Hfind.
    { destruct (find_elem_is_Some
                  (attendance_matches
                     (by_key (ac_employee_id a) (Calendar.combine_min (ac_date a))))
                  (attendance db1) r Hr) as [y Hy]; [apply by_key_matches; exact Hkey |].
      rewrite Hy. f_equal. apply find_Some_elem in Hy as [Hyin Hm].
      apply by_key_matches in Hm.
      eapply (NoDup_fmap_eq key); [apply Hwf1 | exact Hyin | exact Hr | congruence]. }
    rewrite Hfind. simpl. read_back.
    rewrite (update_first_same _ _ _ (wf_oids db1 Hwf1) Hr Hst).
    destruct db1; reflexivity.
  - assert (run exec (mark_attendance a) db
            = (inl (HTTPException 404 "Employee not found"), db)) as Hrun
      by (unfold run, mark_attendance; simpl; rewrite Hemp; reflexivity).
    rewrite Hrun. simpl. rewrite Hrun. reflexivity.
Qed.

Lemma mongo_mark_attendance_idempotent_witness :
  serve (MarkAttendance (mkAttendanceCreate "E2" Sample.new_year ABSENT))
    (serve (MarkAttendance (mkAttendanceCreate "E2" Sample.new_year ABSENT))
       Sample.mongo_db)
  = serve (MarkAttendance (mkAttendanceCreate "E2" Sample.new_year ABSENT))
      Sample.mongo_db.
Proof.
  apply (mongo_mark_attendance_idempotent Sample.mongo_db
           (mkAttendanceCreate "E2" Sample.new_year ABSENT) sample_mongo_reachable).
Defined.

(** X5. The duplicate checks of [create_employee] run in a fixed order: a
    stored [employee_id] is reported as such whatever the e-mail is, and
    a stored e-mail is reported only when the [employee_id] is new. Both
    leave the store alone. *)
Theorem mongo_create_employee_conflict_detail (db : database) (e : EmployeeCreate) :
  ((exists d, d ∈ employees db /\ e_employee_id d = ec_employee_id e) ->
   run exec (create_employee e) db
   = (inl (HTTPException 400 "Employee ID already exists"), db))
  /\ ((forall d, d ∈ employees db -> e_employee_id d <> ec_employee_id e) ->
      (exists d, d ∈ employees db /\ e_email d = ec_email e) ->
      run exec (create_employee e) db
      = (inl (HTTPException 400 "Email already exists"), db)).
Proof.
  split.
  - intros (d & Hin & Hid). unfold run, create_employee. simpl.
    destruct (find_elem_is_Some (employee_matches (ByEmployeeId (ec_employee_id e)))
                (employees db) d Hin) as [x Hx]; [apply String.eqb_eq; exact Hid |].
    rewrite Hx. reflexivity.
  - intros Hfree (d & Hin & Hemail). unfold run, create_employee. simpl.
    destruct (find (employee_matches (ByEmployeeId _)) (employees db)) as [x |] eqn:Hx.
    { apply find_Some_elem in Hx as [Hxin Hm]. simpl in Hm.
      apply String.eqb_eq in Hm. destruct (Hfree x Hxin Hm). }
    simpl.
    destruct (find_elem_is_Some (employee_matches (ByEmail (ec_email e)))
                (employees db) d Hin) as [y Hy]; [apply String.eqb_eq; exact Hemail |].
    rewrite Hy. reflexivity.
Qed.

Lemma mongo_create_employee_conflict_detail_witness :
  run exec (create_employee (mkEmployeeCreate "E1" "Carol" "b@x.com" "Ops"))
    Sample.mongo_db
  = (inl (HTTPException 400 "Employee ID already exists"), Sample.mongo_db)
  /\ run exec (create_employee (mkEmployeeCreate "E3" "Carol" "b@x.com" "Ops"))
       Sample.mongo_db
     = (inl (HTTPException 400 "Email already exists"), Sample.mongo_db).
Proof.
  split.
  - apply (mongo_create_employee_conflict_detail Sample.mongo_db
             (mkEmployeeCreate "E1" "Carol" "b@x.com" "Ops")).
    exists (mkEmployeeDoc 0 "E1" "Alice" "a@x.com" "Eng").
    split; [vm_compute; left | reflexivity].
  - apply (mongo_create_employee_conflict_detail Sample.mongo_db
             (mkEmployeeCreate "E3" "Carol" "b@x.com" "Ops")).
    + intros d Hd. vm_compute in Hd.
      repeat (apply elem_of_cons in Hd as [-> | Hd]; [discriminate |]).
      inversion Hd.
    + exists (mkEmployeeDoc 1 "E2" "Bob" "b@x.com" "Ops").
      split; [vm_compute; right; left | reflexivity].
Defined.

(** X6. The three listing routes never change the store, whatever their
    parameters are and whether they succeed or not. *)
Theorem mongo_listings_read_only (db : database)
    (employee_id date_from date_to : option string) :
  snd (run exec get_employees db) = db
  /\ snd (run exec (get_attendance employee_id date_from date_to) db) = db
  /\ snd (run exec get_attendance_stats db) = db.
Proof.
  split; [reflexivity |]. split; [apply get_attendance_read_only | reflexivity].
Qed.

(** *** Invariants of the reachable stores *)

Lemma create_employee_employees_grow e db x :
  x ∈ e_employee_id <$> employees db ->
  x ∈ e_employee_id <$> employees (snd (run exec (create_employee e) db)).
Proof.
  intros Hx. unfold run, create_employee. simpl.
  destruct (find _ (employees db)); simpl; [exact Hx |].
  destruct (find _ (employees db)); simpl; [exact Hx |].
  destruct (existsb _ (employees db)); simpl; [exact Hx |].
  match goal with |- context [(run_interleaved exec [] ?p ?s).2] =>
    assert ((run_interleaved exec [] p s).2 = s) as ->
      by (match goal with |- context [find ?f ?l] => destruct (find f l) end;
          reflexivity)
  end.
  simpl. rewrite fmap_app. apply elem_of_app. left. exact Hx.
Qed.

Lemma create_employee_attendance e db :
  attendance (snd (run exec (create_employee e) db)) = attendance db.
Proof.
  unfold run, create_employee. simpl.
  destruct (find _ (employees db)); simpl; [reflexivity |].
  destruct (find _ (employees db)); simpl; [reflexivity |].
  destruct (existsb _ (employees db)); simpl; [reflexivity |].
  match goal with |- context [find ?f ?l] => destruct (find f l) end; reflexivity.
Qed.

Lemma mark_attendance_references a db :
  mongo_references_hold db -> mongo_references_hold (snd (run exec (mark_attendance a) db)).
Proof.
  unfold mongo_references_hold. intros Href.
  rewrite mark_attendance_employees.
  unfold run, mark_attendance. simpl.
  destruct (find _ (employees db)) as [emp |] eqn:Hemp; simpl; [| exact Href].
  apply find_Some_elem in Hemp as [Hin Hm]. simpl in Hm. apply String.eqb_eq in Hm.
  destruct (find _ (attendance db)) as [existing |]; simpl.
  - read_back. simpl. apply update_first_Forall; [| exact Href].
    intros d Hd. exact Hd.
  - destruct (existsb _ (attendance db)); simpl; [exact Href |].
    read_back. simpl. apply Forall_app. split; [exact Href |].
    repeat constructor. simpl. rewrite <- Hm. apply list_elem_of_fmap_2. exact Hin.
Qed.

Lemma reachable_references db : reachable db -> mongo_references_hold db.
Proof.
  induction 1 as [| r db _ IH]; [constructor |].
  destruct r; simpl; try exact IH.
  - unfold mongo_references_hold in *. rewrite create_employee_attendance.
    eapply Forall_impl; [exact IH |]. intros x Hx.
    apply create_employee_employees_grow. exact Hx.
  - apply mark_attendance_references. exact IH.
  - rewrite get_attendance_read_only. exact IH.
Qed.

(** *** Statistics and listings *)

(** X7. The statistics have one entry per employee, in the order of the
    employees and with distinct [employee_id]s, and their [total_days]
    add up to the number of stored attendance records. *)
Theorem mongo_stats_account_for_every_record (db : database) :
  reachable db ->
  exists ms,
    run exec get_attendance_stats db = (inr ms, db)
    /\ st_employee_id <$> ms = e_employee_id <$> employees db
    /\ NoDup (st_employee_id <$> ms)
    /\ foldr Z.add 0 (total_days <$> ms) = Z.of_nat (length (attendance db)).
Proof.
  intros Hreach. pose proof (reachable_references db Hreach) as Href.
  apply reachable_wf in Hreach.
  eexists. split; [apply get_attendance_stats_run |].
  assert (st_employee_id <$>
            ((fun e =>
                mkAttendanceStats (e_employee_id e) (e_full_name e)
                  (count_status (e_employee_id e) "Present" (attendance db))
                  (count_status (e_employee_id e) "Absent" (attendance db))
                  (count_records (e_employee_id e) (attendance db)))
             <$> employees db) = e_employee_id <$> employees db) as Hids.
  { rewrite <- list_fmap_compose. apply list_fmap_ext. intros i e _. reflexivity. }
  split; [exact Hids |]. split; [rewrite Hids; apply Hreach |].
  rewrite <- list_fmap_compose.
  apply (sum_counts_by_key a_employee_id e_employee_id);
    [apply Hreach | exact Href].
Qed.

Lemma mongo_stats_account_for_every_record_witness :
  exists ms,
    run exec get_attendance_stats Sample.mongo_db = (inr ms, Sample.mongo_db)
    /\ foldr Z.add 0 (total_days <$> ms) = 2.
Proof.
  destruct (mongo_stats_account_for_every_record Sample.mongo_db sample_mongo_reachable)
    as (ms & Hrun & _ & _ & Hsum).
  exists ms. split; [exact Hrun | exact Hsum].
Defined.

(** Rewrites with the boolean facts at hand. *)
Ltac use_bool_facts :=
  repeat match goal with
  | H : ?x = true |- context [?x] => rewrite H
  | H : ?x = false |- context [?x] => rewrite H
  end.

Lemma digit_not_dash c : Text.is_digit c = true -> Ascii.eqb c "-" = false.
Proof.
  destruct c as [[] [] [] [] [] [] [] []]; vm_compute; congruence.
Qed.

Lemma days_in_month_le_31 y m : Calendar.days_in_month y m <= 31.
Proof.
  unfold Calendar.days_in_month.
  destruct (m =? 2); [destruct (Calendar.is_leap y); lia |].
  destruct (_ || _); lia.
Qed.

(** Every ISO calendar date is read as that date, at midnight. *)
Lemma strptime_iso s d :
  Calendar.iso_date s = Some d ->
  Calendar.strptime_ymd s = inr (Calendar.combine_min d).
Proof.
  unfold Calendar.iso_date, Calendar.strptime_ymd.
  destruct (list_ascii_of_string s)
    as [| y1 [| y2 [| y3 [| y4 [| d1 [| m1 [| m2 [| d2 [| a [| b [| ? ?]]]]]]]]]]];
    try discriminate.
  destruct (_ && _) eqn:Hshape; [| discriminate].
  destruct (Calendar.valid_ymd _ _ _) eqn:Hvalid; [| discriminate].
  intros [= <-].
  do 9 (apply andb_true_iff in Hshape as [Hshape ?]).
  repeat match goal with H : Text.is_digit _ = true |- _ =>
    pose proof (digit_not_dash _ H); revert H
  end.
  intros.
  assert ((Calendar.two_digits a b <=? 31) = true) as Hday.
  { pose proof Hvalid as Hv. unfold Calendar.valid_ymd in Hv.
    apply andb_true_iff in Hv as [_ Hv]. apply Z.leb_le in Hv. apply Z.leb_le.
    pose proof (days_in_month_le_31
                  (100 * Calendar.two_digits y1 y2 + Calendar.two_digits y3 y4)
                  (Calendar.two_digits m1 m2)). lia. }
  pose proof Hvalid as Hv. unfold Calendar.valid_ymd in Hv.
  do 5 (apply andb_true_iff in Hv as [Hv ?]).
  repeat (use_bool_facts; simpl).
  reflexivity.
Qed.

Lemma iso_date_truthy s d : Calendar.iso_date s = Some d -> Text.truthy s = true.
Proof. destruct s; [discriminate | reflexivity]. Qed.

Lemma date_bound_iso s d :
  Calendar.iso_date s = Some d -> date_bound (Some s) = inr (Some d).
Proof.
  intros Hiso. unfold date_bound.
  rewrite (iso_date_truthy s d Hiso), (strptime_iso s d Hiso). reflexivity.
Qed.

(** X8. Bounds given as ISO calendar dates are always accepted: the
    listing succeeds, and every record it returns is dated within the
    two bounds. *)
Theorem mongo_listing_accepts_iso_dates
    (db : database) (employee_id : option string) (date_from date_to : string)
    (lo hi : date) :
  reachable db ->
  Calendar.iso_date date_from = Some lo -> Calendar.iso_date date_to = Some hi ->
  exists rs,
    run exec (get_attendance employee_id (Some date_from) (Some date_to)) db
    = (inr rs, db)
    /\ (forall r, r ∈ rs ->
          Calendar.date_leb lo (att_date r) = true
          /\ Calendar.date_leb (att_date r) hi = true).
Proof.
  intros Hreach Hlo Hhi. apply reachable_wf in Hreach.
  destruct (get_attendance_selected db employee_id (Some date_from) (Some date_to)
              (Some lo) (Some hi) Hreach (date_bound_iso _ _ Hlo) (date_bound_iso _ _ Hhi))
    as (rs & Hrun & Hperm & _).
  exists rs. split; [exact Hrun |].
  intros r Hr. rewrite Hperm in Hr.
  apply list_elem_of_fmap in Hr as (d & -> & Hd).
  apply list_elem_of_filter in Hd as [Hsel _]. apply Is_true_true in Hsel.
  unfold selected in Hsel. simpl in Hsel.
  apply andb_true_iff in Hsel as [Hsel H2]. apply andb_true_iff in Hsel as [_ H1].
  split; assumption.
Qed.

Lemma mongo_listing_accepts_iso_dates_witness :
  exists rs,
    run exec (get_attendance None (Some "2024-01-02") (Some "2024-12-31"))
      Sample.mongo_db = (inr rs, Sample.mongo_db)
    /\ (forall r, r ∈ rs ->
          Calendar.date_leb Sample.second_day (att_date r) = true
          /\ Calendar.date_leb (att_date r) (mkDate 2024 12 31) = true).
Proof.
  apply (mongo_listing_accepts_iso_dates Sample.mongo_db None "2024-01-02" "2024-12-31"
           Sample.second_day (mkDate 2024 12 31) sample_mongo_reachable);
    reflexivity.
Defined.

Lemma stored_status_value (d : attendance_doc) st :
  a_status d = status_value st -> stored_status d = st.
Proof. intros H. unfold stored_status. rewrite H. destruct st; reflexivity. Qed.

Lemma mongo_mark_attendance_response_aux
    (db : database) (a : AttendanceCreate) (emp : employee_doc) :
  reachable db -> emp ∈ employees db -> e_employee_id emp = ac_employee_id a ->
  exists r db' doc,
    run exec (mark_attendance a) db = (inr r, db')
    /\ wf db' /\ doc ∈ attendance db'
    /\ (r = response_of db' doc /\ a_employee_id doc = ac_employee_id a).
Proof.
  intros Hreach Hin Heq. apply reachable_wf in Hreach.
  pose proof (mark_attendance_wf a db Hreach) as Hwf'.
  pose proof (mark_attendance_employees a db) as Hemps.
  pose proof (find_unique_employee db emp (wf_employee_ids db Hreach) Hin) as Hemp.
  rewrite Heq in Hemp.
  revert Hwf' Hemps. unfold run, mark_attendance. simpl. rewrite Hemp. simpl.
  rewrite (find_by_key_records_on db _ _ (wf_midnight db Hreach)).
  destruct (records_on (ac_employee_id a) (ac_date a) db) as [| ex rest] eqn:Hrec;
    simpl.
  - assert (existsb (attendance_index_clash (ac_employee_id a)
                       (Calendar.combine_min (ac_date a))) (attendance db) = false)
      as Hclash.
    { apply find_by_key_None_clash.
      rewrite (find_by_key_records_on db _ _ (wf_midnight db Hreach)), Hrec.
      reflexivity. }
    rewrite Hclash. simpl.
    erewrite find_inserted; [| apply Hreach | reflexivity].
    simpl. rewrite status_of_value_value. simpl. intros Hwf' _.
    do 3 eexists. split; [reflexivity |]. split; [exact Hwf' |].
    split; [simpl; apply elem_of_app; right; left |].
    split; [| reflexivity].
    unfold response_of, employee_name. simpl. rewrite Hemp. simpl.
    rewrite (stored_status_value _ (ac_status a)) by reflexivity. reflexivity.
  - assert (ex ∈ records_on (ac_employee_id a) (ac_date a) db) as Hex
      by (rewrite Hrec; left).
    apply list_elem_of_filter in Hex as [[Hid Hdate] Hex].
    rewrite (find_updated_by_oid _ _ _ (wf_oids db Hreach) Hex). simpl.
    rewrite status_of_value_value. simpl. intros Hwf' _.
    do 3 eexists. split; [reflexivity |]. split; [exact Hwf' |].
    split; [simpl; apply update_first_by_oid_elem; [apply Hreach | exact Hex] |].
    split; [| exact Hid].
    unfold response_of, employee_name. simpl. rewrite Hid, Hemp. simpl.
    rewrite (stored_status_value _ (ac_status a)) by reflexivity. reflexivity.
Qed.

(** X9. What [mark_attendance] answers is what the listing shows
    afterwards: the response of a successful call is among the records of
    the listing without filters and of the listing for that employee. *)
Theorem mongo_mark_then_list
    (db : database) (a : AttendanceCreate) (emp : employee_doc) :
  reachable db -> emp ∈ employees db -> e_employee_id emp = ac_employee_id a ->
  exists r db' rs1 rs2,
    run exec (mark_attendance a) db = (inr r, db')
    /\ run exec (get_attendance None None None) db' = (inr rs1, db')
    /\ run exec (get_attendance (Some (ac_employee_id a)) None None) db' = (inr rs2, db')
    /\ r ∈ rs1 /\ r ∈ rs2.
Proof.
  intros Hreach Hin Heq.
  destruct (mongo_mark_attendance_response_aux db a emp Hreach Hin Heq)
    as (r & db' & doc & Hrun & Hwf' & Hdoc & Hr).
  destruct (get_attendance_selected db' None None None None None Hwf' eq_refl eq_refl)
    as (rs1 & Hrun1 & Hperm1 & _).
  destruct (get_attendance_selected db' (Some (ac_employee_id a)) None None None None
              Hwf' eq_refl eq_refl) as (rs2 & Hrun2 & Hperm2 & _).
  exists r, db', rs1, rs2.
  split; [exact Hrun |]. split; [exact Hrun1 |]. split; [exact Hrun2 |].
  destruct Hr as (-> & Hid).
  split.
  - rewrite Hperm1. apply list_elem_of_fmap_2. apply list_elem_of_filter.
    split; [exact I | exact Hdoc].
  - rewrite Hperm2. apply list_elem_of_fmap_2. apply list_elem_of_filter.
    split; [| exact Hdoc].
    apply Is_true_true. unfold selected, given.
    destruct (Text.truthy (ac_employee_id a)); simpl; [| reflexivity].
    rewrite Hid, String.eqb_refl. reflexivity.
Qed.

Lemma mongo_mark_then_list_witness :
  exists r db' rs,
    run exec (mark_attendance (mkAttendanceCreate "E2" Sample.new_year ABSENT))
      Sample.mongo_db = (inr r, db')
    /\ run exec (get_attendance (Some "E2") None None) db' = (inr rs, db')
    /\ r ∈ rs.
Proof.
  destruct (mongo_mark_then_list Sample.mongo_db
              (mkAttendanceCreate "E2" Sample.new_year ABSENT)
              (mkEmployeeDoc 1 "E2" "Bob" "b@x.com" "Ops") sample_mongo_reachable)
    as (r & db' & rs1 & rs2 & Hrun & _ & Hrun2 & _ & Hin);
    [vm_compute; right; left | reflexivity |].
  exists r, db', rs2. auto.
Defined.
End MongoMore.

(** ** The SQL backend, continued *)

Module SqlMore.
Import Sql SqlFacts.

Lemma sql_find_unique_employee (db : database) (emp : EmployeeDB) :
  NoDup (e_employee_id <$> employees db) -> emp ∈ employees db ->
  find (employee_matches (ByEmployeeId (e_employee_id emp))) (employees db) = Some emp.
Proof.
  intros Hnd Hin.
  destruct (find_elem_is_Some (employee_matches (ByEmployeeId (e_employee_id emp)))
              (employees db) emp Hin) as [x Hx].
  { simpl. apply String.eqb_refl. }
  rewrite Hx. f_equal. apply find_Some_elem in Hx as [Hxin Hm]. simpl in Hm.
  apply String.eqb_eq in Hm.
  eapply (NoDup_fmap_eq e_employee_id); eassumption.
Qed.

Lemma sql_find_unknown_employee (db : database) (employee_id : string) :
  (forall e, e ∈ employees db -> e_employee_id e <> employee_id) ->
  find (employee_matches (ByEmployeeId employee_id)) (employees db) = None.
Proof.
  intros Hnone. destruct (find _ _) as [x |] eqn:Hx; [| reflexivity].
  apply find_Some_elem in Hx as [Hin Hm]. simpl in Hm. apply String.eqb_eq in Hm.
  destruct (Hnone x Hin Hm).
Qed.

Lemma find_snoc_first {A} (f : A -> bool) (l : list A) (x : A) :
  find f l = None -> f x = true -> find f (l ++ [x]) = Some x.
Proof.
  intros Hl Hx. induction l as [| a l IH]; simpl in *; [rewrite Hx; reflexivity |].
  destruct (f a); [discriminate | apply IH; exact Hl].
Qed.

(** X11. An employee whose [employee_id] and [email] are both new is
    created with the submitted fields. Its [id] is the rowid that SQLite
    gives: one more than the largest [id] among the stored employees, 1
    when there is none, so that the [id] of a deleted newest employee is
    given again. The employee is then what [get_employee] returns for
    that [employee_id], and the last entry of [get_employees]. The
    attendance records are untouched. *)
Theorem sql_create_then_get (db : database) (e : EmployeeCreate) :
  (forall d, d ∈ employees db ->
     e_employee_id d <> ec_employee_id e /\ e_email d <> ec_email e) ->
  let emp := mkEmployee (next_employee_id db) (ec_employee_id e) (ec_full_name e)
               (ec_email e) (ec_department e) in
  exists db',
    run exec (create_employee e) db = (inr emp, db')
    /\ attendance db' = attendance db
    /\ run exec (get_employee (ec_employee_id e)) db' = (inr emp, db')
    /\ run exec get_employees db'
       = (inr ((employee_of_row <$> employees db) ++ [emp])%list, db').
Proof.
  intros Hfree.
  assert (find (employee_matches (ByEmployeeId (ec_employee_id e))) (employees db) = None)
    as H1 by (apply sql_find_unknown_employee; intros d Hd; apply (Hfree d Hd)).
  assert (find (employee_matches (ByEmail (ec_email e))) (employees db) = None) as H2.
  { destruct (find (employee_matches (ByEmail (ec_email e))) (employees db))
      as [x |] eqn:Hx; [| reflexivity].
    apply find_Some_elem in Hx as [Hin Hm]. simpl in Hm. apply String.eqb_eq in Hm.
    destruct (Hfree x Hin) as [_ Hne]. contradiction. }
  assert (existsb (employee_unique_clash (ec_employee_id e) (ec_email e)) (employees db)
          = false) as H3.
  { destruct (existsb _ _) eqn:Hex; [| reflexivity].
    apply existsb_true_elem in Hex as (d & Hin & Hc).
    unfold employee_unique_clash in Hc. destruct (Hfree d Hin) as [Ha Hb].
    apply orb_true_iff in Hc as [Hc | Hc]; apply String.eqb_eq in Hc; contradiction. }
  eexists. split; [| split; [| split]].
  - unfold run, create_employee. simpl. rewrite H1. simpl. rewrite H2. simpl.
    rewrite H3. reflexivity.
  - reflexivity.
  - unfold run, get_employee. simpl.
    rewrite (find_snoc_first _ _ _ H1) by (simpl; apply String.eqb_refl).
    reflexivity.
  - unfold run, get_employees. simpl. rewrite fmap_app. reflexivity.
Qed.

Lemma sql_create_then_get_witness :
  let carol := mkEmployeeCreate "E3" "Carol" "c@x.com" "Ops" in
  (exists db',
     run exec (create_employee carol) Sample.sql_db
     = (inr (mkEmployee 3 "E3" "Carol" "c@x.com" "Ops"), db')
     /\ run exec (get_employee "E3") db'
        = (inr (mkEmployee 3 "E3" "Carol" "c@x.com" "Ops"), db'))
  /\ (exists db',
        run exec (create_employee carol) (serve (DeleteEmployee "E1") Sample.sql_db)
        = (inr (mkEmployee 2 "E3" "Carol" "c@x.com" "Ops"), db')
        /\ run exec (get_employee "E3") db'
           = (inr (mkEmployee 2 "E3" "Carol" "c@x.com" "Ops"), db')).
Proof.
  intros carol. split.
  - destruct (sql_create_then_get Sample.sql_db carol) as (db' & Hrun & _ & Hget & _).
    + intros d Hd. vm_compute in Hd.
      repeat (apply elem_of_cons in Hd as [-> | Hd]; [split; discriminate |]).
      inversion Hd.
    + exists db'. split; [exact Hrun | exact Hget].
  - destruct (sql_create_then_get (serve (DeleteEmployee "E1") Sample.sql_db) carol)
      as (db' & Hrun & _ & Hget & _).
    + intros d Hd. vm_compute in Hd.
      repeat (apply elem_of_cons in Hd as [-> | Hd]; [split; discriminate |]).
      inversion Hd.
    + exists db'. split; [exact Hrun | exact Hget].
Defined.

(** X12. [get_employee] answers with the stored employee that has the
    [employee_id], and with 404 when there is none; the store is left as
    it is. *)
Theorem sql_get_employee_lookup (db : database) (employee_id : string) :
  reachable db ->
  (forall emp, emp ∈ employees db -> e_employee_id emp = employee_id ->
     run exec (get_employee employee_id) db = (inr (employee_of_row emp), db))
  /\ ((forall emp, emp ∈ employees db -> e_employee_id emp <> employee_id) ->
      run exec (get_employee employee_id) db = (inl (not_found employee_id), db)
      /\ http_status (not_found employee_id) = 404).
Proof.
  intros Hreach. apply sql_reachable_wf in Hreach. split.
  - intros emp Hin <-. unfold run, get_employee. simpl.
    rewrite (sql_find_unique_employee db emp (sql_wf_employee_ids db Hreach) Hin).
    reflexivity.
  - intros Hnone. split; [| reflexivity]. unfold run, get_employee. simpl.
    rewrite (sql_find_unknown_employee db employee_id Hnone). reflexivity.
Qed.

Lemma sql_get_employee_lookup_witness :
  run exec (get_employee "E2") Sample.sql_db
  = (inr (mkEmployee 1 "E2" "Bob" "b@x.com" "Ops"), Sample.sql_db)
  /\ run exec (get_employee "E9") Sample.sql_db
     = (inl (not_found "E9"), Sample.sql_db).
Proof.
  destruct (sql_get_employee_lookup Sample.sql_db "E2" sample_sql_reachable)
    as [Hfound _].
  destruct (sql_get_employee_lookup Sample.sql_db "E9" sample_sql_reachable)
    as [_ Hmissing].
  split.
  - apply (Hfound (mkEmployeeDB 1 "E2" "Bob" "b@x.com" "Ops"));
      [vm_compute; left | reflexivity].
  - apply Hmissing. intros emp Hd. vm_compute in Hd.
    repeat (apply elem_of_cons in Hd as [-> | Hd]; [discriminate |]).
    inversion Hd.
Defined.

(** X13. Deleting a stored employee removes this employee and every
    attendance record of this employee, and nothing else; afterwards the
    [employee_id] is unknown to [get_employee] and to a second deletion.
    Deleting an unknown [employee_id] answers 404 and changes nothing. *)
Theorem sql_delete_employee_cascades (db : database) (employee_id : string) :
  reachable db ->
  ((exists emp, emp ∈ employees db /\ e_employee_id emp = employee_id) ->
   exists db',
     run exec (delete_employee employee_id) db = (inr tt, db')
     /\ (forall e, e ∈ employees db' <->
                   e ∈ employees db /\ e_employee_id e <> employee_id)
     /\ (forall r, r ∈ attendance db' <->
                   r ∈ attendance db /\ a_employee_id r <> employee_id)
     /\ run exec (get_employee employee_id) db' = (inl (not_found employee_id), db')
     /\ run exec (delete_employee employee_id) db'
        = (inl (not_found employee_id), db'))
  /\ ((forall emp, emp ∈ employees db -> e_employee_id emp <> employee_id) ->
      run exec (delete_employee employee_id) db = (inl (not_found employee_id), db)).
Proof.
  intros Hreach. apply sql_reachable_wf in Hreach. split.
  - intros (emp & Hin & Heq). subst employee_id.
    pose proof (sql_find_unique_employee db emp (sql_wf_employee_ids db Hreach) Hin)
      as Hfind.
    assert (forall e, e ∈ filter (fun e' => Is_true (negb (e_id e' =? e_id emp)))
                          (employees db)
                      <-> e ∈ employees db /\ e_employee_id e <> e_employee_id emp)
      as Hemps.
    { intros e. rewrite list_elem_of_filter, Is_true_true, negb_true_iff, Z.eqb_neq.
      split.
      - intros [Hpk He]. split; [exact He |]. intros Hid. apply Hpk. f_equal.
        eapply (NoDup_fmap_eq e_employee_id); [apply Hreach | | | exact Hid]; assumption.
      - intros [He Hid]. split; [| exact He]. intros Hpk. apply Hid. f_equal.
        eapply (NoDup_fmap_eq e_id); [apply Hreach | | | exact Hpk]; assumption. }
    assert (find (employee_matches (ByEmployeeId (e_employee_id emp)))
              (filter (fun e' => Is_true (negb (e_id e' =? e_id emp))) (employees db))
            = None) as Hgone.
    { destruct (find _ (filter _ _)) as [x |] eqn:Hx; [| reflexivity].
      apply find_Some_elem in Hx as [Hxin Hm]. simpl in Hm. apply String.eqb_eq in Hm.
      apply Hemps in Hxin as [_ Hne]. contradiction. }
    eexists. split; [| split; [| split; [| split]]].
    + unfold run, delete_employee. simpl. rewrite Hfind. reflexivity.
    + exact Hemps.
    + intros r. simpl.
      rewrite list_elem_of_filter, Is_true_true, negb_true_iff, String.eqb_neq.
      tauto.
    + unfold run, get_employee. simpl. rewrite Hgone. reflexivity.
    + unfold run, delete_employee. simpl. rewrite Hgone. reflexivity.
  - intros Hnone. unfold run, delete_employee. simpl.
    rewrite (sql_find_unknown_employee db employee_id Hnone). reflexivity.
Qed.

Lemma sql_delete_employee_cascades_witness :
  exists db',
    run exec (delete_employee "E1") Sample.sql_db = (inr tt, db')
    /\ attendance db' = []
    /\ run exec (get_employee "E1") db' = (inl (not_found "E1"), db').
Proof.
  destruct (sql_delete_employee_cascades Sample.sql_db "E1" sample_sql_reachable)
    as [Hknown _].
  destruct Hknown as (db' & Hrun & _ & _ & Hget & _).
  - exists (mkEmployeeDB 2 "E1" "Alice" "a@x.com" "Eng").
    split; [vm_compute; right; left | reflexivity].
  - exists db'. split; [exact Hrun |]. split; [| exact Hget].
    injection Hrun as <-. reflexivity.
Defined.

(** *** What marking attendance answers and stores *)

Lemma sql_find_same_day_records_on db employee_id d :
  find (same_day employee_id d) (attendance db) = head (records_on employee_id d db).
Proof.
  unfold records_on. induction (attendance db) as [| x l IH]; [reflexivity |].
  simpl. rewrite filter_cons. destruct (same_day employee_id d x) eqn:Hm.
  - apply same_day_key in Hm. unfold key in Hm. injection Hm as H1 H2.
    rewrite decide_True by auto. reflexivity.
  - rewrite decide_False; [exact IH |]. intros [H1 H2].
    assert (same_day employee_id d x = true) as Hm'
      by (apply same_day_key; unfold key; congruence).
    congruence.
Qed.

(** X14. Marking attendance for a stored employee succeeds. The response
    carries the employee, date and status of the call and the name of the
    employee. Its [id] is that of the record already stored for the pair;
    when there was none it is the rowid that SQLite gives to the new
    record: one more than the largest [id] among the stored records, 1
    when there is none, also after records have been deleted. *)
Theorem sql_mark_attendance_response
    (db : database) (a : AttendanceCreate) (emp : EmployeeDB) :
  reachable db -> emp ∈ employees db -> e_employee_id emp = ac_employee_id a ->
  exists db',
    run exec (mark_attendance a) db
    = (inr (mkAttendance
              match records_on (ac_employee_id a) (ac_date a) db with
              | existing :: _ => a_id existing
              | [] => next_attendance_id db
              end
              (ac_employee_id a) (ac_date a) (ac_status a) (Some (e_full_name emp))),
       db').
Proof.
  intros Hreach Hin Heq. apply sql_reachable_wf in Hreach.
  pose proof (sql_find_unique_employee db emp (sql_wf_employee_ids db Hreach) Hin)
    as Hemp.
  rewrite Heq in Hemp.
  unfold run, mark_attendance. simpl. rewrite Hemp. simpl.
  rewrite sql_find_same_day_records_on.
  destruct (records_on (ac_employee_id a) (ac_date a) db) as [| ex rest] eqn:Hrec;
    simpl; [eauto |].
  assert (ex ∈ records_on (ac_employee_id a) (ac_date a) db) as Hex
    by (rewrite Hrec; left).
  apply list_elem_of_filter in Hex as [[Hid Hdate] Hex].
  rewrite (find_updated _ _ _ Hex (sql_wf_pks db Hreach)). simpl.
  unfold attendance_of_row. simpl. rewrite Hid, Hdate. eauto.
Qed.

Lemma sql_mark_attendance_response_witness :
  (exists db',
     run exec (mark_attendance (mkAttendanceCreate "E1" Sample.new_year ABSENT))
       Sample.sql_db
     = (inr (mkAttendance 2 "E1" Sample.new_year ABSENT (Some "Alice")), db'))
  /\ (exists db',
        run exec (mark_attendance (mkAttendanceCreate "E1" (mkDate 2024 1 3) ABSENT))
          Sample.sql_db
        = (inr (mkAttendance 3 "E1" (mkDate 2024 1 3) ABSENT (Some "Alice")), db'))
  /\ (exists db',
        run exec (mark_attendance (mkAttendanceCreate "E2" Sample.new_year PRESENT))
          (serve (DeleteEmployee "E1") Sample.sql_db)
        = (inr (mkAttendance 1 "E2" Sample.new_year PRESENT (Some "Bob")), db')).
Proof.
  split; [| split].
  - apply (sql_mark_attendance_response Sample.sql_db
             (mkAttendanceCreate "E1" Sample.new_year ABSENT)
             (mkEmployeeDB 2 "E1" "Alice" "a@x.com" "Eng") sample_sql_reachable);
      [vm_compute; right; left | reflexivity].
  - apply (sql_mark_attendance_response Sample.sql_db
             (mkAttendanceCreate "E1" (mkDate 2024 1 3) ABSENT)
             (mkEmployeeDB 2 "E1" "Alice" "a@x.com" "Eng") sample_sql_reachable);
      [vm_compute; right; left | reflexivity].
  - apply (sql_mark_attendance_response (serve (DeleteEmployee "E1") Sample.sql_db)
             (mkAttendanceCreate "E2" Sample.new_year PRESENT)
             (mkEmployeeDB 1 "E2" "Bob" "b@x.com" "Ops")).
    + apply reachable_serve. exact sample_sql_reachable.
    + vm_compute. left.
    + reflexivity.
Defined.

Lemma update_status_filter_other (P : AttendanceDB -> Prop)
    `{!forall r, Decision (P r)} pk st (l : list AttendanceDB) :
  (forall x, x ∈ l -> a_id x = pk -> ~ P x) ->
  (forall x, P (with_status x st) <-> P x) ->
  filter P (update_status pk st l) = filter P l.
Proof.
  intros Hpk Hst. unfold update_status.
  induction l as [| r l IH]; [reflexivity |].
  rewrite fmap_cons, !filter_cons, IH by (intros x Hx; apply Hpk; right; exact Hx).
  destruct (Z.eqb_spec (a_id r) pk) as [Heq | Hne].
  - assert (~ P r) as Hr by (apply Hpk; [left | exact Heq]).
    rewrite decide_False by (rewrite Hst; exact Hr).
    rewrite decide_False by exact Hr. reflexivity.
  - reflexivity.
Qed.

(** X15. Marking attendance for a stored employee is an upsert: the
    employees are untouched, the number of records grows by one exactly
    when the pair had no record, and the records of every other pair of
    employee and date are what they were. *)
Theorem sql_mark_attendance_upsert (db : database) (a : AttendanceCreate) :
  reachable db ->
  (exists emp, emp ∈ employees db /\ e_employee_id emp = ac_employee_id a) ->
  let db' := snd (run exec (mark_attendance a) db) in
  employees db' = employees db
  /\ length (attendance db') =
     (length (attendance db)
      + match records_on (ac_employee_id a) (ac_date a) db with
        | [] => 1
        | _ :: _ => 0
        end)%nat
  /\ (forall employee_id d,
        (employee_id, d) <> (ac_employee_id a, ac_date a) ->
        records_on employee_id d db' = records_on employee_id d db).
Proof.
  intros Hreach (emp & Hin & Heq). apply sql_reachable_wf in Hreach.
  split; [apply sql_mark_attendance_employees |].
  pose proof (sql_find_unique_employee db emp (sql_wf_employee_ids db Hreach) Hin)
    as Hemp.
  rewrite Heq in Hemp.
  unfold run, mark_attendance. simpl. rewrite Hemp. simpl.
  rewrite sql_find_same_day_records_on.
  destruct (records_on (ac_employee_id a) (ac_date a) db) as [| ex rest] eqn:Hrec;
    simpl.
  - split; [rewrite length_app; simpl; lia |].
    intros employee_id d Hne. unfold records_on. simpl.
    rewrite filter_app, filter_cons_False, filter_nil, app_nil_r; [reflexivity |].
    simpl. intros [H1 H2]. apply Hne. congruence.
  - assert (ex ∈ records_on (ac_employee_id a) (ac_date a) db) as Hex
      by (rewrite Hrec; left).
    apply list_elem_of_filter in Hex as [[Hid Hdate] Hex].
    rewrite (find_updated _ _ _ Hex (sql_wf_pks db Hreach)). simpl.
    split; [unfold update_status; rewrite length_fmap; lia |].
    intros employee_id d Hne. unfold records_on.
    apply update_status_filter_other; [| intros x; reflexivity].
    intros x Hx Hpk [H1 H2].
    assert (x = ex) as -> by
      (eapply (NoDup_fmap_eq a_id); [apply Hreach | exact Hx | exact Hex | exact Hpk]).
    apply Hne. congruence.
Qed.

Lemma sql_mark_attendance_upsert_witness :
  let db' := snd (run exec
                    (mark_attendance (mkAttendanceCreate "E2" Sample.new_year ABSENT))
                    Sample.sql_db) in
  length (attendance db') = S (length (attendance Sample.sql_db))
  /\ records_on "E1" Sample.new_year db'
     = records_on "E1" Sample.new_year Sample.sql_db.
Proof.
  destruct (sql_mark_attendance_upsert Sample.sql_db
              (mkAttendanceCreate "E2" Sample.new_year ABSENT) sample_sql_reachable)
    as (_ & Hlen & Hother).
  - exists (mkEmployeeDB 1 "E2" "Bob" "b@x.com" "Ops").
    split; [vm_compute; left | reflexivity].
  - split; [rewrite Hlen; reflexivity | apply Hother; discriminate].
Defined.

Lemma update_status_same st (l : list AttendanceDB) (x : AttendanceDB) :
  NoDup (a_id <$> l) -> x ∈ l -> a_status x = st ->
  update_status (a_id x) st l = l.
Proof.
  intros Hnd Hx Hst. unfold update_status.
  rewrite <- (list_fmap_id l) at 2. apply list_fmap_ext. intros i r Hr. simpl.
  destruct (Z.eqb_spec (a_id r) (a_id x)) as [Heq | _]; [| reflexivity].
  assert (r = x) as ->.
  { eapply (NoDup_fmap_eq a_id); [exact Hnd | | exact Hx | exact Heq].
    apply list_elem_of_lookup. eauto. }
  destruct x; simpl in *. subst. reflexivity.
Qed.

(** X16. Marking attendance is idempotent: the same call served a second
    time leaves the store that the first one left. *)
Theorem sql_mark_attendance_idempotent (db : database) (a : AttendanceCreate) :
  reachable db ->
  serve (MarkAttendance a) (serve (MarkAttendance a) db) = serve (MarkAttendance a) db.
Proof.
  intros Hreach. apply sql_reachable_wf in Hreach. simpl.
  destruct (find (employee_matches (ByEmployeeId (ac_employee_id a))) (employees db))
    as [emp |] eqn:Hemp.
  - set (db1 := snd (run exec (mark_attendance a) db)).
    assert (wf db1) as Hwf1 by (apply sql_mark_attendance_wf; exact Hreach).
    destruct (sql_mark_attendance_recorded a db Hreach) as (r & Hr & Hkey & Hst);
      [rewrite Hemp; eauto |].
    fold db1 in Hr.
    assert (find (employee_matches (ByEmployeeId (ac_employee_id a))) (employees db1)
            = Some emp) as Hemp1
      by (unfold db1; rewrite sql_mark_attendance_employees; exact Hemp).
    unfold run, mark_attendance. simpl. rewrite Hemp1. simpl.
    assert (find (same_day (ac_employee_id a) (ac_date a)) (attendance db1) = Some r)
      as Hfind.
    { destruct (find_elem_is_Some (same_day (ac_employee_id a) (ac_date a))
                  (attendance db1) r Hr) as [y Hy]; [apply same_day_key; exact Hkey |].
      rewrite Hy. f_equal. apply find_Some_elem in Hy as [Hyin Hm].
      apply same_day_key in Hm.
      eapply (NoDup_fmap_eq key); [apply Hwf1 | exact Hyin | exact Hr | congruence]. }
    rewrite Hfind. simpl.
    rewrite (find_updated _ _ _ Hr (sql_wf_pks db1 Hwf1)). simpl.
    rewrite (update_status_same _ _ _ (sql_wf_pks db1 Hwf1) Hr Hst).
    destruct db1; reflexivity.
  - assert (run exec (mark_attendance a) db
            = (inl (not_found (ac_employee_id a)), db)) as Hrun
      by (unfold run, mark_attendance; simpl; rewrite Hemp; reflexivity).
    rewrite Hrun. simpl. rewrite Hrun. reflexivity.
Qed.

Lemma sql_mark_attendance_idempotent_witness :
  serve (MarkAttendance (mkAttendanceCreate "E2" Sample.new_year ABSENT))
    (serve (MarkAttendance (mkAttendanceCreate "E2" Sample.new_year ABSENT))
       Sample.sql_db)
  = serve (MarkAttendance (mkAttendanceCreate "E2" Sample.new_year ABSENT))
      Sample.sql_db.
Proof.
  apply (sql_mark_attendance_idempotent Sample.sql_db
           (mkAttendanceCreate "E2" Sample.new_year ABSENT) sample_sql_reachable).
Defined.

(** X17. The duplicate checks of [create_employee] run in a fixed order
    and name the value that is taken: a stored [employee_id] is reported
    whatever the e-mail is, a stored e-mail only when the [employee_id] is
    new. Both leave the store alone. *)
Theorem sql_create_employee_conflict_detail (db : database) (e : EmployeeCreate) :
  ((exists d, d ∈ employees db /\ e_employee_id d = ec_employee_id e) ->
   run exec (create_employee e) db
   = (inl (HTTPException 400
             ("Employee ID '" +:+ ec_employee_id e +:+ "' already exists")), db))
  /\ ((forall d, d ∈ employees db -> e_employee_id d <> ec_employee_id e) ->
      (exists d, d ∈ employees db /\ e_email d = ec_email e) ->
      run exec (create_employee e) db
      = (inl (HTTPException 400
                ("Email '" +:+ ec_email e +:+ "' is already registered")), db)).
Proof.
  split.
  - intros (d & Hin & Hid). unfold run, create_employee. simpl.
    destruct (find_elem_is_Some (employee_matches (ByEmployeeId (ec_employee_id e)))
                (employees db) d Hin) as [x Hx]; [apply String.eqb_eq; exact Hid |].
    rewrite Hx. reflexivity.
  - intros Hfree (d & Hin & Hemail). unfold run, create_employee. simpl.
    rewrite (sql_find_unknown_employee db _ Hfree). simpl.
    destruct (find_elem_is_Some (employee_matches (ByEmail (ec_email e)))
                (employees db) d Hin) as [y Hy]; [apply String.eqb_eq; exact Hemail |].
    rewrite Hy. reflexivity.
Qed.

Lemma sql_create_employee_conflict_detail_witness :
  run exec (create_employee (mkEmployeeCreate "E1" "Carol" "b@x.com" "Ops"))
    Sample.sql_db
  = (inl (HTTPException 400 "Employee ID 'E1' already exists"), Sample.sql_db)
  /\ run exec (create_employee (mkEmployeeCreate "E3" "Carol" "b@x.com" "Ops"))
       Sample.sql_db
     = (inl (HTTPException 400 "Email 'b@x.com' is already registered"), Sample.sql_db).
Proof.
  split.
  - apply (sql_create_employee_conflict_detail Sample.sql_db
             (mkEmployeeCreate "E1" "Carol" "b@x.com" "Ops")).
    exists (mkEmployeeDB 2 "E1" "Alice" "a@x.com" "Eng").
    split; [vm_compute; right; left | reflexivity].
  - apply (sql_create_employee_conflict_detail Sample.sql_db
             (mkEmployeeCreate "E3" "Carol" "b@x.com" "Ops")).
    + intros d Hd. vm_compute in Hd.
      repeat (apply elem_of_cons in Hd as [-> | Hd]; [discriminate |]).
      inversion Hd.
    + exists (mkEmployeeDB 1 "E2" "Bob" "b@x.com" "Ops").
      split; [vm_compute; left | reflexivity].
Defined.

(** X18. The four reading endpoints never change the store, whatever
    their parameters are and whether they succeed or not. *)
Theorem sql_readers_read_only (db : database) (employee_id : string)
    (filter_id : option string) (date_from date_to : option date) :
  snd (run exec get_employees db) = db
  /\ snd (run exec (get_employee employee_id) db) = db
  /\ snd (run exec (get_attendance filter_id date_from date_to) db) = db
  /\ snd (run exec get_attendance_stats db) = db.
Proof.
  split; [reflexivity |]. split.
  - unfold run, get_employee. simpl. destruct (find _ _); reflexivity.
  - split; [apply sql_get_attendance_read_only | apply get_attendance_stats_read_only].
Qed.



End SqlMore.

(** ** Both backends *)

Lemma sql_reachable_references db : Sql.reachable db -> sql_references_hold db.
Proof. intros H. apply SqlFacts.sql_reachable_wf in H. apply H. Qed.

(** X20. In every store reached by serving requests, no two employees
    share an [employee_id], no two share an [email], and every attendance
    record names a stored employee. *)
Theorem reachable_stores_are_consistent (mdb : Mongo.database) (sdb : Sql.database) :
  Mongo.reachable mdb -> Sql.reachable sdb ->
  (NoDup (Mongo.e_employee_id <$> Mongo.employees mdb)
   /\ NoDup (Mongo.e_email <$> Mongo.employees mdb)
   /\ mongo_references_hold mdb)
  /\ (NoDup (Sql.e_employee_id <$> Sql.employees sdb)
      /\ NoDup (Sql.e_email <$> Sql.employees sdb)
      /\ sql_references_hold sdb).
Proof.
  intros Hm Hs. split.
  - split; [apply MongoFacts.reachable_wf, Hm |].
    split; [apply MongoFacts.reachable_wf, Hm |].
    apply MongoMore.reachable_references. exact Hm.
  - split; [apply SqlFacts.sql_reachable_wf, Hs |].
    split; [apply SqlFacts.sql_reachable_wf, Hs |].
    apply sql_reachable_references. exact Hs.
Qed.

Lemma reachable_stores_are_consistent_witness :
  NoDup (Mongo.e_email <$> Mongo.employees Sample.mongo_db)
  /\ sql_references_hold Sample.sql_db.
Proof.
  destruct (reachable_stores_are_consistent Sample.mongo_db Sample.sql_db
              sample_mongo_reachable sample_sql_reachable)
    as [(_ & H1 & _) (_ & _ & H2)].
  split; [exact H1 | exact H2].
Defined.

(** X25. In every store reached by serving requests one after the
    other, an employee has at most one attendance record on a calendar
    date, in both backends; and marking attendance twice for an existing
    employee and the same date, the second call after the first has
    returned, leaves exactly one record for the pair, whose status is that
    of the second call. *)
Theorem one_record_per_employee_and_date
    (mdb : Mongo.database) (sdb : Sql.database) :
  Mongo.reachable mdb -> Sql.reachable sdb ->
  (forall employee_id d,
     (length (Mongo.records_on employee_id d mdb) <= 1)%nat)
  /\ (forall employee_id d,
        (length (Sql.records_on employee_id d sdb) <= 1)%nat)
  /\ (forall employee_id d s1 s2,
        (exists e, e ∈ Mongo.employees mdb /\ Mongo.e_employee_id e = employee_id) ->
        exists r,
          Mongo.records_on employee_id d
            (Mongo.serve (Mongo.MarkAttendance (mkAttendanceCreate employee_id d s2))
               (Mongo.serve (Mongo.MarkAttendance (mkAttendanceCreate employee_id d s1))
                  mdb)) = [r]
          /\ Mongo.a_status r = status_value s2)
  /\ (forall employee_id d s1 s2,
        (exists e, e ∈ Sql.employees sdb /\ Sql.e_employee_id e = employee_id) ->
        exists r,
          Sql.records_on employee_id d
            (Sql.serve (Sql.MarkAttendance (mkAttendanceCreate employee_id d s2))
               (Sql.serve (Sql.MarkAttendance (mkAttendanceCreate employee_id d s1))
                  sdb)) = [r]
          /\ Sql.a_status r = s2).
Proof.
  intros Hm Hs.
  apply MongoFacts.reachable_wf in Hm. apply SqlFacts.sql_reachable_wf in Hs.
  split; [| split; [| split]].
  - intros employee_id d. apply MongoFacts.records_on_at_most_one. exact Hm.
  - intros employee_id d. apply SqlFacts.sql_records_on_at_most_one. exact Hs.
  - intros employee_id d s1 s2 He.
    apply MongoFacts.mark_attendance_twice; [exact Hm |].
    apply mongo_employee_found. exact He.
  - intros employee_id d s1 s2 He.
    apply SqlFacts.sql_mark_attendance_twice; [exact Hs |].
    apply sql_employee_found. exact He.
Qed.

Lemma one_record_per_employee_and_date_witness :
  (length (Mongo.records_on "E1" Sample.new_year Sample.mongo_db) <= 1)%nat
  /\ (length (Sql.records_on "E1" Sample.new_year Sample.sql_db) <= 1)%nat
  /\ (exists r,
        Mongo.records_on "E1" Sample.new_year
          (Mongo.serve (Mongo.MarkAttendance (mkAttendanceCreate "E1" Sample.new_year ABSENT))
             (Mongo.serve (Mongo.MarkAttendance (mkAttendanceCreate "E1" Sample.new_year PRESENT))
                Sample.mongo_db)) = [r] /\ Mongo.a_status r = "Absent")
  /\ (exists r,
        Sql.records_on "E1" Sample.new_year
          (Sql.serve (Sql.MarkAttendance (mkAttendanceCreate "E1" Sample.new_year ABSENT))
             (Sql.serve (Sql.MarkAttendance (mkAttendanceCreate "E1" Sample.new_year PRESENT))
                Sample.sql_db)) = [r] /\ Sql.a_status r = ABSENT).
Proof.
  destruct (one_record_per_employee_and_date Sample.mongo_db Sample.sql_db
              sample_mongo_reachable sample_sql_reachable) as (H1 & H2 & H3 & H4).
  split; [apply H1 |]. split; [apply H2 |]. split.
  - apply (H3 "E1" Sample.new_year PRESENT ABSENT).
    exists (Mongo.mkEmployeeDoc 0 "E1" "Alice" "a@x.com" "Eng").
    split; [vm_compute; left | reflexivity].
  - apply (H4 "E1" Sample.new_year PRESENT ABSENT).
    exists (Sql.mkEmployeeDB 2 "E1" "Alice" "a@x.com" "Eng").
    split; [vm_compute; right; left | reflexivity].
Defined.

(** X26. In the MongoDB backend the name of every listed record is
    looked up among the employees stored at the time of the call.
    Whatever the store holds (every stored status being Present or
    Absent), the call succeeds, every selected record is returned, and a
    record whose [employee_id] no stored employee has is returned with no
    name. *)
Theorem mongo_listing_resolves_employee_names
    (mdb : Mongo.database)
    (employee_id date_from date_to : option string) (q : Mongo.attendance_query) :
  Forall Mongo.valid_status (Mongo.attendance mdb) ->
  Mongo.build_query employee_id date_from date_to = inr q ->
  exists rs,
    run Mongo.exec (Mongo.get_attendance employee_id date_from date_to) mdb
    = (inr rs, mdb)
    /\ (forall r, r ∈ rs ->
          att_employee_name r = Mongo.employee_name mdb (att_employee_id r))
    /\ (forall d, d ∈ Mongo.attendance mdb ->
          Mongo.attendance_matches q d = true ->
          Mongo.response_of mdb d ∈ rs)
    /\ (forall d, d ∈ Mongo.attendance mdb ->
          Mongo.attendance_matches q d = true ->
          (forall e, e ∈ Mongo.employees mdb ->
             Mongo.e_employee_id e <> Mongo.a_employee_id d) ->
          exists r, r ∈ rs /\ att_id r = Mongo.a_oid d
                    /\ att_employee_id r = Mongo.a_employee_id d
                    /\ att_employee_name r = None).
Proof.
  intros Hvalid Hq.
  eexists. split; [apply MongoFacts.get_attendance_run; eassumption |].
  split; [| split].
  - intros r Hr. apply list_elem_of_fmap in Hr as (d & -> & _). reflexivity.
  - intros d Hd Hmatch. apply list_elem_of_fmap_2.
    rewrite merge_sort_Permutation. apply list_elem_of_filter.
    split; [apply Is_true_true; exact Hmatch | exact Hd].
  - intros d Hd Hmatch Hnone. exists (Mongo.response_of mdb d).
    split; [| split; [reflexivity | split; [reflexivity |]]].
    + apply list_elem_of_fmap_2.
      rewrite merge_sort_Permutation. apply list_elem_of_filter.
      split; [apply Is_true_true; exact Hmatch | exact Hd].
    + simpl. unfold Mongo.employee_name.
      destruct (find _ (Mongo.employees mdb)) as [e |] eqn:Hfind; [| reflexivity].
      apply find_Some_elem in Hfind as [He Hm]. simpl in Hm.
      apply String.eqb_eq in Hm. exfalso. exact (Hnone e He Hm).
Qed.

Lemma mongo_listing_resolves_employee_names_witness :
  exists rs r,
    run Mongo.exec (Mongo.get_attendance None None None) Sample.orphaned
    = (inr rs, Sample.orphaned)
    /\ r ∈ rs /\ att_id r = 0 /\ att_employee_id r = "E9"
    /\ att_employee_name r = None.
Proof.
  destruct (mongo_listing_resolves_employee_names Sample.orphaned
              None None None Mongo.empty_query)
    as (rs & Hrun & _ & _ & Horphan).
  - repeat constructor. exists PRESENT. reflexivity.
  - reflexivity.
  - destruct (Horphan
                (Mongo.mkAttendanceDoc 0 "E9" (Calendar.combine_min Sample.new_year)
                   "Present")) as (r & Hr & H1 & H2 & H3).
    + left.
    + reflexivity.
    + intros e He. inversion He.
    + exists rs, r. auto.
Defined.


(** *** Trimming *)

Lemma lstrip_length s : (String.length (Text.lstrip s) <= String.length s)%nat.
Proof.
  induction s as [| c s IH]; simpl; [lia |].
  destruct (Text.isspace c); simpl; lia.
Qed.

Lemma rstrip_length s : (String.length (Text.rstrip s) <= String.length s)%nat.
Proof.
  induction s as [| c s IH]; simpl; [lia |].
  destruct (Text.rstrip s); [destruct (Text.isspace c) |]; simpl in *; lia.
Qed.

Lemma strip_length s : (String.length (Text.strip s) <= String.length s)%nat.
Proof.
  unfold Text.strip. pose proof (rstrip_length (Text.lstrip s)).
  pose proof (lstrip_length s). lia.
Qed.

Lemma lstrip_idem s : Text.lstrip (Text.lstrip s) = Text.lstrip s.
Proof.
  induction s as [| c s IH]; simpl; [reflexivity |].
  destruct (Text.isspace c) eqn:Hc; [exact IH |]. simpl. rewrite Hc. reflexivity.
Qed.

Lemma rstrip_idem s : Text.rstrip (Text.rstrip s) = Text.rstrip s.
Proof.
  induction s as [| c s IH]; simpl; [reflexivity |].
  destruct (Text.rstrip s) as [| c' r] eqn:Hr.
  - destruct (Text.isspace c) eqn:Hc; simpl; [reflexivity |]. rewrite Hc. reflexivity.
  - simpl in *. rewrite IH. reflexivity.
Qed.

(** Trimming the right end keeps a left end that is already trimmed. *)
Lemma lstrip_rstrip s : Text.lstrip s = s -> Text.lstrip (Text.rstrip s) = Text.rstrip s.
Proof.
  destruct s as [| c s]; [reflexivity |]. simpl.
  destruct (Text.isspace c) eqn:Hc.
  - intros Heq. pose proof (lstrip_length s) as Hlen. rewrite Heq in Hlen.
    simpl in Hlen. lia.
  - intros _. destruct (Text.rstrip s); simpl; rewrite Hc; reflexivity.
Qed.

Lemma strip_idem s : Text.strip (Text.strip s) = Text.strip s.
Proof.
  unfold Text.strip.
  rewrite (lstrip_rstrip (Text.lstrip s) (lstrip_idem s)). apply rstrip_idem.
Qed.

Lemma truthy_length s : Text.truthy s = true -> (1 <= String.length s)%nat.
Proof. destruct s; [discriminate | simpl; lia]. Qed.

Lemma mongo_no_empty_strings_inv v v' :
  Mongo.no_empty_strings v = inr v' -> v' = Text.strip v /\ Text.truthy v' = true.
Proof.
  unfold Mongo.no_empty_strings. destruct (Text.truthy (Text.strip v)) eqn:Ht; simpl;
    [| discriminate].
  intros [= <-]. auto.
Qed.

Lemma sql_no_empty_strings_inv v v' :
  Sql.no_empty_strings v = inr v' -> v' = Text.strip v /\ Text.truthy v' = true.
Proof.
  unfold Sql.no_empty_strings.
  destruct (Text.truthy v); simpl; [| discriminate].
  destruct (Text.truthy (Text.strip v)) eqn:Ht; simpl; [| discriminate].
  intros [= <-]. auto.
Qed.

Lemma length_between_le lo hi v :
  length_between lo hi v = true -> (String.length v <= hi)%nat.
Proof.
  unfold length_between. intros H. apply andb_true_iff in H as [_ H].
  apply Nat.leb_le in H. exact H.
Qed.

Lemma trimmed_within_strip hi v :
  length_between 1 hi v = true -> Text.truthy (Text.strip v) = true ->
  trimmed_within hi (Text.strip v).
Proof.
  intros Hlen Ht. split; [apply strip_idem |]. split; [apply truthy_length, Ht |].
  pose proof (strip_length v). apply length_between_le in Hlen. lia.
Qed.

Lemma mongo_validate_error EmailStr a b c d err :
  Mongo.EmployeeCreate_validate EmailStr a b c d = inl err ->
  err = RequestValidationError.
Proof.
  unfold Mongo.EmployeeCreate_validate, and_then, require, field.
  destruct (length_between 1 50 a); [| intros [= <-]; reflexivity].
  destruct (Mongo.no_empty_strings a); [intros [= <-]; reflexivity |].
  destruct (length_between 1 100 b); [| intros [= <-]; reflexivity].
  destruct (Mongo.no_empty_strings b); [intros [= <-]; reflexivity |].
  destruct (EmailStr c); [| intros [= <-]; reflexivity].
  destruct (length_between 1 100 d); [| intros [= <-]; reflexivity].
  destruct (Mongo.no_empty_strings d); [intros [= <-]; reflexivity | discriminate].
Qed.

Lemma sql_validate_error EmailStr a b c d err :
  Sql.EmployeeCreate_validate EmailStr a b c d = inl err ->
  err = RequestValidationError.
Proof.
  unfold Sql.EmployeeCreate_validate, and_then, require, field.
  destruct (length_between 1 50 a); [| intros [= <-]; reflexivity].
  destruct (Sql.no_empty_strings a); [intros [= <-]; reflexivity |].
  destruct (length_between 1 100 b); [| intros [= <-]; reflexivity].
  destruct (Sql.no_empty_strings b); [intros [= <-]; reflexivity |].
  destruct (EmailStr c); [| intros [= <-]; reflexivity].
  destruct (length_between 1 100 d); [| intros [= <-]; reflexivity].
  destruct (Sql.no_empty_strings d); [intros [= <-]; reflexivity | discriminate].
Qed.

Lemma mongo_validate_nonempty EmailStr a b c d e :
  Mongo.EmployeeCreate_validate EmailStr a b c d = inr e ->
  Text.truthy (ec_employee_id e) = true /\ Text.truthy (ec_full_name e) = true
  /\ Text.truthy (ec_department e) = true.
Proof.
  unfold Mongo.EmployeeCreate_validate, and_then, require, field.
  destruct (length_between 1 50 a); [| discriminate].
  destruct (Mongo.no_empty_strings a) as [| a'] eqn:Ha; [discriminate |].
  destruct (length_between 1 100 b); [| discriminate].
  destruct (Mongo.no_empty_strings b) as [| b'] eqn:Hb; [discriminate |].
  destruct (EmailStr c) as [c' |]; [| discriminate].
  destruct (length_between 1 100 d); [| discriminate].
  destruct (Mongo.no_empty_strings d) as [| d'] eqn:Hd; [discriminate |].
  intros [= <-]. simpl.
  apply mongo_no_empty_strings_inv in Ha as [_ Ha], Hb as [_ Hb], Hd as [_ Hd]. auto.
Qed.

Lemma sql_validate_nonempty EmailStr a b c d e :
  Sql.EmployeeCreate_validate EmailStr a b c d = inr e ->
  Text.truthy (ec_employee_id e) = true /\ Text.truthy (ec_full_name e) = true
  /\ Text.truthy (ec_department e) = true.
Proof.
  unfold Sql.EmployeeCreate_validate, and_then, require, field.
  destruct (length_between 1 50 a); [| discriminate].
  destruct (Sql.no_empty_strings a) as [| a'] eqn:Ha; [discriminate |].
  destruct (length_between 1 100 b); [| discriminate].
  destruct (Sql.no_empty_strings b) as [| b'] eqn:Hb; [discriminate |].
  destruct (EmailStr c) as [c' |]; [| discriminate].
  destruct (length_between 1 100 d); [| discriminate].
  destruct (Sql.no_empty_strings d) as [| d'] eqn:Hd; [discriminate |].
  intros [= <-]. simpl.
  apply sql_no_empty_strings_inv in Ha as [_ Ha], Hb as [_ Hb], Hd as [_ Hd]. auto.
Qed.

(** X21. The fields of an accepted employee payload are trimmed, not
    empty and within their bounds: at most 50 characters for
    [employee_id], 100 for [full_name] and for [department]; a field that
    is empty or only white space is refused with a validation error. *)
Theorem accepted_employee_fields_are_bounded
    (EmailStr : string -> option string)
    (employee_id full_name email department : string) :
  (forall e,
     Mongo.EmployeeCreate_validate EmailStr employee_id full_name email department
     = inr e ->
     trimmed_within 50 (ec_employee_id e) /\ trimmed_within 100 (ec_full_name e)
     /\ trimmed_within 100 (ec_department e))
  /\ (forall e,
        Sql.EmployeeCreate_validate EmailStr employee_id full_name email department
        = inr e ->
        trimmed_within 50 (ec_employee_id e) /\ trimmed_within 100 (ec_full_name e)
        /\ trimmed_within 100 (ec_department e))
  /\ (Text.strip employee_id = "" \/ Text.strip full_name = ""
      \/ Text.strip department = "" ->
      Mongo.EmployeeCreate_validate EmailStr employee_id full_name email department
      = inl RequestValidationError
      /\ Sql.EmployeeCreate_validate EmailStr employee_id full_name email department
         = inl RequestValidationError).
Proof.
  split; [| split].
  - intros e. unfold Mongo.EmployeeCreate_validate, and_then, require, field.
    destruct (length_between 1 50 employee_id) eqn:L1; [| discriminate].
    destruct (Mongo.no_empty_strings employee_id) as [| a'] eqn:Ha; [discriminate |].
    destruct (length_between 1 100 full_name) eqn:L2; [| discriminate].
    destruct (Mongo.no_empty_strings full_name) as [| b'] eqn:Hb; [discriminate |].
    destruct (EmailStr email) as [c' |]; [| discriminate].
    destruct (length_between 1 100 department) eqn:L3; [| discriminate].
    destruct (Mongo.no_empty_strings department) as [| d'] eqn:Hd; [discriminate |].
    intros [= <-]. simpl.
    apply mongo_no_empty_strings_inv in Ha as [-> Ha], Hb as [-> Hb], Hd as [-> Hd].
    auto using trimmed_within_strip.
  - intros e. unfold Sql.EmployeeCreate_validate, and_then, require, field.
    destruct (length_between 1 50 employee_id) eqn:L1; [| discriminate].
    destruct (Sql.no_empty_strings employee_id) as [| a'] eqn:Ha; [discriminate |].
    destruct (length_between 1 100 full_name) eqn:L2; [| discriminate].
    destruct (Sql.no_empty_strings full_name) as [| b'] eqn:Hb; [discriminate |].
    destruct (EmailStr email) as [c' |]; [| discriminate].
    destruct (length_between 1 100 department) eqn:L3; [| discriminate].
    destruct (Sql.no_empty_strings department) as [| d'] eqn:Hd; [discriminate |].
    intros [= <-]. simpl.
    apply sql_no_empty_strings_inv in Ha as [-> Ha], Hb as [-> Hb], Hd as [-> Hd].
    auto using trimmed_within_strip.
  - intros Hblank. split.
    + destruct (Mongo.EmployeeCreate_validate EmailStr employee_id full_name email
                  department) as [err | e] eqn:Hv.
      * f_equal. exact (mongo_validate_error _ _ _ _ _ _ Hv).
      * exfalso.
        apply MongoFacts.EmployeeCreate_validate_ok in Hv as Hok.
        destruct Hok as (H1 & H2 & H3 & _).
        apply mongo_validate_nonempty in Hv as (T1 & T2 & T3).
        rewrite H1 in T1. rewrite H2 in T2. rewrite H3 in T3.
        destruct Hblank as [H | [H | H]]; rewrite H in *; discriminate.
    + destruct (Sql.EmployeeCreate_validate EmailStr employee_id full_name email
                  department) as [err | e] eqn:Hv.
      * f_equal. exact (sql_validate_error _ _ _ _ _ _ Hv).
      * exfalso.
        apply SqlFacts.sql_EmployeeCreate_validate_ok in Hv as Hok.
        destruct Hok as (H1 & H2 & H3 & _).
        apply sql_validate_nonempty in Hv as (T1 & T2 & T3).
        rewrite H1 in T1. rewrite H2 in T2. rewrite H3 in T3.
        destruct Hblank as [H | [H | H]]; rewrite H in *; discriminate.
Qed.

Lemma accepted_employee_fields_are_bounded_witness :
  trimmed_within 50 "E3"
  /\ Mongo.EmployeeCreate_validate Sample.any_email "E3" "   " "c@x.com" "Ops"
     = inl RequestValidationError.
Proof.
  destruct (accepted_employee_fields_are_bounded Sample.any_email
              " E3  " "Carol " "c@x.com" "Ops") as (Hmongo & _ & _).
  destruct (accepted_employee_fields_are_bounded Sample.any_email
              "E3" "   " "c@x.com" "Ops") as (_ & _ & Hblank).
  split.
  - apply (Hmongo (mkEmployeeCreate "E3" "Carol" "c@x.com" "Ops")). reflexivity.
  - apply Hblank. right. left. reflexivity.
Defined.

(** X22. An attendance payload is accepted exactly when its date is not
    after the current date and its status is ["Present"] or ["Absent"],
    spelled so; the accepted payload carries the date, the status and the
    [employee_id] as submitted. *)
Theorem attendance_payload_accepted_iff
    (today d : date) (employee_id status : string) (a : AttendanceCreate) :
  (Mongo.AttendanceCreate_validate today employee_id d status = inr a <->
   Calendar.date_ltb today d = false /\ status = status_value (ac_status a)
   /\ ac_employee_id a = employee_id /\ ac_date a = d)
  /\ (Sql.AttendanceCreate_validate today employee_id d status = inr a <->
      Calendar.date_ltb today d = false /\ status = status_value (ac_status a)
      /\ ac_employee_id a = employee_id /\ ac_date a = d).
Proof.
  assert (forall validate : date -> date -> exn + date,
            (forall t v, validate t v =
               if Calendar.date_ltb t v
               then inl (ValueError "Attendance date cannot be in the future")
               else inr v) ->
            and_then (field (validate today d)) (fun d' =>
              match status_of_value status with
              | None => inl RequestValidationError
              | Some st => inr (mkAttendanceCreate employee_id d' st)
              end) = inr a <->
            Calendar.date_ltb today d = false /\ status = status_value (ac_status a)
            /\ ac_employee_id a = employee_id /\ ac_date a = d) as Hboth.
  { intros validate Hv. rewrite Hv. split.
    - destruct (Calendar.date_ltb today d); simpl; [discriminate |].
      destruct (status_of_value status) as [st |] eqn:Hst; [| discriminate].
      intros [= <-]. simpl. apply status_of_value_inv in Hst. auto.
    - intros (Hd & Hst & Hid & Hdate). rewrite Hd. simpl.
      rewrite Hst, status_of_value_value. destruct a; simpl in *. subst. reflexivity. }
  split; apply Hboth; reflexivity.
Qed.

Lemma attendance_payload_accepted_iff_witness :
  Mongo.AttendanceCreate_validate Sample.second_day " E1" Sample.new_year "Absent"
  = inr (mkAttendanceCreate " E1" Sample.new_year ABSENT)
  /\ Sql.AttendanceCreate_validate Sample.second_day " E1" Sample.new_year "Absent"
     = inr (mkAttendanceCreate " E1" Sample.new_year ABSENT).
Proof.
  destruct (attendance_payload_accepted_iff Sample.second_day Sample.new_year " E1"
              "Absent" (mkAttendanceCreate " E1" Sample.new_year ABSENT)) as [Hm Hs].
  split; [apply Hm | apply Hs]; repeat split; reflexivity.
Defined.

Lemma attendance_payload_fields (today d : date) (employee_id status : string)
    (a : AttendanceCreate) :
  (Mongo.AttendanceCreate_validate today employee_id d status = inr a ->
   ac_employee_id a = employee_id)
  /\ (Sql.AttendanceCreate_validate today employee_id d status = inr a ->
      ac_employee_id a = employee_id).
Proof.
  unfold Mongo.AttendanceCreate_validate, Sql.AttendanceCreate_validate, and_then,
    field, Mongo.validate_date, Sql.validate_date.
  destruct (Calendar.date_ltb today d); [split; discriminate |].
  destruct (status_of_value status); [| split; discriminate].
  split; intros [= <-]; reflexivity.
Qed.

(** X23. The [employee_id] of an attendance payload is compared as it is
    submitted: where the stored [employee_id]s are trimmed, as those of
    accepted employee payloads are, an [employee_id] with white space
    around it is unknown, and marking attendance for it answers 404. *)
Theorem attendance_employee_id_is_not_trimmed
    (mdb : Mongo.database) (sdb : Sql.database)
    (today d : date) (employee_id status : string) (a : AttendanceCreate) :
  Text.strip employee_id <> employee_id ->
  ((forall e, e ∈ Mongo.employees mdb ->
      Text.strip (Mongo.e_employee_id e) = Mongo.e_employee_id e) ->
   Mongo.AttendanceCreate_validate today employee_id d status = inr a ->
   exists err,
     run Mongo.exec (Mongo.mark_attendance a) mdb = (inl err, mdb)
     /\ http_status err = 404)
  /\ ((forall e, e ∈ Sql.employees sdb ->
         Text.strip (Sql.e_employee_id e) = Sql.e_employee_id e) ->
      Sql.AttendanceCreate_validate today employee_id d status = inr a ->
      exists err,
        run Sql.exec (Sql.mark_attendance a) sdb = (inl err, sdb)
        /\ http_status err = 404).
Proof.
  intros Hspace.
  destruct (attendance_payload_fields today d employee_id status a) as [Hm Hs].
  split.
  - intros Htrim Hvalid. apply Hm in Hvalid.
    eexists. split; [apply MongoFacts.mark_attendance_unknown | reflexivity].
    intros e He Heq.
    apply Hspace. rewrite <- Hvalid, <- Heq. apply Htrim. exact He.
  - intros Htrim Hvalid. apply Hs in Hvalid.
    eexists. split; [apply SqlFacts.sql_mark_attendance_unknown | reflexivity].
    intros e He Heq.
    apply Hspace. rewrite <- Hvalid, <- Heq. apply Htrim. exact He.
Qed.

Lemma attendance_employee_id_is_not_trimmed_witness :
  exists err,
    run Mongo.exec
      (Mongo.mark_attendance (mkAttendanceCreate " E1" Sample.new_year ABSENT))
      Sample.mongo_db = (inl err, Sample.mongo_db)
    /\ http_status err = 404.
Proof.
  destruct (attendance_employee_id_is_not_trimmed Sample.mongo_db Sample.sql_db
              Sample.second_day Sample.new_year " E1" "Absent"
              (mkAttendanceCreate " E1" Sample.new_year ABSENT)) as [Hm _];
    [intros H; vm_compute in H; discriminate |].
  apply Hm; [| reflexivity].
  intros e He. vm_compute in He.
  repeat (apply elem_of_cons in He as [-> | He]; [reflexivity |]).
  inversion He.
Defined.

(** *** The database address *)

Lemma prefix_nil s : String.prefix "" s = true.
Proof. destruct s; reflexivity. Qed.

Lemma prefix_app p rest : String.prefix p (p +:+ rest) = true.
Proof.
  induction p as [| c p IH]; simpl; [apply prefix_nil |].
  destruct (ascii_dec c c); [exact IH | congruence].
Qed.

Lemma prefix_split p s : String.prefix p s = true -> exists rest, s = p +:+ rest.
Proof.
  revert s. induction p as [| c p IH]; intros s.
  - intros _. exists s. reflexivity.
  - destruct s as [| c' s]; simpl; [discriminate |].
    destruct (ascii_dec c c') as [-> | _]; [| discriminate].
    intros H. destruct (IH s H) as [rest ->]. exists rest. reflexivity.
Qed.

Lemma drop_chars_app p rest : Config.drop_chars (String.length p) (p +:+ rest) = rest.
Proof. induction p as [| c p IH]; simpl; [reflexivity | exact IH]. Qed.

(** A string that starts with [old] has it replaced there. *)
Lemma replace_first_prefix old new rest :
  Config.replace_first old new (old +:+ rest) = new +:+ rest.
Proof.
  assert (forall s, Config.replace_first old new s =
            if String.prefix old s
            then new +:+ Config.drop_chars (String.length old) s
            else match s with
                 | EmptyString => EmptyString
                 | String c s' => String c (Config.replace_first old new s')
                 end) as Hunfold by (intros [| c s]; reflexivity).
  rewrite Hunfold, prefix_app, drop_chars_app. reflexivity.
Qed.

(** X24. The address never starts with ["postgres://"]: such a prefix
    is rewritten to ["postgresql://"] and the rest is kept; any other
    address is used as it is, and the SQLite file is the default. Reading
    the result again changes nothing. *)
Theorem database_url_is_normalised (env : option string) :
  Config.startswith (Config.DATABASE_URL env) "postgres://" = false
  /\ (forall rest, env = Some ("postgres://" +:+ rest) ->
        Config.DATABASE_URL env = "postgresql://" +:+ rest)
  /\ (forall url, env = Some url -> Config.startswith url "postgres://" = false ->
        Config.DATABASE_URL env = url)
  /\ (env = None -> Config.DATABASE_URL env = "sqlite:///./hrms.db")
  /\ Config.DATABASE_URL (Some (Config.DATABASE_URL env)) = Config.DATABASE_URL env.
Proof.
  assert (forall rest, Config.DATABASE_URL (Some ("postgres://" +:+ rest))
                       = "postgresql://" +:+ rest) as Hpg.
  { intros rest. unfold Config.DATABASE_URL, Config.startswith.
    cbn [default from_option id]. rewrite prefix_app. apply replace_first_prefix. }
  assert (forall url, Config.startswith url "postgres://" = false ->
                      Config.DATABASE_URL (Some url) = url) as Hother.
  { intros url Hurl. unfold Config.DATABASE_URL. simpl. rewrite Hurl. reflexivity. }
  assert (Config.startswith (Config.DATABASE_URL env) "postgres://" = false) as Hfixed.
  { destruct env as [url |]; [| reflexivity].
    destruct (Config.startswith url "postgres://") eqn:Hurl.
    - apply prefix_split in Hurl as [rest ->]. rewrite Hpg.
      unfold Config.startswith. vm_compute. reflexivity.
    - rewrite Hother by exact Hurl. exact Hurl. }
  split; [exact Hfixed |]. split; [intros rest ->; apply Hpg |].
  split; [intros url ->; apply Hother |]. split; [intros ->; reflexivity |].
  apply Hother. exact Hfixed.
Qed.

Lemma database_url_is_normalised_witness :
  Config.DATABASE_URL (Some "postgres://user@host/hrms") = "postgresql://user@host/hrms"
  /\ Config.DATABASE_URL (Some "mysql://host/hrms") = "mysql://host/hrms".
Proof.
  destruct (database_url_is_normalised (Some "postgres://user@host/hrms"))
    as (_ & Hpg & _).
  destruct (database_url_is_normalised (Some "mysql://host/hrms"))
    as (_ & _ & Hother & _).
  split; [apply Hpg | apply Hother]; reflexivity.
Defined.

(** *** The unique index under interleaving *)

Lemma mongo_serve_unique_key (r : Mongo.request) (db : Mongo.database) :
  NoDup (Mongo.key <$> Mongo.attendance db) ->
  NoDup (Mongo.key <$> Mongo.attendance (Mongo.serve r db)).
Proof.
  intros Hnd.
  destruct r; unfold Mongo.serve, run;
    (apply mongo_interleaved_unique_key; [constructor | exact Hnd]).
Qed.

Lemma mongo_serve_all_unique_key (rs : list Mongo.request) (db : Mongo.database) :
  NoDup (Mongo.key <$> Mongo.attendance db) ->
  NoDup (Mongo.key <$> Mongo.attendance (foldr Mongo.serve db rs)).
Proof.
  intros Hnd. induction rs as [| r rs IH]; simpl; [exact Hnd |].
  apply mongo_serve_unique_key. exact IH.
Qed.

(** X10. The unique index on [(employee_id, date)] holds under
    concurrency. While [mark_attendance] runs, other requests may be
    served between any two of its storage calls, also between its
    [find_one] and its [insert_one]; whatever they are, the collection
    still has at most one record per employee and date when the handler
    returns or raises. *)
Theorem mongo_unique_index_under_interleaving (a : AttendanceCreate)
    (others : list (list Mongo.request)) (db : Mongo.database) :
  NoDup (Mongo.key <$> Mongo.attendance db) ->
  NoDup (Mongo.key <$> Mongo.attendance
           (snd (run_interleaved Mongo.exec
                   ((fun rs s => foldr Mongo.serve s rs) <$> others)
                   (Mongo.mark_attendance a) db))).
Proof.
  intros Hnd. apply mongo_interleaved_unique_key; [| exact Hnd].
  apply Forall_fmap, Forall_forall. intros rs _ s Hs. simpl.
  apply mongo_serve_all_unique_key. exact Hs.
Qed.

Lemma mongo_unique_index_under_interleaving_witness :
  let a := mkAttendanceCreate "E1" Sample.second_day PRESENT in
  let db := Mongo.serve (Mongo.CreateEmployee Sample.alice) Mongo.empty_database in
  NoDup (Mongo.key <$> Mongo.attendance db)
  /\ NoDup (Mongo.key <$> Mongo.attendance
              (snd (run_interleaved Mongo.exec
                      ((fun rs s => foldr Mongo.serve s rs)
                         <$> [[]; []; [Mongo.MarkAttendance a]])
                      (Mongo.mark_attendance a) db))).
Proof.
  intros a db.
  assert (NoDup (Mongo.key <$> Mongo.attendance db)) as Hnd.
  { vm_compute. constructor. }
  split; [exact Hnd |].
  apply (mongo_unique_index_under_interleaving a [[]; []; [Mongo.MarkAttendance a]] db).
  exact Hnd.
Defined.
